(** * engine_finetune.py: one training epoch and one evaluation pass

    A shallow embedding of [train_one_epoch] and [evaluate] of
    [engine_finetune.py].  Both functions are orchestration code: they call
    the model, the criterion, the optimizer, the loss scaler, the metric
    logger and the plotting library in a fixed order and branch on a few
    values those collaborators hand back.

    The embedding therefore records _what is called, in which order and with
    which arguments_: a run is a list of [event]s together with an [outcome]
    (normal return, [sys.exit], or an unhandled Python exception).  The
    values the collaborators answer (the loss of a batch, the learning rates
    of the parameter groups, the predictions of the model) are part of the
    input of a run: they are what the run observes, batch by batch.

    Conventions.
    - Python [int]s are [Z]; [%] on ints is floored like [Z.modulo] and
      raises [ZeroDivisionError] on a zero divisor.
    - Python [float]s are [pyfloat]: exact rationals extended with the three
      IEEE special values.  Rounding and overflow are not modelled; the
      treatment of NaN and the infinities is.
    - Calls into the external libraries (torch, timm, sklearn, seaborn,
      matplotlib) are assumed to return; what they are called with is
      recorded in the trace. *)

From Stdlib Require Import List ZArith QArith Qcanon String Bool Lia Arith.
Import ListNotations.

Local Open Scope string_scope.
Local Open Scope list_scope.
Local Open Scope Z_scope.

(** ** Python values *)

(** Unhandled exceptions that the two functions can let escape. *)
Inductive exn : Type :=
| ZeroDivisionError
| KeyError (key : Z)
| UnboundLocalError (name : string).

(** How a call ends. *)
Inductive outcome (A : Type) : Type :=
| Returns (a : A)
| Exits (code : Z)
| Raises (e : exn).
Arguments Returns {A} a.
Arguments Exits {A} code.
Arguments Raises {A} e.

Module PyFloat.

(** A Python float (and the scalar content of a 0-dim tensor). *)
Inductive pyfloat : Type :=
| Finite (q : Qc)
| PosInf
| NegInf
| NaN.

Definition of_Z (z : Z) : pyfloat := Finite (Q2Qc (inject_Z z)).

(** [math.isfinite] *)
Definition isfinite (x : pyfloat) : bool :=
  match x with
  | Finite _ => true
  | _ => false
  end.

Definition is_zero (q : Qc) : bool :=
  match (q ?= 0)%Qc with Eq => true | _ => false end.

Definition is_neg (q : Qc) : bool :=
  match (q ?= 0)%Qc with Lt => true | _ => false end.

(** Sign of a value that is neither NaN nor zero: [true] for negative. *)
Definition negative (x : pyfloat) : bool :=
  match x with
  | Finite q => is_neg q
  | NegInf => true
  | _ => false
  end.

Definition signed_inf (neg : bool) : pyfloat := if neg then NegInf else PosInf.

(** [x + y] *)
Definition fadd (x y : pyfloat) : pyfloat :=
  match x, y with
  | NaN, _ | _, NaN => NaN
  | PosInf, NegInf | NegInf, PosInf => NaN
  | PosInf, _ | _, PosInf => PosInf
  | NegInf, _ | _, NegInf => NegInf
  | Finite a, Finite b => Finite (a + b)%Qc
  end.

(** [x * y] *)
Definition fmul (x y : pyfloat) : pyfloat :=
  match x, y with
  | NaN, _ | _, NaN => NaN
  | Finite a, Finite b => Finite (a * b)%Qc
  | Finite a, _ => if is_zero a then NaN else signed_inf (xorb (is_neg a) (negative y))
  | _, Finite b => if is_zero b then NaN else signed_inf (xorb (negative x) (is_neg b))
  | _, _ => signed_inf (xorb (negative x) (negative y))
  end.

(** Division where the divisor is known to be non-zero. *)
Definition fdiv_nz (x y : pyfloat) : pyfloat :=
  match x, y with
  | NaN, _ | _, NaN => NaN
  | Finite a, Finite b => Finite (a / b)%Qc
  | Finite _, _ => Finite 0%Qc
  | _, Finite b => signed_inf (xorb (negative x) (is_neg b))
  | _, _ => NaN
  end.

Definition is_zero_float (y : pyfloat) : bool :=
  match y with Finite b => is_zero b | _ => false end.

(** Python's [x / y] on floats and ints: a zero divisor raises. *)
Definition truediv (x y : pyfloat) : outcome pyfloat :=
  if is_zero_float y then Raises ZeroDivisionError else Returns (fdiv_nz x y).

(** torch's [x / y] on tensors: a zero divisor gives NaN or an infinity. *)
Definition tensor_div (x y : pyfloat) : pyfloat :=
  if is_zero_float y then
    match x with
    | NaN => NaN
    | Finite a => if is_zero a then NaN else signed_inf (is_neg a)
    | PosInf => PosInf
    | NegInf => NegInf
    end
  else fdiv_nz x y.

(** [x < y]: false as soon as a NaN is involved. *)
Definition flt (x y : pyfloat) : bool :=
  match x, y with
  | NaN, _ | _, NaN => false
  | Finite a, Finite b => match (a ?= b)%Qc with Lt => true | _ => false end
  | NegInf, NegInf => false
  | NegInf, _ => true
  | _, PosInf => match x with PosInf => false | _ => true end
  | _, _ => false
  end.

(** The builtins [min(a, b)] and [max(a, b)]: the first argument is kept
    unless the second is strictly smaller (larger). *)
Definition py_min (a b : pyfloat) : pyfloat := if flt b a then b else a.
Definition py_max (a b : pyfloat) : pyfloat := if flt a b then b else a.

End PyFloat.
Export PyFloat.

(** [a % b] on Python ints. *)
Definition py_mod (a b : Z) : outcome Z :=
  if b =? 0 then Raises ZeroDivisionError else Returns (a mod b).

(** [str(x)] for an optional string: [None] prints as "None". *)
Definition py_str (s : option string) : string :=
  match s with
  | Some s => s
  | None => "None"
  end.

(** A scalar tensor that came out of the criterion: its value and the step
    whose forward pass built its graph. *)
Record tensor : Type := mkTensor { t_src : nat; t_val : pyfloat }.

(** [loss /= k] *)
Definition tensor_idiv (t : tensor) (k : Z) : tensor :=
  mkTensor (t_src t) (tensor_div (t_val t) (of_Z k)).

(** The float [data_iter_step / len(data_loader) + epoch], kept unevaluated. *)
Record progress : Type :=
  mkProgress { p_step : nat; p_len : nat; p_epoch : Z }.

(** ** Traces *)

(** What [print] is given. *)
Inductive message : Type :=
| MsgLogDir                                   (* 'log_dir: {}' *)
| MsgLossStop (loss_value : pyfloat)          (* "Loss is {}, stopping training" *)
| MsgAveragedStats                            (* "Averaged stats:", metric_logger *)
| MsgTestSummary (acc1 acc3 loss f1 : pyfloat). (* '* Acc@1 ... F1 ...' *)

(** The calls a run makes to its collaborators, in program order. *)
Inductive event : Type :=
| EvModelTrain (mode : bool)                  (* model.train(True) *)
| EvModelEval                                 (* model.eval() *)
| EvNoGradEnter                               (* @torch.no_grad(): entering *)
| EvNoGradExit                                (* @torch.no_grad(): leaving *)
| EvZeroGrad                                  (* optimizer.zero_grad() *)
| EvPrint (m : message)
| EvYield (i : nat)                           (* log_every hands out batch i *)
| EvExhausted                                 (* log_every is exhausted *)
| EvAdjustLR (p : progress)                   (* lr_sched.adjust_learning_rate *)
| EvToDevice                                  (* x.to(device, non_blocking=True) *)
| EvMixup                                     (* mixup_fn(samples, targets) *)
| EvAutocastEnter
| EvAutocastExit
| EvForward (i : nat)                         (* model(samples) *)
| EvCriterion (i : nat)                       (* criterion(outputs, targets) *)
| EvLossItem (v : pyfloat)                    (* loss.item() *)
| EvLossScaler (loss : tensor) (clip_grad : pyfloat) (update_grad : bool)
| EvMeterUpdate (name : string) (v : pyfloat) (n : Z)
| EvAllReduceMean (v : pyfloat)               (* misc.all_reduce_mean *)
| EvAddScalar (tag : string) (v : pyfloat) (p : progress)
| EvSynchronize                               (* synchronize_between_processes *)
| EvAccuracy (i : nat)                        (* timm's accuracy(output, target, topk) *)
| EvF1Score (target pred : list Z)            (* sklearn's f1_score *)
| EvConfusionMatrix (targets preds : list Z)  (* sklearn's confusion_matrix *)
| EvFigure                                    (* plt.figure *)
| EvHeatmap (targets preds : list Z) (labels : list string)
| EvAxisLabels                                (* plt.xlabel, plt.ylabel *)
| EvTitle (plot_title : option string) (binary : bool) (acc : pyfloat)
| EvShow                                      (* plt.show *)
| EvSavefig (path : string).                  (* plt.savefig *)

Definition trace : Type := list event.

(** A computation: the events it emitted and how it ended. *)
Definition M (A : Type) : Type := (trace * outcome A)%type.

Definition ret {A} (a : A) : M A := ([], Returns a).

Definition bind {A B} (m : M A) (k : A -> M B) : M B :=
  match m with
  | (t, Returns a) => let (t', o) := k a in (t ++ t', o)
  | (t, Exits c) => (t, Exits c)
  | (t, Raises e) => (t, Raises e)
  end.

Definition emit (e : event) : M unit := ([e], Returns tt).

(** An operation of Python itself, which emits nothing. *)
Definition lift {A} (o : outcome A) : M A := ([], o).

(** [sys.exit(code)] *)
Definition sys_exit {A} (code : Z) : M A := ([], Exits code).

Definition raise {A} (e : exn) : M A := ([], Raises e).

(** [if c: m] *)
Definition when (c : bool) (m : M unit) : M unit := if c then m else ret tt.

Declare Scope py_scope.
Delimit Scope py_scope with py.
Notation "x <- m ;; k" := (bind m (fun x => k))
  (at level 61, m at next level, right associativity) : py_scope.
Notation "m ;; k" := (bind m (fun _ => k))
  (at level 61, right associativity) : py_scope.
Local Open Scope py_scope.

(** ** The metric logger *)

Module Misc.

(** Modelled from the spec: the metric logger utility ([util.misc]:
    [SmoothedValue], [MetricLogger], [all_reduce_mean]), to which the spec
    delegates "the metric-accumulation data structures" and the "reduce
    across processes" step, and whose code is not part of the file under
    verification.  A meter accumulates a count and a total; its global
    average is their quotient.  [MetricLogger.update(name=v)] updates the
    meter [name] with weight one, creating it when it is new;
    [meters[name]] creates the meter when it is new too.  The progress
    lines that [log_every] and [__str__] print are not modelled, and
    neither is a second process: synchronising leaves the meters as they
    are. *)
Record SmoothedValue : Type := mkMeter { count : Z; total : pyfloat }.

(** Modelled from the spec: [SmoothedValue()], a meter that has accumulated
    nothing yet. *)
Definition new_meter : SmoothedValue := mkMeter 0 (of_Z 0).

(** Modelled from the spec: [SmoothedValue.update(value, n=1)], which
    accumulates [value] with weight [n]. *)
Definition update (m : SmoothedValue) (value : pyfloat) (n : Z) : SmoothedValue :=
  mkMeter (count m + n) (fadd (total m) (fmul value (of_Z n))).

(** Modelled from the spec: [SmoothedValue.global_avg], the quotient of
    total and count (a Python division, which raises on a zero count). *)
Definition global_avg (m : SmoothedValue) : outcome pyfloat :=
  truediv (total m) (of_Z (count m)).

(** Modelled from the spec: [MetricLogger.meters], a dict from names to
    meters, kept in insertion order. *)
Definition meters : Type := list (string * SmoothedValue).

(** [d.get(name)] *)
Fixpoint lookup (name : string) (ms : meters) : option SmoothedValue :=
  match ms with
  | [] => None
  | (k, m) :: ms' => if String.eqb k name then Some m else lookup name ms'
  end.

(** [d[name] = m] *)
Fixpoint store (name : string) (m : SmoothedValue) (ms : meters) : meters :=
  match ms with
  | [] => [(name, m)]
  | (k, m') :: ms' =>
      if String.eqb k name then (k, m) :: ms' else (k, m') :: store name m ms'
  end.

(** Modelled from the spec: [meters[name]], which creates the meter when
    the name is new (the dict is a [defaultdict]). *)
Definition get (name : string) (ms : meters) : SmoothedValue * meters :=
  match lookup name ms with
  | Some m => (m, ms)
  | None => (new_meter, store name new_meter ms)
  end.

(** Modelled from the spec: [metric_logger.meters[name].update(value, n=n)]. *)
Definition meter_update (name : string) (value : pyfloat) (n : Z) (ms : meters)
  : M meters :=
  let (m, ms') := get name ms in
  emit (EvMeterUpdate name value n) ;;
  ret (store name (update m value n) ms').

(** Modelled from the spec: [metric_logger.update(name=value)], an update
    of the meter [name] with weight one. *)
Definition logger_update (name : string) (value : pyfloat) (ms : meters) : M meters :=
  meter_update name value 1 ms.

(** Modelled from the spec: [metric_logger.add_meter(name, meter)]. *)
Definition add_meter (name : string) (m : SmoothedValue) (ms : meters) : meters :=
  store name m ms.

(** [{k: meter.global_avg for k, meter in metric_logger.meters.items()}] *)
Fixpoint global_avgs (ms : meters) : outcome (list (string * pyfloat)) :=
  match ms with
  | [] => Returns []
  | (k, m) :: ms' =>
      match global_avg m with
      | Returns v =>
          match global_avgs ms' with
          | Returns d => Returns ((k, v) :: d)
          | Exits c => Exits c
          | Raises e => Raises e
          end
      | Exits c => Exits c
      | Raises e => Raises e
      end
  end.

End Misc.

(** ** [train_one_epoch] *)

(** [args]: the two fields the file reads. *)
Record Args : Type := mkArgs { accum_iter : Z; data : string }.

(** What one iteration of the training loop observes: the loss the criterion
    computes on the batch, the learning rates of [optimizer.param_groups]
    once the scaler has run, and the answer of [all_reduce_mean]. *)
Record train_batch : Type :=
  mkTrainBatch { tb_loss : pyfloat; tb_group_lrs : list pyfloat; tb_reduced : pyfloat }.

(** The arguments of [train_one_epoch] besides the collaborators themselves:
    [mixup_fn] and [log_writer] matter only through being [None] or not. *)
Record train_call : Type :=
  mkTrainCall {
    tc_data_loader : list train_batch;
    tc_epoch : Z;
    tc_max_norm : pyfloat;
    tc_mixup_fn : bool;
    tc_log_writer : bool;
    tc_args : Args
  }.

(** [for group in optimizer.param_groups: max_lr = max(max_lr, group["lr"])] *)
Definition scan_max_lr (lrs : list pyfloat) : pyfloat :=
  fold_left py_max lrs (of_Z 0).

Definition scan_min_lr (lrs : list pyfloat) : pyfloat :=
  fold_left py_min lrs (of_Z 10).

Section TrainOneEpoch.

Variable c : train_call.

Let accum_iter' := accum_iter (tc_args c).
Let len_data_loader := List.length (tc_data_loader c).

(** The body of the [for] loop, at [data_iter_step] on batch [b]. *)
Definition train_iteration (data_iter_step : nat) (b : train_batch)
    (ms : Misc.meters) : M Misc.meters :=
  r <- lift (py_mod (Z.of_nat data_iter_step) accum_iter') ;;
  when (r =? 0)
    (emit (EvAdjustLR (mkProgress data_iter_step len_data_loader (tc_epoch c)))) ;;
  emit EvToDevice ;;
  emit EvToDevice ;;
  when (tc_mixup_fn c) (emit EvMixup) ;;
  emit (EvForward data_iter_step) ;;
  emit (EvCriterion data_iter_step) ;;
  let loss := mkTensor data_iter_step (tb_loss b) in
  emit (EvLossItem (t_val loss)) ;;
  let loss_value := t_val loss in
  if negb (isfinite loss_value) then
    emit (EvPrint (MsgLossStop loss_value)) ;;
    sys_exit 1
  else
    let loss := tensor_idiv loss accum_iter' in
    r <- lift (py_mod (Z.of_nat data_iter_step + 1) accum_iter') ;;
    emit (EvLossScaler loss (tc_max_norm c) (r =? 0)) ;;
    r <- lift (py_mod (Z.of_nat data_iter_step + 1) accum_iter') ;;
    when (r =? 0) (emit EvZeroGrad) ;;
    ms <- Misc.logger_update "loss" loss_value ms ;;
    let min_lr := scan_min_lr (tb_group_lrs b) in
    let max_lr := scan_max_lr (tb_group_lrs b) in
    ms <- Misc.logger_update "lr" max_lr ms ;;
    emit (EvAllReduceMean loss_value) ;;
    let loss_value_reduce := tb_reduced b in
    (if tc_log_writer c then
       r <- lift (py_mod (Z.of_nat data_iter_step + 1) accum_iter') ;;
       when (r =? 0)
         (let epoch_1000x := mkProgress data_iter_step len_data_loader (tc_epoch c) in
          emit (EvAddScalar "loss" loss_value_reduce epoch_1000x) ;;
          emit (EvAddScalar "lr" max_lr epoch_1000x))
     else ret tt) ;;
    ret ms.

(** [for data_iter_step, (samples, targets) in enumerate(log_every(...))] *)
Fixpoint train_loop (data_iter_step : nat) (batches : list train_batch)
    (ms : Misc.meters) : M Misc.meters :=
  match batches with
  | [] => emit EvExhausted ;; ret ms
  | b :: rest =>
      emit (EvYield data_iter_step) ;;
      ms <- train_iteration data_iter_step b ms ;;
      train_loop (S data_iter_step) rest ms
  end.

Definition train_one_epoch : M (list (string * pyfloat)) :=
  emit (EvModelTrain true) ;;
  let metric_logger := Misc.add_meter "lr" Misc.new_meter [] in
  emit EvZeroGrad ;;
  when (tc_log_writer c) (emit (EvPrint MsgLogDir)) ;;
  metric_logger <- train_loop 0 (tc_data_loader c) metric_logger ;;
  emit EvSynchronize ;;
  emit (EvPrint MsgAveragedStats) ;;
  lift (Misc.global_avgs metric_logger).

End TrainOneEpoch.

(** ** [evaluate] *)

(** One row of an evaluation batch: its label ([batch[-1]]) and the class
    the model gives the highest score ([torch.argmax(output, axis=1)]). *)
Record sample : Type := mkSample { s_target : Z; s_pred : Z }.

(** What one iteration of the evaluation loop observes: the rows of the
    batch with the model's predictions, the loss of the criterion and the
    two values timm's [accuracy] answers. *)
Record eval_batch : Type :=
  mkEvalBatch {
    eb_samples : list sample;
    eb_loss : pyfloat;
    eb_acc1 : pyfloat;
    eb_acc3 : pyfloat
  }.

Record eval_call : Type :=
  mkEvalCall {
    ec_data_loader : list eval_batch;
    ec_args : Args;
    ec_confusion_matrix_plot : bool;
    ec_RISE_collapse_labels : bool;
    ec_plot_save_name : option string;
    ec_plot_title : option string
  }.

(** sklearn's [f1_score(y_true, y_pred, average='weighted')]: the F1 score of
    every class that occurs, averaged with the number of true instances of
    the class as weight; a quotient with a zero denominator counts as 0. *)
Module Sklearn.

Definition count_where (p : Z -> Z -> bool) (y_true y_pred : list Z) : Z :=
  Z.of_nat (List.length (filter (fun tp => p (fst tp) (snd tp)) (combine y_true y_pred))).

Definition qc (z : Z) : Qc := Q2Qc (inject_Z z).

Definition f1_class (y_true y_pred : list Z) (cls : Z) : Qc :=
  let tp := count_where (fun t p => (t =? cls) && (p =? cls)) y_true y_pred in
  let fp := count_where (fun t p => negb (t =? cls) && (p =? cls)) y_true y_pred in
  let fn := count_where (fun t p => (t =? cls) && negb (p =? cls)) y_true y_pred in
  if 2 * tp + fp + fn =? 0 then 0%Qc
  else (qc (2 * tp) / qc (2 * tp + fp + fn))%Qc.

Definition support (y_true : list Z) (cls : Z) : Z :=
  Z.of_nat (List.length (filter (Z.eqb cls) y_true)).

Definition classes (y_true y_pred : list Z) : list Z :=
  nodup Z.eq_dec (y_true ++ y_pred).

Definition f1_score (y_true y_pred : list Z) : pyfloat :=
  let n := Z.of_nat (List.length y_true) in
  if n =? 0 then Finite 0%Qc
  else
    Finite
      (fold_left
         (fun acc cls => (acc + qc (support y_true cls) * f1_class y_true y_pred cls)%Qc)
         (classes y_true y_pred) 0%Qc
       / qc n)%Qc.

End Sklearn.

Definition plots_dir : string := "/niddk-data-central/P2/mae_hr/MAE_Accelerometer/plots/".

Definition UCIHAR_labels : list string :=
  ["Transition"; "Walking"; "Walking-upstairs"; "Walking-downstairs";
   "Sitting"; "Standing"; "Laying"].

Definition RISE_labels : list string :=
  ["sedentary"; "standing"; "stepping"; "cycling"; "primary_lying";
   "secondary_lying"; "seated_transport"].

Definition binary_labels : list string := ["Sedentary"; "Active"].

(** [mapping = {0:0, 1:1, 2:1, 3:1, 4:0, 5:0, 6:0}] *)
Definition mapping : list (Z * Z) :=
  [(0, 0); (1, 1); (2, 1); (3, 1); (4, 0); (5, 0); (6, 0)].

(** [d[x]]: a missing key raises [KeyError]. *)
Fixpoint dict_get (d : list (Z * Z)) (x : Z) : outcome Z :=
  match d with
  | [] => Raises (KeyError x)
  | (k, v) :: d' => if k =? x then Returns v else dict_get d' x
  end.

(** [[mapping[x] for x in xs]] *)
Fixpoint collapse (xs : list Z) : outcome (list Z) :=
  match xs with
  | [] => Returns []
  | x :: xs' =>
      match dict_get mapping x with
      | Returns v =>
          match collapse xs' with
          | Returns vs => Returns (v :: vs)
          | Exits c => Exits c
          | Raises e => Raises e
          end
      | Exits c => Exits c
      | Raises e => Raises e
      end
  end.

(** The keys of [mapping]. *)
Definition in_range (x : Z) : bool := (0 <=? x) && (x <=? 6).

(** The value [mapping] gives to a key: 1 (active) for standing, stepping
    and cycling, 0 (sedentary) for the rest. *)
Definition collapse_label (x : Z) : Z := if (1 <=? x) && (x <=? 3) then 1 else 0.

(** [(a == b).sum().item()] on two tensors of equal length. *)
Definition accordance (a b : list Z) : Z :=
  Z.of_nat (List.length (filter (fun xy => fst xy =? snd xy) (combine a b))).

(** Reading a local variable that may not have been assigned. *)
Definition read_local {A} (name : string) (v : option A) : M A :=
  match v with
  | Some a => ret a
  | None => raise (UnboundLocalError name)
  end.

(** The two [if args.data == ...:] statements that assign [labels]; the
    variable stays unassigned when neither applies. *)
Definition axis_labels (data : string) : option (list string) :=
  let labels : option (list string) := None in
  let labels := if String.eqb data "UCIHAR" then Some UCIHAR_labels else labels in
  let labels := if String.eqb data "RISE" then Some RISE_labels else labels in
  labels.

(** The decorator [@torch.no_grad()]: gradient mode is switched off around
    the call and restored however the call ends. *)
Definition no_grad {A} (m : M A) : M A :=
  let (t, o) := m in (EvNoGradEnter :: t ++ [EvNoGradExit], o).

(** The loop state of [evaluate]: the two accumulated lists and the meters. *)
Record eval_state : Type :=
  mkEvalState {
    es_preds : list (list Z);
    es_targets : list (list Z);
    es_meters : Misc.meters
  }.

Section Evaluate.

Variable c : eval_call.

(** The body of the [for] loop on the [i]-th batch. *)
Definition eval_iteration (i : nat) (batch : eval_batch) (st : eval_state)
  : M eval_state :=
  emit EvToDevice ;;
  emit EvToDevice ;;
  emit EvAutocastEnter ;;
  emit (EvForward i) ;;
  emit (EvCriterion i) ;;
  let pred := map s_pred (eb_samples batch) in
  let target := map s_target (eb_samples batch) in
  emit EvAutocastExit ;;
  let preds := es_preds st ++ [pred] in
  let targets := es_targets st ++ [target] in
  emit (EvAccuracy i) ;;
  emit (EvF1Score target pred) ;;
  let f1 := Sklearn.f1_score target pred in
  ms <- Misc.logger_update "F1" f1 (es_meters st) ;;
  let batch_size := Z.of_nat (List.length (eb_samples batch)) in
  emit (EvLossItem (eb_loss batch)) ;;
  ms <- Misc.logger_update "loss" (eb_loss batch) ms ;;
  ms <- Misc.meter_update "acc1" (eb_acc1 batch) batch_size ms ;;
  ms <- Misc.meter_update "acc3" (eb_acc3 batch) batch_size ms ;;
  ret (mkEvalState preds targets ms).

(** [for batch in metric_logger.log_every(data_loader, 10, header)] *)
Fixpoint eval_loop (i : nat) (batches : list eval_batch) (st : eval_state)
  : M eval_state :=
  match batches with
  | [] => emit EvExhausted ;; ret st
  | batch :: rest =>
      emit (EvYield i) ;;
      st <- eval_iteration i batch st ;;
      eval_loop (S i) rest st
  end.

(** The summary line: [meters[name].global_avg] for the four names. *)
Definition print_summary (ms : Misc.meters) : M Misc.meters :=
  let (m1, ms) := Misc.get "acc1" ms in
  a1 <- lift (Misc.global_avg m1) ;;
  let (m3, ms) := Misc.get "acc3" ms in
  a3 <- lift (Misc.global_avg m3) ;;
  let (ml, ms) := Misc.get "loss" ms in
  l <- lift (Misc.global_avg ml) ;;
  let (mf, ms) := Misc.get "F1" ms in
  f <- lift (Misc.global_avg mf) ;;
  emit (EvPrint (MsgTestSummary a1 a3 l f)) ;;
  ret ms.

(** The branch [if RISE_collapse_labels:]. *)
Definition plot_binary (preds_list targets_list : list Z) : M unit :=
  preds_list_bin <- lift (collapse preds_list) ;;
  targets_list_bin <- lift (collapse targets_list) ;;
  let labels := binary_labels in
  final_bin_acc1 <-
    lift (truediv (of_Z (accordance preds_list_bin targets_list_bin))
            (of_Z (Z.of_nat (List.length preds_list)))) ;;
  emit (EvConfusionMatrix targets_list_bin preds_list_bin) ;;
  emit EvFigure ;;
  emit (EvHeatmap targets_list_bin preds_list_bin labels) ;;
  emit EvAxisLabels ;;
  emit (EvTitle (ec_plot_title c) true final_bin_acc1) ;;
  emit EvShow ;;
  emit (EvSavefig (plots_dir ++ py_str (ec_plot_save_name c)
                     ++ "_bin_confusion_matrix.png")%string).

(** The branch [if confusion_matrix_plot:]. *)
Definition plot_confusion (preds targets : list (list Z)) : M unit :=
  let preds_list := List.concat preds in
  let targets_list := List.concat targets in
  let labels := axis_labels (data (ec_args c)) in
  final_acc1 <-
    lift (truediv (of_Z (accordance preds_list targets_list))
            (of_Z (Z.of_nat (List.length preds_list)))) ;;
  emit (EvConfusionMatrix targets_list preds_list) ;;
  emit EvFigure ;;
  xticklabels <- read_local "labels" labels ;;
  emit (EvHeatmap targets_list preds_list xticklabels) ;;
  emit EvAxisLabels ;;
  emit (EvTitle (ec_plot_title c) false final_acc1) ;;
  emit EvShow ;;
  emit (EvSavefig (plots_dir ++ py_str (ec_plot_save_name c)
                     ++ "_confusion_matrix.png")%string) ;;
  when (ec_RISE_collapse_labels c) (plot_binary preds_list targets_list).

Definition evaluate_body : M (list (string * pyfloat)) :=
  let metric_logger : Misc.meters := [] in
  emit EvModelEval ;;
  st <- eval_loop 0 (ec_data_loader c) (mkEvalState [] [] metric_logger) ;;
  emit EvSynchronize ;;
  metric_logger <- print_summary (es_meters st) ;;
  when (ec_confusion_matrix_plot c) (plot_confusion (es_preds st) (es_targets st)) ;;
  lift (Misc.global_avgs metric_logger).

Definition evaluate : M (list (string * pyfloat)) := no_grad evaluate_body.

End Evaluate.

(** ** Reading a trace *)

(** The batches the loader handed out, in order. *)
Definition yields (tr : trace) : list nat :=
  flat_map (fun e => match e with EvYield i => [i] | _ => [] end) tr.

(** The forward passes of the model, in order. *)
Definition forwards (tr : trace) : list nat :=
  flat_map (fun e => match e with EvForward i => [i] | _ => [] end) tr.

(** The updates the meter [name] received, in order: value and weight. *)
Definition updates_of (name : string) (tr : trace) : list (pyfloat * Z) :=
  flat_map
    (fun e =>
       match e with
       | EvMeterUpdate k v n => if String.eqb k name then [(v, n)] else []
       | _ => []
       end) tr.

(** The meter that a list of updates builds from a fresh one. *)
Definition replay (us : list (pyfloat * Z)) : Misc.SmoothedValue :=
  fold_left (fun m u => Misc.update m (fst u) (snd u)) us Misc.new_meter.

(** [d.get(name)] on a returned dictionary. *)
Fixpoint dict_lookup (name : string) (d : list (string * pyfloat)) : option pyfloat :=
  match d with
  | [] => None
  | (k, v) :: d' => if String.eqb k name then Some v else dict_lookup name d'
  end.

(** The files written by [plt.savefig], in order. *)
Definition saved_files (tr : trace) : list string :=
  flat_map (fun e => match e with EvSavefig p => [p] | _ => [] end) tr.

(** The axis labels of the heatmaps drawn, in order. *)
Definition heatmap_labels (tr : trace) : list (list string) :=
  flat_map (fun e => match e with EvHeatmap _ _ l => [l] | _ => [] end) tr.

(** The label lists the heatmaps were computed from: targets, predictions. *)
Definition heatmap_inputs (tr : trace) : list (list Z * list Z) :=
  flat_map (fun e => match e with EvHeatmap t p _ => [(t, p)] | _ => [] end) tr.

(** Calls to the utilities that reduce a value across processes. *)
Definition is_reduction (e : event) : bool :=
  match e with
  | EvAllReduceMean _ | EvSynchronize => true
  | _ => false
  end.

Definition is_all_reduce (e : event) : bool :=
  match e with EvAllReduceMean _ => true | _ => false end.

Definition is_synchronize (e : event) : bool :=
  match e with EvSynchronize => true | _ => false end.

Definition is_exhausted (e : event) : bool :=
  match e with EvExhausted => true | _ => false end.

(** Printing and plotting: all that [evaluate] does after the loop. *)
Definition is_print_or_plot (e : event) : bool :=
  match e with
  | EvPrint _ | EvConfusionMatrix _ _ | EvFigure | EvHeatmap _ _ _ | EvAxisLabels
  | EvTitle _ _ _ | EvShow | EvSavefig _ => true
  | _ => false
  end.

(** The reading of "the reduction utilities are called only at the end of a
    pass": whenever one is called, the loader has been exhausted before. *)
Definition reductions_after_loop (tr : trace) : Prop :=
  forall (pre post : trace) (e : event),
    tr = pre ++ e :: post -> is_reduction e = true -> In EvExhausted pre.

(** Calls that act on the optimizer: its gradients, its step, its rates. *)
Definition touches_optimizer (e : event) : bool :=
  match e with
  | EvZeroGrad | EvLossScaler _ _ _ | EvAdjustLR _ => true
  | _ => false
  end.

(** Calls that leave the model and the optimizer as they are. *)
Definition is_inert (e : event) : bool :=
  match e with
  | EvZeroGrad | EvLossScaler _ _ _ | EvAdjustLR _
  | EvModelTrain _ | EvModelEval | EvNoGradEnter | EvNoGradExit => false
  | _ => true
  end.

(** Calls that switch the model's mode or the gradient mode. *)
Definition switches_mode (e : event) : bool :=
  match e with
  | EvModelTrain _ | EvModelEval | EvNoGradEnter | EvNoGradExit => true
  | _ => false
  end.

Definition is_loss_scaler (e : event) : bool :=
  match e with EvLossScaler _ _ _ => true | _ => false end.

Definition is_zero_grad (e : event) : bool :=
  match e with EvZeroGrad => true | _ => false end.

(** A call of the loss scaler that steps the optimizer. *)
Definition is_optimizer_step (e : event) : bool :=
  match e with EvLossScaler _ _ update_grad => update_grad | _ => false end.

(** ** The optimizer and the model, as the calls act on them *)

Module World.

(** Modelled from the spec: what the optimizer, the loss scaler and the
    model do when called ("forward/backward/optimizer-step per batch with
    gradient accumulation"); their code is not part of the file under
    verification.  The loss scaler back-propagates the loss it is given,
    which adds the gradient of that batch to the gradient buffers, and
    steps the optimizer when [update_grad] is set, which applies the
    buffers to the parameters; [zero_grad] empties the buffers.  A
    gradient is identified by the step of the batch it came from, the
    parameters by the list of gradient groups applied so far. *)
Record world : Type :=
  mkWorld {
    w_applied : list (list nat);     (* optimizer steps taken: the parameters *)
    w_grads : list nat;              (* the gradient buffers *)
    w_lr : option progress;          (* the last learning-rate adjustment *)
    w_training : bool;               (* model.training *)
    w_grad_enabled : bool;           (* torch.is_grad_enabled() *)
    w_saved_modes : list bool        (* gradient modes to restore *)
  }.

(** Modelled from the spec: what one call does to the optimizer and the
    model. *)
Definition apply_event (w : world) (e : event) : world :=
  match e with
  | EvModelTrain mode =>
      mkWorld (w_applied w) (w_grads w) (w_lr w) mode (w_grad_enabled w) (w_saved_modes w)
  | EvModelEval =>
      mkWorld (w_applied w) (w_grads w) (w_lr w) false (w_grad_enabled w) (w_saved_modes w)
  | EvNoGradEnter =>
      mkWorld (w_applied w) (w_grads w) (w_lr w) (w_training w) false
        (w_grad_enabled w :: w_saved_modes w)
  | EvNoGradExit =>
      mkWorld (w_applied w) (w_grads w) (w_lr w) (w_training w)
        (hd true (w_saved_modes w)) (tl (w_saved_modes w))
  | EvZeroGrad =>
      mkWorld (w_applied w) [] (w_lr w) (w_training w) (w_grad_enabled w) (w_saved_modes w)
  | EvLossScaler loss _ update_grad =>
      let grads := w_grads w ++ [t_src loss] in
      mkWorld (if update_grad then w_applied w ++ [grads] else w_applied w)
        grads (w_lr w) (w_training w) (w_grad_enabled w) (w_saved_modes w)
  | EvAdjustLR p =>
      mkWorld (w_applied w) (w_grads w) (Some p) (w_training w) (w_grad_enabled w)
        (w_saved_modes w)
  | _ => w
  end.

(** The state the calls of a trace lead to. *)
Definition run (tr : trace) (w : world) : world := fold_left apply_event tr w.

(** The modes in force at each forward pass: [(training, grad_enabled)]. *)
Fixpoint forward_modes (tr : trace) (w : world) : list (bool * bool) :=
  match tr with
  | [] => []
  | e :: tr' =>
      match e with
      | EvForward _ => [(w_training w, w_grad_enabled w)]
      | _ => []
      end ++ forward_modes tr' (apply_event w e)
  end.

End World.

(** The quotient a meter with a non-zero count gives as global average. *)
Definition avg (m : Misc.SmoothedValue) : pyfloat :=
  fdiv_nz (Misc.total m) (of_Z (Misc.count m)).

(** [0.0 + v1 + v2 + ...], summed in order. *)
Definition fsum (vs : list pyfloat) : pyfloat := fold_left fadd vs (of_Z 0).

(** The unweighted mean: every value counts once. *)
Definition mean (vs : list pyfloat) : pyfloat :=
  fdiv_nz (fsum vs) (of_Z (Z.of_nat (List.length vs))).

(** The mean of values weighted by integers: the sum of [v * n] over the sum
    of the weights [n]. *)
Definition weighted_mean (vns : list (pyfloat * Z)) : pyfloat :=
  fdiv_nz (fsum (map (fun vn => fmul (fst vn) (of_Z (snd vn))) vns))
    (of_Z (fold_right (fun vn s => snd vn + s) 0 vns)).

(** [n % accum_iter] for a number of batches [n]. *)
Definition pending (n : nat) (accum_iter : Z) : nat :=
  Z.to_nat (Z.of_nat n mod accum_iter).

(** ** The shape of a run of [train_one_epoch] *)

Section TrainShape.

Variable c : train_call.

Definition divides_step (i : nat) : bool :=
  (Z.of_nat i + 1) mod accum_iter (tc_args c) =? 0.

Definition here (i : nat) : progress :=
  mkProgress i (List.length (tc_data_loader c)) (tc_epoch c).

(** An iteration up to the point where the loss is computed. *)
Definition iteration_head (i : nat) : trace :=
  (if Z.of_nat i mod accum_iter (tc_args c) =? 0 then [EvAdjustLR (here i)] else [])
  ++ [EvToDevice; EvToDevice]
  ++ (if tc_mixup_fn c then [EvMixup] else [])
  ++ [EvForward i; EvCriterion i].

(** The call of the loss scaler at step [i]. *)
Definition scaler_call (i : nat) (b : train_batch) : event :=
  EvLossScaler (mkTensor i (tensor_div (tb_loss b) (of_Z (accum_iter (tc_args c)))))
    (tc_max_norm c) (divides_step i).

(** An iteration from the update of the meters on. *)
Definition iteration_rest (i : nat) (b : train_batch) : trace :=
  [EvMeterUpdate "loss" (tb_loss b) 1;
   EvMeterUpdate "lr" (scan_max_lr (tb_group_lrs b)) 1;
   EvAllReduceMean (tb_loss b)]
  ++ (if tc_log_writer c && divides_step i
      then [EvAddScalar "loss" (tb_reduced b) (here i);
            EvAddScalar "lr" (scan_max_lr (tb_group_lrs b)) (here i)]
      else []).

(** An iteration from the call of the loss scaler on. *)
Definition iteration_tail (i : nat) (b : train_batch) : trace :=
  scaler_call i b
    :: (if divides_step i then [EvZeroGrad] else []) ++ iteration_rest i b.

(** A whole iteration on a batch with a finite loss. *)
Definition iteration_events (i : nat) (b : train_batch) : trace :=
  EvYield i :: iteration_head i ++ EvLossItem (tb_loss b) :: iteration_tail i b.

(** The iteration that stops the run. *)
Definition stopping_events (i : nat) (b : train_batch) : trace :=
  EvYield i :: iteration_head i
    ++ [EvLossItem (tb_loss b); EvPrint (MsgLossStop (tb_loss b))].

(** The iterations on [batches], starting at step [i], all losses finite. *)
Fixpoint loop_events (i : nat) (batches : list train_batch) : list trace :=
  match batches with
  | [] => []
  | b :: rest => iteration_events i b :: loop_events (S i) rest
  end.

Definition train_prologue : trace :=
  [EvModelTrain true; EvZeroGrad]
  ++ (if tc_log_writer c then [EvPrint MsgLogDir] else []).

Definition train_epilogue : trace :=
  [EvExhausted; EvSynchronize; EvPrint MsgAveragedStats].

(** The two meters once [done] batches went through the loop. *)
Definition train_meters (done : list train_batch) : Misc.meters :=
  match done with
  | [] => [("lr", Misc.new_meter)]
  | _ =>
      [("lr", replay (map (fun b => (scan_max_lr (tb_group_lrs b), 1)) done));
       ("loss", replay (map (fun b => (tb_loss b, 1)) done))]
  end.

(** The dictionary [train_one_epoch] returns when it returns. *)
Definition train_averages : list (string * pyfloat) :=
  map (fun km => (fst km, avg (snd km))) (train_meters (tc_data_loader c)).

Definition all_finite (batches : list train_batch) : bool :=
  forallb (fun b => isfinite (tb_loss b)) batches.

(** What a completed iteration on [b] does to the meters. *)
Definition meters_step (b : train_batch) (ms : Misc.meters) : Misc.meters :=
  let (m, ms) := Misc.get "loss" ms in
  let ms := Misc.store "loss" (Misc.update m (tb_loss b) 1) ms in
  let (m, ms) := Misc.get "lr" ms in
  Misc.store "lr" (Misc.update m (scan_max_lr (tb_group_lrs b)) 1) ms.

(** The runs [train_one_epoch] can make. *)
Inductive train_run : M (list (string * pyfloat)) -> Prop :=
| run_completes :
    all_finite (tc_data_loader c) = true ->
    accum_iter (tc_args c) <> 0 \/ tc_data_loader c = [] ->
    train_run
      (train_prologue ++ List.concat (loop_events 0 (tc_data_loader c)) ++ train_epilogue,
       Misc.global_avgs
         (fold_left (fun ms b => meters_step b ms) (tc_data_loader c)
            [("lr", Misc.new_meter)]))
| run_stops (done : list train_batch) (b : train_batch) (rest : list train_batch) :
    accum_iter (tc_args c) <> 0 ->
    tc_data_loader c = done ++ b :: rest ->
    all_finite done = true ->
    isfinite (tb_loss b) = false ->
    train_run
      (train_prologue ++ List.concat (loop_events 0 done)
         ++ stopping_events (List.length done) b,
       Exits 1)
| run_zero_accum (b : train_batch) (rest : list train_batch) :
    accum_iter (tc_args c) = 0 ->
    tc_data_loader c = b :: rest ->
    train_run (train_prologue ++ [EvYield 0%nat], Raises ZeroDivisionError).

(** What follows the last iteration that ran to its end, [n] being the
    number of those iterations. *)
Inductive ending_of (n : nat) : trace -> Prop :=
| ends_returning : ending_of n train_epilogue
| ends_exiting (b : train_batch) :
    isfinite (tb_loss b) = false -> ending_of n (stopping_events n b)
| ends_raising : ending_of n [EvYield 0%nat].

End TrainShape.

(** A loss value that stops the training. *)
Definition is_bad_loss (e : event) : bool :=
  match e with
  | EvLossItem v => negb (isfinite v)
  | _ => false
  end.

(** ** The shape of a run of [evaluate] *)

Definition batch_size (b : eval_batch) : Z := Z.of_nat (List.length (eb_samples b)).
Definition batch_preds (b : eval_batch) : list Z := map s_pred (eb_samples b).
Definition batch_targets (b : eval_batch) : list Z := map s_target (eb_samples b).
Definition batch_f1 (b : eval_batch) : pyfloat :=
  Sklearn.f1_score (batch_targets b) (batch_preds b).

(** The number of rows in all the batches. *)
Definition sample_count (batches : list eval_batch) : Z :=
  fold_right (fun b n => batch_size b + n) 0 batches.

Section EvalShape.

Variable c : eval_call.

Definition preds_list : list Z := List.concat (map batch_preds (ec_data_loader c)).
Definition targets_list : list Z := List.concat (map batch_targets (ec_data_loader c)).

Definition eval_iteration_events (i : nat) (b : eval_batch) : trace :=
  [EvYield i; EvToDevice; EvToDevice; EvAutocastEnter; EvForward i; EvCriterion i;
   EvAutocastExit; EvAccuracy i; EvF1Score (batch_targets b) (batch_preds b);
   EvMeterUpdate "F1" (batch_f1 b) 1;
   EvLossItem (eb_loss b);
   EvMeterUpdate "loss" (eb_loss b) 1;
   EvMeterUpdate "acc1" (eb_acc1 b) (batch_size b);
   EvMeterUpdate "acc3" (eb_acc3 b) (batch_size b)].

Fixpoint eval_loop_events (i : nat) (batches : list eval_batch) : list trace :=
  match batches with
  | [] => []
  | b :: rest => eval_iteration_events i b :: eval_loop_events (S i) rest
  end.

(** The four meters once [done] batches went through the loop. *)
Definition eval_meters (done : list eval_batch) : Misc.meters :=
  match done with
  | [] => []
  | _ =>
      [("F1", replay (map (fun b => (batch_f1 b, 1)) done));
       ("loss", replay (map (fun b => (eb_loss b, 1)) done));
       ("acc1", replay (map (fun b => (eb_acc1 b, batch_size b)) done));
       ("acc3", replay (map (fun b => (eb_acc3 b, batch_size b)) done))]
  end.

(** The dictionary [evaluate] returns when it returns. *)
Definition eval_averages : list (string * pyfloat) :=
  map (fun km => (fst km, avg (snd km))) (eval_meters (ec_data_loader c)).

(** Everything up to and including the synchronisation of the meters. *)
Definition eval_pass : trace :=
  EvModelEval :: List.concat (eval_loop_events 0 (ec_data_loader c))
    ++ [EvExhausted; EvSynchronize].

Definition summary_line : event :=
  let ms := eval_meters (ec_data_loader c) in
  EvPrint
    (MsgTestSummary
       (avg (replay (map (fun b => (eb_acc1 b, batch_size b)) (ec_data_loader c))))
       (avg (replay (map (fun b => (eb_acc3 b, batch_size b)) (ec_data_loader c))))
       (avg (replay (map (fun b => (eb_loss b, 1)) (ec_data_loader c))))
       (avg (replay (map (fun b => (batch_f1 b, 1)) (ec_data_loader c))))).

Definition confusion_path : string :=
  (plots_dir ++ py_str (ec_plot_save_name c) ++ "_confusion_matrix.png")%string.

Definition bin_confusion_path : string :=
  (plots_dir ++ py_str (ec_plot_save_name c) ++ "_bin_confusion_matrix.png")%string.

(** The first figure, up to the point where [labels] is read. *)
Definition plot_start : trace :=
  [EvConfusionMatrix targets_list preds_list; EvFigure].

Definition plot_first (labels : list string) : trace :=
  [EvHeatmap targets_list preds_list labels;
   EvAxisLabels;
   EvTitle (ec_plot_title c) false
     (fdiv_nz (of_Z (accordance preds_list targets_list))
        (of_Z (Z.of_nat (List.length preds_list))));
   EvShow;
   EvSavefig confusion_path].

Definition plot_second (preds_list_bin targets_list_bin : list Z) : trace :=
  [EvConfusionMatrix targets_list_bin preds_list_bin;
   EvFigure;
   EvHeatmap targets_list_bin preds_list_bin binary_labels;
   EvAxisLabels;
   EvTitle (ec_plot_title c) true
     (fdiv_nz (of_Z (accordance preds_list_bin targets_list_bin))
        (of_Z (Z.of_nat (List.length preds_list))));
   EvShow;
   EvSavefig bin_confusion_path].

(** How a call of [evaluate] ends, read off its arguments. *)
Definition evaluate_outcome : outcome (list (string * pyfloat)) :=
  if sample_count (ec_data_loader c) =? 0 then Raises ZeroDivisionError
  else if negb (ec_confusion_matrix_plot c) then Returns eval_averages
  else
    match axis_labels (data (ec_args c)) with
    | None => Raises (UnboundLocalError "labels")
    | Some _ =>
        if negb (ec_RISE_collapse_labels c) then Returns eval_averages
        else
          match collapse (preds_list ++ targets_list) with
          | Returns _ => Returns eval_averages
          | Exits code => Exits code
          | Raises e => Raises e
          end
    end.

(** The calls of [evaluate] that return. *)
Definition eval_completes : bool :=
  negb (sample_count (ec_data_loader c) =? 0)
  && (negb (ec_confusion_matrix_plot c)
      || (match axis_labels (data (ec_args c)) with Some _ => true | None => false end
          && (negb (ec_RISE_collapse_labels c)
              || forallb in_range (preds_list ++ targets_list)))).

(** The runs [evaluate] can make. *)
Inductive eval_run : M (list (string * pyfloat)) -> Prop :=
| eval_no_sample :
    sample_count (ec_data_loader c) = 0 ->
    eval_run (EvNoGradEnter :: eval_pass ++ [EvNoGradExit], Raises ZeroDivisionError)
| eval_no_plot :
    sample_count (ec_data_loader c) <> 0 ->
    ec_confusion_matrix_plot c = false ->
    eval_run
      (EvNoGradEnter :: eval_pass ++ [summary_line] ++ [EvNoGradExit],
       Returns eval_averages)
| eval_unbound_labels :
    sample_count (ec_data_loader c) <> 0 ->
    ec_confusion_matrix_plot c = true ->
    axis_labels (data (ec_args c)) = None ->
    eval_run
      (EvNoGradEnter :: eval_pass ++ [summary_line] ++ plot_start ++ [EvNoGradExit],
       Raises (UnboundLocalError "labels"))
| eval_one_plot (labels : list string) :
    sample_count (ec_data_loader c) <> 0 ->
    ec_confusion_matrix_plot c = true ->
    axis_labels (data (ec_args c)) = Some labels ->
    ec_RISE_collapse_labels c = false ->
    eval_run
      (EvNoGradEnter :: eval_pass ++ [summary_line] ++ plot_start ++ plot_first labels
         ++ [EvNoGradExit],
       Returns eval_averages)
| eval_key_error (labels : list string) (key : Z) :
    sample_count (ec_data_loader c) <> 0 ->
    ec_confusion_matrix_plot c = true ->
    axis_labels (data (ec_args c)) = Some labels ->
    ec_RISE_collapse_labels c = true ->
    collapse (preds_list ++ targets_list) = Raises (KeyError key) ->
    eval_run
      (EvNoGradEnter :: eval_pass ++ [summary_line] ++ plot_start ++ plot_first labels
         ++ [EvNoGradExit],
       Raises (KeyError key))
| eval_two_plots (labels : list string) (preds_list_bin targets_list_bin : list Z) :
    sample_count (ec_data_loader c) <> 0 ->
    ec_confusion_matrix_plot c = true ->
    axis_labels (data (ec_args c)) = Some labels ->
    ec_RISE_collapse_labels c = true ->
    collapse preds_list = Returns preds_list_bin ->
    collapse targets_list = Returns targets_list_bin ->
    eval_run
      (EvNoGradEnter :: eval_pass ++ [summary_line] ++ plot_start ++ plot_first labels
         ++ plot_second preds_list_bin targets_list_bin ++ [EvNoGradExit],
       Returns eval_averages).

End EvalShape.

(** ** Example calls *)

Module Examples.

Definition row (target pred : Z) : sample := mkSample target pred.

(** Two batches of one row each: label 0 predicted as 0, label 1 predicted
    as 0. *)
Definition two_single_rows : list eval_batch :=
  [mkEvalBatch [row 0 0] (of_Z 0) (of_Z 100) (of_Z 100);
   mkEvalBatch [row 1 0] (of_Z 2) (of_Z 0) (of_Z 100)].

(** An evaluation without plots. *)
Definition plain_eval : eval_call :=
  mkEvalCall two_single_rows (mkArgs 1 "RISE") false false None None.

(** An evaluation with the confusion matrix plot only. *)
Definition plot_eval : eval_call :=
  mkEvalCall two_single_rows (mkArgs 1 "UCIHAR") true false (Some "test") (Some "Test").

(** An evaluation with both plots. *)
Definition collapse_eval : eval_call :=
  mkEvalCall two_single_rows (mkArgs 1 "RISE") true true (Some "test") (Some "Test").

(** A prediction outside the seven classes, with both plots asked for. *)
Definition stray_label_eval : eval_call :=
  mkEvalCall [mkEvalBatch [row 1 7] (of_Z 0) (of_Z 0) (of_Z 0)]
    (mkArgs 1 "RISE") true true (Some "test") (Some "Test").

(** A dataset name the plots do not know, on an empty loader. *)
Definition unknown_empty_eval : eval_call :=
  mkEvalCall [] (mkArgs 1 "WISDM") true false (Some "test") (Some "Test").

(** A dataset name the plots do not know, on two batches. *)
Definition unknown_eval : eval_call :=
  mkEvalCall two_single_rows (mkArgs 1 "WISDM") true false (Some "test") (Some "Test").

(** One training batch with a finite loss, no accumulation. *)
Definition one_batch_train : train_call :=
  mkTrainCall [mkTrainBatch (of_Z 1) [of_Z 1] (of_Z 1)] 0 (of_Z 0) false false
    (mkArgs 1 "RISE").

(** Three training batches accumulated in groups of two. *)
Definition three_batch_train : train_call :=
  mkTrainCall
    [mkTrainBatch (of_Z 1) [] (of_Z 1); mkTrainBatch (of_Z 2) [] (of_Z 2);
     mkTrainBatch (of_Z 3) [] (of_Z 3)]
    0 (of_Z 0) false false (mkArgs 2 "RISE").

(** One training batch whose loss is NaN. *)
Definition nan_train : train_call :=
  mkTrainCall [mkTrainBatch NaN [] NaN] 0 NaN false false (mkArgs 1 "RISE").

End Examples.

(** ** Further readings of a trace *)

Definition is_adjust_lr (e : event) : bool :=
  match e with EvAdjustLR _ => true | _ => false end.

Definition is_forward (e : event) : bool :=
  match e with EvForward _ => true | _ => false end.

Definition is_autocast (e : event) : bool :=
  match e with EvAutocastEnter | EvAutocastExit => true | _ => false end.

(** A call of [log_writer.add_scalar] with the given tag. *)
Definition is_add_scalar (tag : string) (e : event) : bool :=
  match e with EvAddScalar t _ _ => String.eqb t tag | _ => false end.

(** What is done for the log writer only: the line that prints its
    directory and the scalars it is given. *)
Definition is_logging (e : event) : bool :=
  match e with
  | EvAddScalar _ _ _ | EvPrint MsgLogDir => true
  | _ => false
  end.

(** The same call of [train_one_epoch] with [log_writer=None]. *)
Definition without_writer (c : train_call) : train_call :=
  mkTrainCall (tc_data_loader c) (tc_epoch c) (tc_max_norm c) (tc_mixup_fn c) false
    (tc_args c).

(** The accuracies shown in the titles of the figures, in order, with the
    flag that tells the binary figure. *)
Definition title_accuracies (tr : trace) : list (bool * pyfloat) :=
  flat_map (fun e => match e with EvTitle _ binary acc => [(binary, acc)] | _ => [] end) tr.

(** The steps at which an epoch over [n] batches adjusts the learning rate:
    those [data_iter_step] with [data_iter_step % accum_iter == 0]. *)
Definition adjust_steps (accum_iter : Z) (n : nat) : list nat :=
  filter (fun i => Z.of_nat i mod accum_iter =? 0) (seq 0 n).

(** ** Further example calls *)

Module MoreExamples.

(** Two training batches with [accum_iter] zero. *)
Definition zero_accum_train : train_call :=
  mkTrainCall [mkTrainBatch (of_Z 1) [] (of_Z 1); mkTrainBatch (of_Z 2) [] (of_Z 2)]
    0 (of_Z 0) false false (mkArgs 0 "RISE").

(** Four training batches in groups of two, with a log writer. *)
Definition logged_train : train_call :=
  mkTrainCall
    [mkTrainBatch (of_Z 1) [of_Z 1] (of_Z 5); mkTrainBatch (of_Z 2) [of_Z 1] (of_Z 6);
     mkTrainBatch (of_Z 3) [of_Z 1] (of_Z 7); mkTrainBatch (of_Z 4) [of_Z 1] (of_Z 8)]
    3 (of_Z 0) true true (mkArgs 2 "RISE").

(** A prediction and a target outside the seven classes. *)
Definition two_stray_labels_eval : eval_call :=
  mkEvalCall
    [mkEvalBatch [mkSample 9 1; mkSample 2 8] (of_Z 0) (of_Z 0) (of_Z 0)]
    (mkArgs 1 "RISE") true true (Some "test") (Some "Test").

(** The rows of [Examples.plain_eval], no plot asked for, the other
    arguments set. *)
Definition unread_arguments_eval : eval_call :=
  mkEvalCall Examples.two_single_rows (mkArgs 4 "other") false true (Some "run") (Some "Run").

End MoreExamples.

(** * Properties *)

(** ** The monad *)

Lemma bind_returns {A B} (t : trace) (a : A) (k : A -> M B) :
  bind (t, Returns a) k = (t ++ fst (k a), snd (k a)).
Proof. unfold bind. destruct (k a); reflexivity. Qed.

Lemma bind_emit {B} (e : event) (k : unit -> M B) :
  bind (emit e) k = (e :: fst (k tt), snd (k tt)).
Proof. unfold emit. rewrite bind_returns. reflexivity. Qed.

Lemma bind_lift_returns {A B} (a : A) (k : A -> M B) :
  bind (lift (Returns a)) k = k a.
Proof. unfold lift. rewrite bind_returns. destruct (k a); reflexivity. Qed.

Lemma bind_ret {A B} (a : A) (k : A -> M B) : bind (ret a) k = k a.
Proof. apply bind_lift_returns. Qed.

Lemma py_mod_nonzero (a b : Z) : b <> 0 -> py_mod a b = Returns (a mod b).
Proof. intros H. unfold py_mod. destruct (Z.eqb_spec b 0); [contradiction | reflexivity]. Qed.

(** ** Lists of segments *)

(** Both sides are the same concatenation, bracketed differently. *)
Ltac same_events :=
  cbn [app List.concat fst snd];
  repeat (rewrite <- app_assoc; cbn [app]);
  rewrite ?app_nil_r;
  reflexivity.

(** An occurrence of [e] in [l1 ++ l2] lies in [l1] or in [l2]. *)
Lemma app_split_occurrence {A} (l1 l2 pre post : list A) (e : A) :
  l1 ++ l2 = pre ++ e :: post ->
  (exists m, l1 = pre ++ e :: m /\ post = m ++ l2)
  \/ (exists m, pre = l1 ++ m /\ l2 = m ++ e :: post).
Proof.
  revert pre. induction l1 as [| x l1 IH]; intros pre H; simpl in H.
  - right. exists pre. split; [reflexivity | exact H].
  - destruct pre as [| y pre]; simpl in H; injection H as Hx Hl.
    + subst. left. exists l1. split; reflexivity.
    + subst. destruct (IH pre Hl) as [[m [E1 E2]] | [m [E1 E2]]].
      * left. exists m. subst. split; reflexivity.
      * right. exists m. subst. split; reflexivity.
Qed.

(** A segment holds exactly one event that satisfies [p]: any occurrence of
    such an event is that one. *)
Lemma unique_occurrence {A} (p : A -> bool) (a1 a2 pre post : list A) (e0 e : A) :
  forallb (fun x => negb (p x)) a1 = true ->
  forallb (fun x => negb (p x)) a2 = true ->
  p e = true ->
  a1 ++ e0 :: a2 = pre ++ e :: post ->
  pre = a1 /\ e = e0 /\ post = a2.
Proof.
  revert pre. induction a1 as [| x a1 IH]; intros pre H1 H2 Hp H; simpl in *.
  - destruct pre as [| y pre]; simpl in H; injection H as Hx Hl.
    + subst. auto.
    + subst. rewrite forallb_app in H2. simpl in H2.
      rewrite Hp in H2. simpl in H2. rewrite andb_false_r in H2. discriminate.
  - apply andb_prop in H1. destruct H1 as [Hx H1].
    destruct pre as [| y pre]; simpl in H; injection H as Hy Hl.
    + subst. rewrite Hp in Hx. discriminate.
    + subst. destruct (IH pre H1 H2 Hp Hl) as [E1 [E2 E3]].
      subst. auto.
Qed.

Lemma no_occurrence {A} (p : A -> bool) (l pre post : list A) (e : A) :
  forallb (fun x => negb (p x)) l = true -> p e = true -> l <> pre ++ e :: post.
Proof.
  intros H Hp E. subst. rewrite forallb_app in H. simpl in H.
  rewrite Hp in H. simpl in H. rewrite andb_false_r in H. discriminate.
Qed.

(** ** One iteration of the training loop *)

Section TrainIteration.

Variable c : train_call.

Lemma train_iteration_finite (i : nat) (b : train_batch) (ms : Misc.meters) :
  accum_iter (tc_args c) <> 0 ->
  isfinite (tb_loss b) = true ->
  train_iteration c i b ms
  = (iteration_head c i ++ EvLossItem (tb_loss b) :: iteration_tail c i b,
     Returns (meters_step b ms)).
Proof.
  intros Hnz Hfin.
  unfold train_iteration, iteration_head, iteration_tail, scaler_call, iteration_rest,
    meters_step, divides_step, here.
  unfold Misc.logger_update, Misc.meter_update.
  rewrite !py_mod_nonzero by assumption.
  cbn [t_val t_src tensor_idiv]. rewrite Hfin. cbn [negb].
  destruct (Misc.get "loss" ms) as [m1 ms1].
  destruct (Misc.get "lr" (Misc.store "loss" (Misc.update m1 (tb_loss b) 1) ms1))
    as [m2 ms2] eqn:E2.
  unfold when, emit, ret, lift, bind.
  destruct (Z.of_nat i mod accum_iter (tc_args c) =? 0);
    destruct (tc_mixup_fn c);
    destruct ((Z.of_nat i + 1) mod accum_iter (tc_args c) =? 0);
    destruct (tc_log_writer c); cbn; rewrite ?E2; cbn; reflexivity.
Qed.

Lemma train_iteration_not_finite (i : nat) (b : train_batch) (ms : Misc.meters) :
  accum_iter (tc_args c) <> 0 ->
  isfinite (tb_loss b) = false ->
  train_iteration c i b ms
  = (iteration_head c i ++ [EvLossItem (tb_loss b); EvPrint (MsgLossStop (tb_loss b))],
     Exits 1).
Proof.
  intros Hnz Hfin.
  unfold train_iteration, iteration_head, here.
  rewrite !py_mod_nonzero by assumption.
  cbn [t_val t_src]. rewrite Hfin. cbn [negb].
  unfold when, emit, ret, lift, sys_exit, bind.
  destruct (Z.of_nat i mod accum_iter (tc_args c) =? 0);
    destruct (tc_mixup_fn c); reflexivity.
Qed.

Lemma train_iteration_zero_accum (i : nat) (b : train_batch) (ms : Misc.meters) :
  accum_iter (tc_args c) = 0 ->
  train_iteration c i b ms = ([], Raises ZeroDivisionError).
Proof.
  intros Hz. unfold train_iteration. rewrite Hz. reflexivity.
Qed.

(** *** The loop *)

Lemma train_loop_finite (batches : list train_batch) :
  forall (i : nat) (ms : Misc.meters),
    accum_iter (tc_args c) <> 0 ->
    all_finite batches = true ->
    train_loop c i batches ms
    = (List.concat (loop_events c i batches) ++ [EvExhausted],
       Returns (fold_left (fun ms b => meters_step b ms) batches ms)).
Proof.
  induction batches as [| b rest IH]; intros i ms Hnz Hfin.
  - reflexivity.
  - simpl in Hfin. apply andb_prop in Hfin. destruct Hfin as [Hb Hrest].
    cbn [train_loop loop_events List.concat fold_left].
    rewrite bind_emit. cbn [fst snd].
    rewrite (train_iteration_finite i b ms Hnz Hb).
    rewrite bind_returns, (IH (S i) _ Hnz Hrest). cbn [fst snd].
    unfold iteration_events. f_equal. same_events.
Qed.

Lemma train_loop_stops (done : list train_batch) :
  forall (i : nat) (ms : Misc.meters) (b : train_batch) (rest : list train_batch),
    accum_iter (tc_args c) <> 0 ->
    all_finite done = true ->
    isfinite (tb_loss b) = false ->
    train_loop c i (done ++ b :: rest) ms
    = (List.concat (loop_events c i done)
         ++ stopping_events c (i + List.length done) b,
       Exits 1).
Proof.
  induction done as [| d done IH]; intros i ms b rest Hnz Hfin Hb.
  - cbn [app train_loop loop_events List.concat List.length].
    rewrite bind_emit, (train_iteration_not_finite i b ms Hnz Hb).
    cbn. rewrite Nat.add_0_r. reflexivity.
  - simpl in Hfin. apply andb_prop in Hfin. destruct Hfin as [Hd Hdone].
    cbn [app train_loop loop_events List.concat List.length].
    rewrite bind_emit. cbn [fst snd].
    rewrite (train_iteration_finite i d ms Hnz Hd).
    rewrite bind_returns, (IH (S i) _ b rest Hnz Hdone Hb). cbn [fst snd].
    replace (i + S (List.length done))%nat with (S i + List.length done)%nat by lia.
    unfold iteration_events. f_equal. same_events.
Qed.

Lemma train_loop_zero_accum (i : nat) (b : train_batch) (rest : list train_batch)
    (ms : Misc.meters) :
  accum_iter (tc_args c) = 0 ->
  train_loop c i (b :: rest) ms = ([EvYield i], Raises ZeroDivisionError).
Proof.
  intros Hz. cbn [train_loop].
  rewrite bind_emit, (train_iteration_zero_accum i b ms Hz). reflexivity.
Qed.

(** Either every loss is finite or there is a first one that is not. *)
Lemma first_not_finite (batches : list train_batch) :
  all_finite batches = true
  \/ exists done b rest,
      batches = done ++ b :: rest /\ all_finite done = true
      /\ isfinite (tb_loss b) = false.
Proof.
  induction batches as [| b rest IH].
  - left. reflexivity.
  - destruct (isfinite (tb_loss b)) eqn:Hb.
    + destruct IH as [IH | [done [b' [rest' [E [Hd Hb']]]]]].
      * left. simpl. rewrite Hb, IH. reflexivity.
      * right. exists (b :: done), b', rest'. subst. simpl. rewrite Hb, Hd. auto.
    + right. exists [], b, rest. auto.
Qed.

End TrainIteration.

(** ** The whole of [train_one_epoch] *)

Section TrainRun.

Variable c : train_call.

Lemma train_one_epoch_completes :
  accum_iter (tc_args c) <> 0 ->
  all_finite (tc_data_loader c) = true ->
  train_one_epoch c
  = (train_prologue c ++ List.concat (loop_events c 0 (tc_data_loader c))
       ++ train_epilogue,
     Misc.global_avgs
       (fold_left (fun ms b => meters_step b ms) (tc_data_loader c)
          [("lr", Misc.new_meter)])).
Proof.
  intros Hnz Hfin. unfold train_one_epoch, train_prologue, train_epilogue.
  rewrite !bind_emit. cbn [fst snd].
  rewrite (train_loop_finite c _ 0 _ Hnz Hfin).
  unfold when. destruct (tc_log_writer c).
  - rewrite bind_emit, bind_returns. cbn [fst snd lift]. f_equal. same_events.
  - rewrite bind_ret, bind_returns. cbn [fst snd lift]. f_equal. same_events.
Qed.

Lemma train_one_epoch_stops (done rest : list train_batch) (b : train_batch) :
  accum_iter (tc_args c) <> 0 ->
  tc_data_loader c = done ++ b :: rest ->
  all_finite done = true ->
  isfinite (tb_loss b) = false ->
  train_one_epoch c
  = (train_prologue c ++ List.concat (loop_events c 0 done)
       ++ stopping_events c (List.length done) b,
     Exits 1).
Proof.
  intros Hnz E Hfin Hb. unfold train_one_epoch, train_prologue.
  rewrite !bind_emit. cbn [fst snd].
  rewrite E, (train_loop_stops c done 0 _ b rest Hnz Hfin Hb).
  unfold when. destruct (tc_log_writer c).
  - rewrite bind_emit. cbn. reflexivity.
  - rewrite bind_ret. cbn. reflexivity.
Qed.

Lemma train_one_epoch_zero_accum (b : train_batch) (rest : list train_batch) :
  accum_iter (tc_args c) = 0 ->
  tc_data_loader c = b :: rest ->
  train_one_epoch c = (train_prologue c ++ [EvYield 0%nat], Raises ZeroDivisionError).
Proof.
  intros Hz E. unfold train_one_epoch, train_prologue.
  rewrite !bind_emit. cbn [fst snd].
  rewrite E, (train_loop_zero_accum c 0 b rest _ Hz).
  unfold when. destruct (tc_log_writer c).
  - rewrite bind_emit. cbn. reflexivity.
  - rewrite bind_ret. cbn. reflexivity.
Qed.

Lemma train_one_epoch_no_batch :
  tc_data_loader c = [] ->
  train_one_epoch c = (train_prologue c ++ train_epilogue, Raises ZeroDivisionError).
Proof.
  intros E. unfold train_one_epoch, train_prologue, train_epilogue.
  rewrite !bind_emit. cbn [fst snd]. rewrite E.
  unfold when. destruct (tc_log_writer c); reflexivity.
Qed.

Lemma train_one_epoch_run : train_run c (train_one_epoch c).
Proof.
  destruct (Z.eq_dec (accum_iter (tc_args c)) 0) as [Hz | Hnz].
  - destruct (tc_data_loader c) as [| b rest] eqn:E.
    + generalize (run_completes c). rewrite E. cbn [loop_events List.concat fold_left].
      intros R. rewrite (train_one_epoch_no_batch E).
      specialize (R eq_refl (or_intror eq_refl)). cbn in R. exact R.
    + rewrite (train_one_epoch_zero_accum b rest Hz E).
      apply (run_zero_accum c b rest Hz E).
  - destruct (first_not_finite (tc_data_loader c))
      as [Hfin | [done [b [rest [E [Hd Hb]]]]]].
    + rewrite (train_one_epoch_completes Hnz Hfin).
      apply run_completes; auto.
    + rewrite (train_one_epoch_stops done rest b Hnz E Hd Hb).
      apply (run_stops c done b rest Hnz E Hd Hb).
Qed.

(** The three kinds of run, spelt out. *)
Lemma train_one_epoch_cases :
  (all_finite (tc_data_loader c) = true
   /\ (accum_iter (tc_args c) <> 0 \/ tc_data_loader c = [])
   /\ fst (train_one_epoch c)
      = train_prologue c ++ List.concat (loop_events c 0 (tc_data_loader c))
          ++ train_epilogue
   /\ snd (train_one_epoch c)
      = Misc.global_avgs
          (fold_left (fun ms b => meters_step b ms) (tc_data_loader c)
             [("lr", Misc.new_meter)]))
  \/ (exists done b rest,
         accum_iter (tc_args c) <> 0
         /\ tc_data_loader c = done ++ b :: rest
         /\ all_finite done = true
         /\ isfinite (tb_loss b) = false
         /\ fst (train_one_epoch c)
            = train_prologue c ++ List.concat (loop_events c 0 done)
                ++ stopping_events c (List.length done) b
         /\ snd (train_one_epoch c) = Exits 1)
  \/ (exists b rest,
         accum_iter (tc_args c) = 0
         /\ tc_data_loader c = b :: rest
         /\ fst (train_one_epoch c) = train_prologue c ++ [EvYield 0%nat]
         /\ snd (train_one_epoch c) = Raises ZeroDivisionError).
Proof.
  pose proof train_one_epoch_run as R.
  destruct (train_one_epoch c) as [tr o]. cbn [fst snd].
  inversion R; subst.
  - left. auto.
  - right. left. eauto 10.
  - right. right. eauto 10.
Qed.

(** Every run is a prologue, some complete iterations and an ending. *)
Lemma train_trace_form :
  exists done rest ending,
    tc_data_loader c = done ++ rest
    /\ all_finite done = true
    /\ (done <> [] -> accum_iter (tc_args c) <> 0)
    /\ ending_of c (List.length done) ending
    /\ fst (train_one_epoch c)
       = train_prologue c ++ List.concat (loop_events c 0 done) ++ ending.
Proof.
  destruct train_one_epoch_cases
    as [[Hfin [Hnz [Et Eo]]]
       | [[done [b [rest [Hnz [El [Hfin [Hb [Et Eo]]]]]]]]
         | [b [rest [Hz [El [Et Eo]]]]]]].
  - exists (tc_data_loader c), [], train_epilogue. rewrite app_nil_r.
    repeat split; try assumption; [| constructor].
    intros Hne. destruct Hnz as [Hnz | Hnil]; [exact Hnz | contradiction].
  - exists done, (b :: rest), (stopping_events c (List.length done) b).
    repeat split; try assumption; [auto | constructor; assumption].
  - exists [], (b :: rest), [EvYield 0%nat].
    repeat split; try assumption; [congruence | constructor].
Qed.

End TrainRun.

(** ** Where an event of a training run can lie *)

(** Decides the side conditions on the fixed segments of a run. *)
Ltac scan_segment :=
  unfold train_prologue, train_epilogue, iteration_events, stopping_events,
    iteration_head, iteration_tail, scaler_call, iteration_rest;
  repeat match goal with
         | |- context [if ?b then _ else _] => destruct b
         end;
  cbn; try reflexivity; try assumption.

Section TrainOccurrences.

Variable c : train_call.

Lemma loop_occurrence (batches : list train_batch) :
  forall (k : nat) (pre post : trace) (e : event),
    List.concat (loop_events c k batches) = pre ++ e :: post ->
    exists done b rest pre' post',
      batches = done ++ b :: rest
      /\ iteration_events c (k + List.length done) b = pre' ++ e :: post'
      /\ pre = List.concat (loop_events c k done) ++ pre'
      /\ post = post' ++ List.concat (loop_events c (k + S (List.length done)) rest).
Proof.
  induction batches as [| b rest IH]; intros k pre post e H.
  - destruct pre; discriminate.
  - cbn [loop_events List.concat] in H.
    apply app_split_occurrence in H. destruct H as [[m [E1 E2]] | [m [E1 E2]]].
    + exists [], b, rest, pre, m. cbn [app List.length loop_events List.concat].
      rewrite Nat.add_0_r, Nat.add_1_r. auto.
    + apply IH in E2.
      destruct E2 as [done [b' [rest' [pre' [post' [Eb [Ei [Ep Eq]]]]]]]].
      exists (b :: done), b', rest', pre', post'. subst.
      cbn [app List.length loop_events List.concat].
      replace (k + S (List.length done))%nat with (S k + List.length done)%nat by lia.
      replace (k + S (S (List.length done)))%nat
        with (S k + S (List.length done))%nat by lia.
      repeat split; try assumption; same_events.
Qed.

(** An event of a run lies in the prologue, in an iteration that ran to
    its end, or in what follows the last such iteration. *)
Lemma run_occurrence (done : list train_batch) (ending pre post : trace) (e : event) :
  train_prologue c ++ List.concat (loop_events c 0 done) ++ ending = pre ++ e :: post ->
  (exists m, train_prologue c = pre ++ e :: m
             /\ post = m ++ List.concat (loop_events c 0 done) ++ ending)
  \/ (exists d b r pre' post',
         done = d ++ b :: r
         /\ iteration_events c (List.length d) b = pre' ++ e :: post'
         /\ pre = train_prologue c ++ List.concat (loop_events c 0 d) ++ pre'
         /\ post = post' ++ List.concat (loop_events c (S (List.length d)) r) ++ ending)
  \/ (exists m, pre = train_prologue c ++ List.concat (loop_events c 0 done) ++ m
                /\ ending = m ++ e :: post).
Proof.
  intros H. apply app_split_occurrence in H.
  destruct H as [[m [E1 E2]] | [m [E1 E2]]].
  - left. exists m. auto.
  - apply app_split_occurrence in E2.
    destruct E2 as [[m' [E3 E4]] | [m' [E3 E4]]].
    + right. left. apply loop_occurrence in E3.
      destruct E3 as [d [b [r [pre' [post' [Eb [Ei [Ep Eq]]]]]]]].
      exists d, b, r, pre', post'. subst. cbn [Nat.add] in *.
      repeat split; try assumption; same_events.
    + right. right. exists m'. subst. split; [reflexivity | auto].
Qed.

Lemma yields_app (t1 t2 : trace) : yields (t1 ++ t2) = yields t1 ++ yields t2.
Proof. apply flat_map_app. Qed.

Lemma yields_prologue : yields (train_prologue c) = [].
Proof. scan_segment. Qed.

Lemma yields_head (i : nat) : yields (iteration_head c i) = [].
Proof. scan_segment. Qed.

Lemma yields_iteration (i : nat) (b : train_batch) :
  yields (iteration_events c i b) = [i].
Proof. scan_segment. Qed.

Lemma yields_loop (batches : list train_batch) :
  forall k, yields (List.concat (loop_events c k batches)) = seq k (List.length batches).
Proof.
  induction batches as [| b rest IH]; intros k; [reflexivity |].
  cbn [loop_events List.concat List.length seq].
  rewrite yields_app, yields_iteration, IH. reflexivity.
Qed.

Lemma no_bad_loss_prologue :
  forallb (fun e => negb (is_bad_loss e)) (train_prologue c) = true.
Proof. scan_segment. Qed.

Lemma no_bad_loss_head (i : nat) :
  forallb (fun e => negb (is_bad_loss e)) (iteration_head c i) = true.
Proof. scan_segment. Qed.

Lemma no_bad_loss_iteration (i : nat) (b : train_batch) :
  isfinite (tb_loss b) = true ->
  forallb (fun e => negb (is_bad_loss e)) (iteration_events c i b) = true.
Proof.
  intros Hfin. unfold iteration_events. cbn [forallb].
  rewrite forallb_app, no_bad_loss_head. cbn. rewrite Hfin. scan_segment.
Qed.

Lemma no_bad_loss_loop (batches : list train_batch) :
  forall k, all_finite batches = true ->
    forallb (fun e => negb (is_bad_loss e)) (List.concat (loop_events c k batches)) = true.
Proof.
  induction batches as [| b rest IH]; intros k H; [reflexivity |].
  simpl in H. apply andb_prop in H. destruct H as [Hb Hrest].
  cbn [loop_events List.concat]. rewrite forallb_app, (no_bad_loss_iteration k b Hb).
  apply IH, Hrest.
Qed.

Lemma no_scaler_prologue :
  forallb (fun e => negb (is_loss_scaler e)) (train_prologue c) = true.
Proof. scan_segment. Qed.

Lemma no_scaler_ending (n : nat) (ending : trace) :
  ending_of c n ending ->
  forallb (fun e => negb (is_loss_scaler e)) ending = true.
Proof. intros H. destruct H; scan_segment. Qed.

Lemma no_scaler_before (i : nat) (b : train_batch) :
  forallb (fun e => negb (is_loss_scaler e))
    (EvYield i :: iteration_head c i ++ [EvLossItem (tb_loss b)]) = true.
Proof. scan_segment. Qed.

Lemma no_scaler_after (i : nat) (b : train_batch) :
  forallb (fun e => negb (is_loss_scaler e))
    ((if divides_step c i then [EvZeroGrad] else []) ++ iteration_rest c i b) = true.
Proof. scan_segment. Qed.

(** The loss scaler is called once in an iteration. *)
Lemma scaler_in_iteration (i : nat) (b : train_batch) (pre post : trace) (e : event) :
  is_loss_scaler e = true ->
  iteration_events c i b = pre ++ e :: post ->
  pre = EvYield i :: iteration_head c i ++ [EvLossItem (tb_loss b)]
  /\ e = scaler_call c i b
  /\ post = (if divides_step c i then [EvZeroGrad] else []) ++ iteration_rest c i b.
Proof.
  intros He E.
  apply (unique_occurrence is_loss_scaler); auto using no_scaler_before, no_scaler_after.
  rewrite <- E. unfold iteration_events, iteration_tail. same_events.
Qed.

Lemma no_zero_grad_ending (n : nat) (ending : trace) :
  ending_of c n ending ->
  forallb (fun e => negb (is_zero_grad e)) ending = true.
Proof. intros H. destruct H; scan_segment. Qed.

Lemma no_zero_grad_before (i : nat) (b : train_batch) :
  forallb (fun e => negb (is_zero_grad e))
    (EvYield i :: iteration_head c i ++ [EvLossItem (tb_loss b); scaler_call c i b]) = true.
Proof. scan_segment. Qed.

Lemma no_zero_grad_rest (i : nat) (b : train_batch) :
  forallb (fun e => negb (is_zero_grad e)) (iteration_rest c i b) = true.
Proof. scan_segment. Qed.

(** [optimizer.zero_grad()] is called in an iteration only when the step
    divides, and then right after the loss scaler. *)
Lemma zero_grad_in_iteration (i : nat) (b : train_batch) (pre post : trace) :
  iteration_events c i b = pre ++ EvZeroGrad :: post ->
  divides_step c i = true
  /\ pre = EvYield i :: iteration_head c i ++ [EvLossItem (tb_loss b); scaler_call c i b].
Proof.
  intros E. destruct (divides_step c i) eqn:Hd.
  - split; [reflexivity |].
    refine (proj1 (unique_occurrence is_zero_grad _ (iteration_rest c i b) pre post
                     EvZeroGrad EvZeroGrad (no_zero_grad_before i b)
                     (no_zero_grad_rest i b) eq_refl _)).
    rewrite <- E. unfold iteration_events, iteration_tail. rewrite Hd. same_events.
  - exfalso. revert E. apply (no_occurrence is_zero_grad); [| reflexivity].
    unfold iteration_events, iteration_tail. rewrite Hd. cbn [app].
    replace (EvYield i :: iteration_head c i ++ EvLossItem (tb_loss b)
               :: scaler_call c i b :: iteration_rest c i b)
      with ((EvYield i :: iteration_head c i
               ++ [EvLossItem (tb_loss b); scaler_call c i b])
              ++ iteration_rest c i b) by same_events.
    rewrite forallb_app, no_zero_grad_before, no_zero_grad_rest. reflexivity.
Qed.

Lemma nth_error_done (done r rest : list train_batch) (b : train_batch) :
  nth_error ((done ++ b :: r) ++ rest) (List.length done) = Some b.
Proof. rewrite <- app_assoc. cbn [app]. rewrite nth_error_app2 by lia.
       rewrite Nat.sub_diag. reflexivity. Qed.

End TrainOccurrences.

(** ** Floats and meters *)

Lemma is_zero_of_Z (z : Z) : is_zero_float (of_Z z) = (z =? 0).
Proof.
  unfold is_zero_float, of_Z, is_zero, Qccompare. cbn [this Q2Qc].
  change (this 0%Qc) with (Qred 0). rewrite <- Qred_compare.
  unfold Qcompare, inject_Z. cbn [Qnum Qden]. rewrite Z.mul_1_r. cbn [Z.mul].
  destruct (Z.eqb_spec z 0) as [E | E].
  - subst. reflexivity.
  - destruct (Z.compare_spec z 0); [contradiction | reflexivity | reflexivity].
Qed.

Lemma global_avg_nonzero (m : Misc.SmoothedValue) :
  Misc.count m <> 0 -> Misc.global_avg m = Returns (avg m).
Proof.
  intros H. unfold Misc.global_avg, truediv, avg. rewrite is_zero_of_Z.
  destruct (Z.eqb_spec (Misc.count m) 0); [contradiction | reflexivity].
Qed.

Lemma global_avg_zero (m : Misc.SmoothedValue) :
  Misc.count m = 0 -> Misc.global_avg m = Raises ZeroDivisionError.
Proof.
  intros H. unfold Misc.global_avg, truediv. rewrite is_zero_of_Z, H. reflexivity.
Qed.

Lemma truediv_not_exits (x y : pyfloat) (code : Z) : truediv x y <> Exits code.
Proof. unfold truediv. destruct (is_zero_float y); discriminate. Qed.

Lemma global_avgs_not_exits (ms : Misc.meters) (code : Z) :
  Misc.global_avgs ms <> Exits code.
Proof.
  induction ms as [| [k m] ms IH]; [discriminate |].
  cbn [Misc.global_avgs]. unfold Misc.global_avg.
  destruct (truediv (Misc.total m) (of_Z (Misc.count m))) eqn:E.
  - destruct (Misc.global_avgs ms); [discriminate | exact IH | discriminate].
  - exfalso. exact (truediv_not_exits _ _ _ E).
  - discriminate.
Qed.

Lemma replay_snoc (us : list (pyfloat * Z)) (v : pyfloat) (n : Z) :
  replay (us ++ [(v, n)]) = Misc.update (replay us) v n.
Proof. unfold replay. rewrite fold_left_app. reflexivity. Qed.

Lemma count_replay_from (us : list (pyfloat * Z)) :
  forall m, Misc.count (fold_left (fun m u => Misc.update m (fst u) (snd u)) us m)
            = Misc.count m + fold_right (fun u n => snd u + n) 0 us.
Proof.
  induction us as [| u us IH]; intros m; cbn [fold_left fold_right].
  - lia.
  - rewrite IH. cbn [Misc.update Misc.count]. lia.
Qed.

Lemma count_replay (us : list (pyfloat * Z)) :
  Misc.count (replay us) = fold_right (fun u n => snd u + n) 0 us.
Proof. unfold replay. rewrite count_replay_from. reflexivity. Qed.

Lemma count_replay_unit {A} (f : A -> pyfloat) (l : list A) :
  Misc.count (replay (map (fun b => (f b, 1)) l)) = Z.of_nat (List.length l).
Proof.
  rewrite count_replay. induction l as [| a l IH]; [reflexivity |].
  cbn [map fold_right snd List.length]. rewrite IH. lia.
Qed.

Lemma count_replay_sized (f : eval_batch -> pyfloat) (l : list eval_batch) :
  Misc.count (replay (map (fun b => (f b, batch_size b)) l)) = sample_count l.
Proof.
  rewrite count_replay. induction l as [| a l IH]; [reflexivity |].
  change (sample_count (a :: l)) with (batch_size a + sample_count l).
  cbn [map fold_right snd]. rewrite IH. reflexivity.
Qed.

Lemma sample_count_length (l : list eval_batch) :
  Z.of_nat (List.length (List.concat (map batch_preds l))) = sample_count l.
Proof.
  induction l as [| b l IH]; [reflexivity |].
  change (sample_count (b :: l)) with (batch_size b + sample_count l).
  cbn [map List.concat].
  rewrite length_app, Nat2Z.inj_add, IH. unfold batch_preds, batch_size.
  rewrite length_map. reflexivity.
Qed.

(** ** The meters of a training run *)

Lemma meters_step_train (done : list train_batch) (b : train_batch) :
  meters_step b (train_meters done) = train_meters (done ++ [b]).
Proof.
  destruct done as [| d done].
  - reflexivity.
  - unfold meters_step. cbn -[replay map].
    change (d :: done ++ [b]) with ((d :: done) ++ [b]).
    rewrite !map_app. cbn [map]. rewrite !replay_snoc. reflexivity.
Qed.

Lemma global_avgs_train (c : train_call) :
  tc_data_loader c <> [] ->
  Misc.global_avgs (train_meters (tc_data_loader c)) = Returns (train_averages c).
Proof.
  intros H. unfold train_averages. destruct (tc_data_loader c) as [| d l]; [contradiction |].
  cbn -[replay map].
  assert (Hn : Z.of_nat (List.length (d :: l)) <> 0) by (cbn [List.length]; lia).
  rewrite !global_avg_nonzero by (rewrite count_replay_unit; assumption).
  reflexivity.
Qed.

Lemma meters_fold_train (batches : list train_batch) :
  forall done,
    fold_left (fun ms b => meters_step b ms) batches (train_meters done)
    = train_meters (done ++ batches).
Proof.
  induction batches as [| b rest IH]; intros done; cbn [fold_left].
  - rewrite app_nil_r. reflexivity.
  - rewrite meters_step_train, IH, <- app_assoc. reflexivity.
Qed.

(** ** The evaluation loop *)

Lemma eval_iteration_run (i : nat) (b : eval_batch) (done : list eval_batch)
    (st : eval_state) :
  es_meters st = eval_meters done ->
  eval_iteration i b st
  = (tl (eval_iteration_events i b),
     Returns
       (mkEvalState (es_preds st ++ [batch_preds b]) (es_targets st ++ [batch_targets b])
          (eval_meters (done ++ [b])))).
Proof.
  intros H. destruct st as [ps ts ms]. cbn [es_meters es_preds es_targets] in *. subst ms.
  unfold eval_iteration, Misc.logger_update, Misc.meter_update.
  cbn [es_meters es_preds es_targets].
  destruct done as [| d done].
  - cbn -[Misc.update fadd fmul Sklearn.f1_score]. reflexivity.
  - cbn -[Misc.update replay map fadd fmul Sklearn.f1_score].
    change (d :: done ++ [b]) with ((d :: done) ++ [b]).
    rewrite !map_app. cbn [map]. rewrite !replay_snoc. reflexivity.
Qed.

Lemma eval_loop_run (batches : list eval_batch) :
  forall (i : nat) (done : list eval_batch) (st : eval_state),
    es_meters st = eval_meters done ->
    eval_loop i batches st
    = (List.concat (eval_loop_events i batches) ++ [EvExhausted],
       Returns
         (mkEvalState (es_preds st ++ map batch_preds batches)
            (es_targets st ++ map batch_targets batches)
            (eval_meters (done ++ batches)))).
Proof.
  induction batches as [| b rest IH]; intros i done st H.
  - cbn. rewrite !app_nil_r, <- H. destruct st; reflexivity.
  - cbn [eval_loop eval_loop_events List.concat map].
    rewrite bind_emit. cbn [fst snd].
    rewrite (eval_iteration_run i b done st H), bind_returns.
    rewrite (IH (S i) (done ++ [b])) by reflexivity.
    cbn [fst snd es_preds es_targets es_meters].
    rewrite <- !app_assoc. reflexivity.
Qed.

(** ** After the evaluation loop *)

Lemma collapse_cases (xs : list Z) :
  (exists vs, collapse xs = Returns vs) \/ (exists k, collapse xs = Raises (KeyError k)).
Proof.
  induction xs as [| x xs IH].
  - left. exists []. reflexivity.
  - cbn [collapse].
    assert (Hx : (exists v, dict_get mapping x = Returns v)
                 \/ dict_get mapping x = Raises (KeyError x)).
    { unfold mapping. cbn [dict_get].
      repeat match goal with
             | |- context [if ?b then _ else _] => destruct b; [left; eexists; reflexivity |]
             end.
      right. reflexivity. }
    destruct Hx as [[v Hv] | Hx]; rewrite ?Hv, ?Hx.
    + destruct IH as [[vs Hvs] | [k Hk]]; rewrite ?Hvs, ?Hk.
      * left. eexists. reflexivity.
      * right. eexists. reflexivity.
    + right. eexists. reflexivity.
Qed.

Lemma collapse_app_returns (xs ys vs : list Z) :
  collapse xs = Returns vs ->
  collapse (xs ++ ys)
  = match collapse ys with
    | Returns ws => Returns (vs ++ ws)
    | Exits code => Exits code
    | Raises e => Raises e
    end.
Proof.
  revert vs. induction xs as [| x xs IH]; intros vs H.
  - cbn in H. injection H as <-. cbn [app]. destruct (collapse ys); reflexivity.
  - cbn [collapse app] in *. destruct (dict_get mapping x); try discriminate.
    destruct (collapse xs) as [vs' | |] eqn:E; try discriminate.
    injection H as <-. rewrite (IH vs' eq_refl).
    destruct (collapse ys); reflexivity.
Qed.

Lemma collapse_app_raises (xs ys : list Z) (e : exn) :
  collapse xs = Raises e -> collapse (xs ++ ys) = Raises e.
Proof.
  induction xs as [| x xs IH]; intros H.
  - discriminate.
  - cbn [collapse app] in *. destruct (dict_get mapping x); try discriminate; try assumption.
    destruct (collapse xs) as [vs' | |] eqn:E; try discriminate.
    rewrite (IH H). reflexivity.
Qed.

Section EvalRun.

Variable c : eval_call.

Lemma print_summary_no_sample :
  sample_count (ec_data_loader c) = 0 ->
  print_summary (eval_meters (ec_data_loader c)) = ([], Raises ZeroDivisionError).
Proof.
  intros H. unfold print_summary. destruct (ec_data_loader c) as [| d l].
  - reflexivity.
  - cbn -[replay map]. rewrite global_avg_zero; [reflexivity |].
    rewrite count_replay_sized. exact H.
Qed.

Lemma print_summary_run :
  sample_count (ec_data_loader c) <> 0 ->
  print_summary (eval_meters (ec_data_loader c))
  = ([summary_line c], Returns (eval_meters (ec_data_loader c))).
Proof.
  intros H. unfold print_summary, summary_line.
  destruct (ec_data_loader c) as [| d l] eqn:E.
  - exfalso. apply H. reflexivity.
  - cbn -[replay map sample_count].
    assert (Hn : Z.of_nat (List.length (d :: l)) <> 0) by (cbn [List.length]; lia).
    rewrite !global_avg_nonzero
      by (rewrite ?count_replay_sized, ?count_replay_unit; assumption).
    reflexivity.
Qed.

Lemma global_avgs_eval :
  sample_count (ec_data_loader c) <> 0 ->
  Misc.global_avgs (eval_meters (ec_data_loader c)) = Returns (eval_averages c).
Proof.
  intros H. unfold eval_averages.
  destruct (ec_data_loader c) as [| d l] eqn:E.
  - exfalso. apply H. reflexivity.
  - cbn -[replay map sample_count].
    assert (Hn : Z.of_nat (List.length (d :: l)) <> 0) by (cbn [List.length]; lia).
    rewrite !global_avg_nonzero
      by (rewrite ?count_replay_sized, ?count_replay_unit; assumption).
    reflexivity.
Qed.

Lemma final_acc1_run (a : Z) :
  sample_count (ec_data_loader c) <> 0 ->
  truediv (of_Z a) (of_Z (Z.of_nat (List.length (preds_list c))))
  = Returns (fdiv_nz (of_Z a) (of_Z (Z.of_nat (List.length (preds_list c))))).
Proof.
  intros H. unfold truediv, preds_list. rewrite is_zero_of_Z, sample_count_length.
  destruct (Z.eqb_spec (sample_count (ec_data_loader c)) 0); [contradiction | reflexivity].
Qed.

Lemma plot_binary_run (preds_list_bin targets_list_bin : list Z) :
  sample_count (ec_data_loader c) <> 0 ->
  collapse (preds_list c) = Returns preds_list_bin ->
  collapse (targets_list c) = Returns targets_list_bin ->
  plot_binary c (preds_list c) (targets_list c)
  = (plot_second c preds_list_bin targets_list_bin, Returns tt).
Proof.
  intros Hs Hp Ht. unfold plot_binary.
  rewrite Hp, bind_lift_returns, Ht, bind_lift_returns.
  rewrite (final_acc1_run _ Hs), bind_lift_returns. reflexivity.
Qed.

Lemma plot_binary_key_error (key : Z) :
  collapse (preds_list c ++ targets_list c) = Raises (KeyError key) ->
  plot_binary c (preds_list c) (targets_list c) = ([], Raises (KeyError key)).
Proof.
  intros H. unfold plot_binary.
  destruct (collapse (preds_list c)) as [pb | code | e] eqn:Ep.
  - rewrite (collapse_app_returns _ (targets_list c) _ Ep) in H.
    destruct (collapse (targets_list c)); try discriminate.
    injection H as ->. reflexivity.
  - destruct (collapse_cases (preds_list c)) as [[vs Hv] | [k Hk]]; congruence.
  - rewrite (collapse_app_raises _ (targets_list c) _ Ep) in H.
    injection H as ->. reflexivity.
Qed.

Lemma evaluate_body_unfold :
  evaluate_body c
  = let rest :=
      (metric_logger <- print_summary (eval_meters (ec_data_loader c)) ;;
       when (ec_confusion_matrix_plot c) (plot_confusion c (map batch_preds (ec_data_loader c))
                                            (map batch_targets (ec_data_loader c))) ;;
       lift (Misc.global_avgs metric_logger))%py in
    (eval_pass c ++ fst rest, snd rest).
Proof.
  unfold evaluate_body, eval_pass. rewrite bind_emit.
  rewrite (eval_loop_run (ec_data_loader c) 0 [] (mkEvalState [] [] [])) by reflexivity.
  rewrite bind_returns, bind_emit. cbn [fst snd es_preds es_targets es_meters app].
  cbv zeta. f_equal. same_events.
Qed.

Lemma eval_run_eq (t t' : trace) (o : outcome (list (string * pyfloat))) :
  t = t' -> eval_run c (t', o) -> eval_run c (t, o).
Proof. intros ->. auto. Qed.

Lemma evaluate_run : eval_run c (evaluate c).
Proof.
  unfold evaluate, no_grad. rewrite evaluate_body_unfold. cbv zeta.
  destruct (Z.eq_dec (sample_count (ec_data_loader c)) 0) as [Hz | Hs].
  { rewrite (print_summary_no_sample Hz). cbn [bind fst snd].
    eapply eval_run_eq; [| apply eval_no_sample, Hz]. f_equal. same_events. }
  rewrite (print_summary_run Hs), bind_returns.
  unfold when. destruct (ec_confusion_matrix_plot c) eqn:Hplot.
  2:{ rewrite bind_ret. cbn [lift fst snd]. rewrite (global_avgs_eval Hs).
      eapply eval_run_eq; [| apply eval_no_plot; assumption]. f_equal. same_events. }
  unfold plot_confusion. fold (preds_list c). fold (targets_list c). cbv zeta.
  rewrite (final_acc1_run _ Hs), bind_lift_returns, !bind_emit. cbn [fst snd].
  destruct (axis_labels (data (ec_args c))) as [labels |] eqn:Hl.
  2:{ cbn [read_local raise bind fst snd app].
      eapply eval_run_eq; [| apply eval_unbound_labels; assumption].
      f_equal. same_events. }
  cbn [read_local]. rewrite bind_ret, !bind_emit. cbn [fst snd].
  destruct (ec_RISE_collapse_labels c) eqn:Hc.
  2:{ cbn [when ret fst snd]. rewrite bind_returns.
      cbn [lift fst snd bind app]. rewrite (global_avgs_eval Hs).
      eapply eval_run_eq; [| apply (eval_one_plot c labels); assumption].
      f_equal. same_events. }
  destruct (collapse_cases (preds_list c ++ targets_list c)) as [[vs Hv] | [k Hk]].
  - destruct (collapse (preds_list c)) as [pb | code | e] eqn:Ep.
    + rewrite (collapse_app_returns _ (targets_list c) _ Ep) in Hv.
      destruct (collapse (targets_list c)) as [tb | code | e] eqn:Et; try discriminate.
      cbn [when]. rewrite (plot_binary_run pb tb Hs Ep Et). cbn [fst snd].
      rewrite bind_returns.
      cbn [lift fst snd bind app]. rewrite (global_avgs_eval Hs).
      eapply eval_run_eq; [| apply (eval_two_plots c labels pb tb); assumption].
      f_equal. unfold plot_start, plot_first. same_events.
    + destruct (collapse_cases (preds_list c)) as [[ws Hw] | [k Hk]]; congruence.
    + rewrite (collapse_app_raises _ (targets_list c) _ Ep) in Hv. discriminate.
  - cbn [when]. rewrite (plot_binary_key_error k Hk). cbn [bind fst snd app].
    eapply eval_run_eq; [| apply (eval_key_error c labels k); assumption].
    f_equal. unfold plot_start, plot_first. same_events.
Qed.

(** Every run of [evaluate] is the pass over the loader followed by
    printing and plotting, inside the no-gradient bracket. *)
Lemma eval_trace_form :
  exists post_pass,
    forallb is_print_or_plot post_pass = true
    /\ fst (evaluate c) = EvNoGradEnter :: eval_pass c ++ post_pass ++ [EvNoGradExit].
Proof.
  pose proof evaluate_run as R. set (r := evaluate c) in *. clearbody r.
  destruct R; cbn [fst].
  - exists []. split; reflexivity.
  - exists [summary_line c]. split; reflexivity.
  - exists ([summary_line c] ++ plot_start c). split; [reflexivity | same_events].
  - exists ([summary_line c] ++ plot_start c ++ plot_first c labels).
    split; [reflexivity | same_events].
  - exists ([summary_line c] ++ plot_start c ++ plot_first c labels).
    split; [reflexivity | same_events].
  - exists ([summary_line c] ++ plot_start c ++ plot_first c labels
              ++ plot_second c preds_list_bin targets_list_bin).
    split; [reflexivity | same_events].
Qed.

End EvalRun.

Lemma forallb_weaken {A} (f g : A -> bool) (l : list A) :
  (forall a, f a = true -> g a = true) -> forallb f l = true -> forallb g l = true.
Proof.
  intros H. rewrite !forallb_forall. auto.
Qed.

Lemma forallb_eval_loop (f : event -> bool) (batches : list eval_batch) :
  (forall i b, forallb f (eval_iteration_events i b) = true) ->
  forall k, forallb f (List.concat (eval_loop_events k batches)) = true.
Proof.
  intros H. induction batches as [| b rest IH]; intros k; [reflexivity |].
  cbn [eval_loop_events List.concat]. rewrite forallb_app, H, IH. reflexivity.
Qed.

Lemma forallb_train_loop (c : train_call) (f : event -> bool) (batches : list train_batch) :
  (forall i b, forallb f (iteration_events c i b) = true) ->
  forall k, forallb f (List.concat (loop_events c k batches)) = true.
Proof.
  intros H. induction batches as [| b rest IH]; intros k; [reflexivity |].
  cbn [loop_events List.concat]. rewrite forallb_app, H, IH. reflexivity.
Qed.

Lemma not_In_forallb {A} (f : A -> bool) (l : list A) (a : A) :
  forallb (fun x => negb (f x)) l = true -> f a = true -> ~ In a l.
Proof.
  intros H Ha Hin. rewrite forallb_forall in H. apply H in Hin.
  rewrite Ha in Hin. discriminate.
Qed.

(** A run over at least one batch, all losses finite, returns the averages. *)
Lemma train_one_epoch_returns (c : train_call) :
  accum_iter (tc_args c) <> 0 ->
  all_finite (tc_data_loader c) = true ->
  tc_data_loader c <> [] ->
  train_one_epoch c
  = (train_prologue c ++ List.concat (loop_events c 0 (tc_data_loader c)) ++ train_epilogue,
     Returns (train_averages c)).
Proof.
  intros Hnz Hfin Hne. rewrite (train_one_epoch_completes c Hnz Hfin). f_equal.
  change [("lr", Misc.new_meter)] with (train_meters []).
  rewrite meters_fold_train. cbn [app]. apply global_avgs_train, Hne.
Qed.

(** ** The label mapping *)

Lemma dict_get_mapping (x : Z) :
  dict_get mapping x
  = if in_range x then Returns (collapse_label x) else Raises (KeyError x).
Proof.
  unfold mapping, dict_get.
  repeat match goal with
         | |- context [?k =? x] => destruct (Z.eqb_spec k x); [subst x; reflexivity |]
         end.
  unfold in_range. destruct (Z.leb_spec 0 x); destruct (Z.leb_spec x 6); cbn [andb];
    try reflexivity.
  lia.
Qed.

Lemma collapse_in_range (xs : list Z) :
  forallb in_range xs = true -> collapse xs = Returns (map collapse_label xs).
Proof.
  induction xs as [| x xs IH]; intros H; [reflexivity |].
  cbn [forallb] in H. apply andb_prop in H. destruct H as [Hx Hxs].
  cbn [collapse map]. rewrite dict_get_mapping, Hx, (IH Hxs). reflexivity.
Qed.

Lemma collapse_out_of_range (xs : list Z) :
  forallb in_range xs = false ->
  exists k, collapse xs = Raises (KeyError k) /\ In k xs /\ in_range k = false.
Proof.
  induction xs as [| x xs IH]; intros H; [discriminate |].
  cbn [forallb] in H. cbn [collapse]. rewrite dict_get_mapping.
  destruct (in_range x) eqn:Hx.
  - cbn [andb] in H. destruct (IH H) as [k [Hk [Hin Hr]]].
    exists k. rewrite Hk. cbn [In]. auto.
  - exists x. cbn [In]. auto.
Qed.

Lemma in_range_spec (x : Z) : in_range x = true <-> 0 <= x <= 6.
Proof. unfold in_range. rewrite andb_true_iff, !Z.leb_le. reflexivity. Qed.

(** ** How [evaluate] ends *)

Section EvalOutcome.

Variable c : eval_call.

Lemma evaluate_outcome_correct : snd (evaluate c) = evaluate_outcome c.
Proof.
  pose proof (evaluate_run c) as R. set (r := evaluate c) in *. clearbody r.
  unfold evaluate_outcome.
  destruct R as [Hz | Hs Hp | Hs Hp Hl | l Hs Hp Hl Hc | l k Hs Hp Hl Hc Hk
                 | l pb tb Hs Hp Hl Hc Hpb Htb]; cbn [snd];
    try (apply Z.eqb_neq in Hs; rewrite Hs); rewrite ?Hp, ?Hl, ?Hc; cbn [negb];
    try reflexivity.
  - apply Z.eqb_eq in Hz. rewrite Hz. reflexivity.
  - rewrite Hk. reflexivity.
  - rewrite (collapse_app_returns _ _ _ Hpb), Htb. reflexivity.
Qed.

Lemma evaluate_returns_iff :
  eval_completes c = true <-> exists d, snd (evaluate c) = Returns d.
Proof.
  rewrite evaluate_outcome_correct. unfold eval_completes, evaluate_outcome.
  destruct (sample_count (ec_data_loader c) =? 0); cbn [negb andb].
  { split; [discriminate | intros [d H]; discriminate]. }
  destruct (ec_confusion_matrix_plot c); cbn [negb orb].
  2:{ split; [eexists; reflexivity | reflexivity]. }
  destruct (axis_labels (data (ec_args c))); cbn [andb].
  2:{ split; [discriminate | intros [d H]; discriminate]. }
  destruct (ec_RISE_collapse_labels c); cbn [negb orb].
  2:{ split; [eexists; reflexivity | reflexivity]. }
  destruct (forallb in_range (preds_list c ++ targets_list c)) eqn:Hr.
  - rewrite (collapse_in_range _ Hr). split; [eexists; reflexivity | reflexivity].
  - destruct (collapse_out_of_range _ Hr) as [k [Hk _]]. rewrite Hk.
    split; [discriminate | intros [d H]; discriminate].
Qed.

Lemma evaluate_returns_averages (d : list (string * pyfloat)) :
  snd (evaluate c) = Returns d -> d = eval_averages c /\ sample_count (ec_data_loader c) <> 0.
Proof.
  rewrite evaluate_outcome_correct. unfold evaluate_outcome.
  destruct (Z.eqb_spec (sample_count (ec_data_loader c)) 0); [discriminate |].
  intros H. split; [| assumption].
  destruct (negb (ec_confusion_matrix_plot c)); [congruence |].
  destruct (axis_labels (data (ec_args c))); [| discriminate].
  destruct (negb (ec_RISE_collapse_labels c)); [congruence |].
  destruct (collapse (preds_list c ++ targets_list c)); congruence.
Qed.

End EvalOutcome.

(** ** The runs of [evaluate], case by case *)

Lemma axis_labels_none (d : string) :
  axis_labels d = None <-> d <> "UCIHAR" /\ d <> "RISE".
Proof.
  unfold axis_labels.
  destruct (String.eqb_spec d "RISE") as [E | E];
    destruct (String.eqb_spec d "UCIHAR") as [E' | E']; split;
    try discriminate; try tauto.
Qed.

Lemma flat_map_none {A B} (g : A -> list B) (p : A -> bool) (l : list A) :
  (forall a, p a = true -> g a = []) -> forallb p l = true -> flat_map g l = [].
Proof.
  intros H. induction l as [| a l IH]; intros Hl; [reflexivity |].
  cbn [forallb] in Hl. apply andb_prop in Hl. destruct Hl as [Ha Hl].
  cbn [flat_map]. rewrite (H a Ha), (IH Hl). reflexivity.
Qed.

Section EvalCases.

Variable c : eval_call.

Lemma eval_pass_no_plot : forallb (fun e => negb (is_print_or_plot e)) (eval_pass c) = true.
Proof.
  unfold eval_pass. cbn [forallb is_print_or_plot negb andb].
  rewrite forallb_app, forallb_eval_loop by reflexivity. reflexivity.
Qed.

Lemma saved_files_pass : saved_files (eval_pass c) = [].
Proof.
  apply (flat_map_none _ (fun e => negb (is_print_or_plot e))); [| apply eval_pass_no_plot].
  intros e. destruct e; cbn; congruence.
Qed.

Lemma heatmap_labels_pass : heatmap_labels (eval_pass c) = [].
Proof.
  apply (flat_map_none _ (fun e => negb (is_print_or_plot e))); [| apply eval_pass_no_plot].
  intros e. destruct e; cbn; congruence.
Qed.

Lemma heatmap_inputs_pass : heatmap_inputs (eval_pass c) = [].
Proof.
  apply (flat_map_none _ (fun e => negb (is_print_or_plot e))); [| apply eval_pass_no_plot].
  intros e. destruct e; cbn; congruence.
Qed.

Lemma evaluate_no_sample :
  sample_count (ec_data_loader c) = 0 ->
  evaluate c = (EvNoGradEnter :: eval_pass c ++ [EvNoGradExit], Raises ZeroDivisionError).
Proof.
  intros Hz. pose proof (evaluate_run c) as R. set (r := evaluate c) in *. clearbody r.
  destruct R; try contradiction. reflexivity.
Qed.

Lemma evaluate_no_plot :
  sample_count (ec_data_loader c) <> 0 ->
  ec_confusion_matrix_plot c = false ->
  evaluate c
  = (EvNoGradEnter :: eval_pass c ++ [summary_line c] ++ [EvNoGradExit],
     Returns (eval_averages c)).
Proof.
  intros Hs Hp. pose proof (evaluate_run c) as R. set (r := evaluate c) in *. clearbody r.
  destruct R; try contradiction; try congruence.
Qed.

Lemma evaluate_unbound_labels :
  sample_count (ec_data_loader c) <> 0 ->
  ec_confusion_matrix_plot c = true ->
  axis_labels (data (ec_args c)) = None ->
  evaluate c
  = (EvNoGradEnter :: eval_pass c ++ [summary_line c] ++ plot_start c ++ [EvNoGradExit],
     Raises (UnboundLocalError "labels")).
Proof.
  intros Hs Hp Hl. pose proof (evaluate_run c) as R. set (r := evaluate c) in *. clearbody r.
  destruct R; try contradiction; try congruence.
Qed.

Lemma evaluate_one_plot (labels : list string) :
  sample_count (ec_data_loader c) <> 0 ->
  ec_confusion_matrix_plot c = true ->
  axis_labels (data (ec_args c)) = Some labels ->
  ec_RISE_collapse_labels c = false ->
  evaluate c
  = (EvNoGradEnter :: eval_pass c ++ [summary_line c] ++ plot_start c
       ++ plot_first c labels ++ [EvNoGradExit],
     Returns (eval_averages c)).
Proof.
  intros Hs Hp Hl Hc. pose proof (evaluate_run c) as R. set (r := evaluate c) in *.
  clearbody r.
  destruct R; try contradiction; try congruence.
Qed.

Lemma evaluate_key_error (labels : list string) (key : Z) :
  sample_count (ec_data_loader c) <> 0 ->
  ec_confusion_matrix_plot c = true ->
  axis_labels (data (ec_args c)) = Some labels ->
  ec_RISE_collapse_labels c = true ->
  collapse (preds_list c ++ targets_list c) = Raises (KeyError key) ->
  evaluate c
  = (EvNoGradEnter :: eval_pass c ++ [summary_line c] ++ plot_start c
       ++ plot_first c labels ++ [EvNoGradExit],
     Raises (KeyError key)).
Proof.
  intros Hs Hp Hl Hc Hk. pose proof (evaluate_run c) as R. set (r := evaluate c) in *.
  clearbody r.
  destruct R as [Hz | Hs' Hp' | Hs' Hp' Hl' | l Hs' Hp' Hl' Hc' | l k Hs' Hp' Hl' Hc' Hk'
                 | l pb tb Hs' Hp' Hl' Hc' Hpb Htb];
    try contradiction; try congruence.
  rewrite (collapse_app_returns _ _ _ Hpb), Htb in Hk. discriminate.
Qed.

Lemma evaluate_two_plots (labels : list string) :
  sample_count (ec_data_loader c) <> 0 ->
  ec_confusion_matrix_plot c = true ->
  axis_labels (data (ec_args c)) = Some labels ->
  ec_RISE_collapse_labels c = true ->
  forallb in_range (preds_list c ++ targets_list c) = true ->
  evaluate c
  = (EvNoGradEnter :: eval_pass c ++ [summary_line c] ++ plot_start c
       ++ plot_first c labels
       ++ plot_second c (map collapse_label (preds_list c))
            (map collapse_label (targets_list c))
       ++ [EvNoGradExit],
     Returns (eval_averages c)).
Proof.
  intros Hs Hp Hl Hc Hr. rewrite forallb_app in Hr. apply andb_prop in Hr.
  destruct Hr as [Hrp Hrt].
  pose proof (collapse_in_range _ Hrp) as Ep. pose proof (collapse_in_range _ Hrt) as Et.
  pose proof (evaluate_run c) as R. set (r := evaluate c) in *. clearbody r.
  destruct R as [Hz | Hs' Hp' | Hs' Hp' Hl' | l Hs' Hp' Hl' Hc' | l k Hs' Hp' Hl' Hc' Hk'
                 | l pb tb Hs' Hp' Hl' Hc' Hpb Htb];
    try contradiction; try congruence.
  rewrite (collapse_app_returns _ _ _ Ep), Et in Hk'. discriminate.
Qed.

Lemma sample_count_targets :
  Z.of_nat (List.length (targets_list c)) = sample_count (ec_data_loader c).
Proof.
  unfold targets_list. induction (ec_data_loader c) as [| b l IH]; [reflexivity |].
  change (sample_count (b :: l)) with (batch_size b + sample_count l).
  cbn [map List.concat].
  rewrite length_app, Nat2Z.inj_add, IH. unfold batch_targets, batch_size.
  rewrite length_map. reflexivity.
Qed.

(** A label among the predictions or targets means a row was evaluated. *)
Lemma label_means_sample (x : Z) :
  In x (preds_list c ++ targets_list c) -> sample_count (ec_data_loader c) <> 0.
Proof.
  intros Hin Hz.
  pose proof (sample_count_length (ec_data_loader c)) as Hp. fold (preds_list c) in Hp.
  pose proof sample_count_targets as Ht. rewrite Hz in Hp, Ht.
  destruct (preds_list c); [| discriminate]. destruct (targets_list c); [| discriminate].
  destruct Hin.
Qed.

End EvalCases.

(** ** Exits and calls of the loss scaler *)

Lemma nth_error_middle {A} (l1 l2 : list A) (a : A) :
  nth_error (l1 ++ a :: l2) (List.length l1) = Some a.
Proof.
  rewrite nth_error_app2 by lia. rewrite Nat.sub_diag. reflexivity.
Qed.

Lemma evaluate_never_exits (e : eval_call) (code : Z) : snd (evaluate e) <> Exits code.
Proof.
  pose proof (evaluate_run e) as R.
  destruct (evaluate e) as [tr o]. cbn [snd].
  inversion R; subst; discriminate.
Qed.

Lemma scalers_iteration (c : train_call) (i : nat) (b : train_batch) :
  filter is_loss_scaler (iteration_events c i b) = [scaler_call c i b].
Proof.
  unfold iteration_events, iteration_tail. cbn [filter is_loss_scaler].
  rewrite filter_app. cbn [filter is_loss_scaler scaler_call]. rewrite filter_app.
  assert (H1 : filter is_loss_scaler (iteration_head c i) = []) by scan_segment.
  assert (H2 : filter is_loss_scaler (iteration_rest c i b) = []) by scan_segment.
  rewrite H1, H2. destruct (divides_step c i); reflexivity.
Qed.

Lemma scalers_loop (c : train_call) (batches : list train_batch) :
  forall k,
    filter is_loss_scaler (List.concat (loop_events c k batches))
    = map (fun ib => scaler_call c (fst ib) (snd ib))
        (combine (seq k (List.length batches)) batches).
Proof.
  induction batches as [| b rest IH]; intros k; [reflexivity |].
  cbn [loop_events List.concat List.length seq combine map fst snd].
  rewrite filter_app, scalers_iteration, IH. reflexivity.
Qed.

(** The loss scaler is called on the batches that ran to their end only. *)
Lemma scaler_source (c : train_call) (batches : list train_batch) (k : nat)
    (loss : tensor) (clip_grad : pyfloat) (update_grad : bool) :
  In (EvLossScaler loss clip_grad update_grad) (List.concat (loop_events c k batches)) ->
  (k <= t_src loss < k + List.length batches)%nat.
Proof.
  intros Hin.
  assert (Hf : In (EvLossScaler loss clip_grad update_grad)
                 (filter is_loss_scaler (List.concat (loop_events c k batches)))).
  { apply filter_In. split; [exact Hin | reflexivity]. }
  rewrite scalers_loop in Hf. apply in_map_iff in Hf.
  destruct Hf as [[i b] [E Hib]]. cbn [fst snd] in E. unfold scaler_call in E.
  injection E as <- _ _. cbn [t_src].
  apply in_combine_l, in_seq in Hib. exact Hib.
Qed.

Lemma all_finite_nth (batches : list train_batch) (i : nat) (b : train_batch) :
  all_finite batches = true -> nth_error batches i = Some b -> isfinite (tb_loss b) = true.
Proof.
  intros H Hn. unfold all_finite in H. rewrite forallb_forall in H.
  apply H. eapply nth_error_In. exact Hn.
Qed.

(** ** Reductions across processes *)

Section Reductions.

Variable c : train_call.

Lemma all_reduce_in_iteration (i : nat) (b : train_batch) (pre post : trace) (v : pyfloat) :
  iteration_events c i b = pre ++ EvAllReduceMean v :: post ->
  v = tb_loss b
  /\ pre = EvYield i :: iteration_head c i
           ++ EvLossItem (tb_loss b) :: scaler_call c i b
           :: (if divides_step c i then [EvZeroGrad] else [])
           ++ [EvMeterUpdate "loss" (tb_loss b) 1;
               EvMeterUpdate "lr" (scan_max_lr (tb_group_lrs b)) 1].
Proof.
  intros E.
  assert (U := unique_occurrence is_all_reduce
                 (EvYield i :: iteration_head c i
                    ++ EvLossItem (tb_loss b) :: scaler_call c i b
                    :: (if divides_step c i then [EvZeroGrad] else [])
                    ++ [EvMeterUpdate "loss" (tb_loss b) 1;
                        EvMeterUpdate "lr" (scan_max_lr (tb_group_lrs b)) 1])
                 (if tc_log_writer c && divides_step c i
                  then [EvAddScalar "loss" (tb_reduced b) (here c i);
                        EvAddScalar "lr" (scan_max_lr (tb_group_lrs b)) (here c i)]
                  else [])
                 pre post (EvAllReduceMean (tb_loss b)) (EvAllReduceMean v)).
  destruct U as [U1 [U2 U3]].
  - scan_segment.
  - scan_segment.
  - reflexivity.
  - rewrite <- E. unfold iteration_events, iteration_tail, iteration_rest. same_events.
  - injection U2 as ->. auto.
Qed.

Lemma yields_before_all_reduce (i : nat) (b : train_batch) :
  yields (EvYield i :: iteration_head c i
            ++ EvLossItem (tb_loss b) :: scaler_call c i b
            :: (if divides_step c i then [EvZeroGrad] else [])
            ++ [EvMeterUpdate "loss" (tb_loss b) 1;
                EvMeterUpdate "lr" (scan_max_lr (tb_group_lrs b)) 1])
  = [i].
Proof. scan_segment. Qed.

Lemma no_exhausted_prologue :
  forallb (fun e => negb (is_exhausted e)) (train_prologue c) = true.
Proof. scan_segment. Qed.

Lemma no_exhausted_iteration (i : nat) (b : train_batch) :
  forallb (fun e => negb (is_exhausted e)) (iteration_events c i b) = true.
Proof. scan_segment. Qed.

Lemma no_synchronize_prologue :
  forallb (fun e => negb (is_synchronize e)) (train_prologue c) = true.
Proof. scan_segment. Qed.

Lemma no_synchronize_iteration (i : nat) (b : train_batch) :
  forallb (fun e => negb (is_synchronize e)) (iteration_events c i b) = true.
Proof. scan_segment. Qed.

Lemma no_all_reduce_prologue :
  forallb (fun e => negb (is_all_reduce e)) (train_prologue c) = true.
Proof. scan_segment. Qed.

Lemma no_all_reduce_ending (n : nat) (ending : trace) :
  ending_of c n ending -> forallb (fun e => negb (is_all_reduce e)) ending = true.
Proof. intros H. destruct H; scan_segment. Qed.

Lemma all_reduces_iteration (i : nat) (b : train_batch) :
  filter is_all_reduce (iteration_events c i b) = [EvAllReduceMean (tb_loss b)].
Proof. scan_segment. Qed.

Lemma all_reduces_loop (batches : list train_batch) :
  forall k,
    filter is_all_reduce (List.concat (loop_events c k batches))
    = map (fun b => EvAllReduceMean (tb_loss b)) batches.
Proof.
  induction batches as [| b rest IH]; intros k; [reflexivity |].
  cbn [loop_events List.concat map].
  rewrite filter_app, all_reduces_iteration, IH. reflexivity.
Qed.

(** In a training run the meters are synchronised after the loop, and the
    loss is reduced inside it. *)
Lemma train_reductions :
  (forall pre post : trace,
      fst (train_one_epoch c) = pre ++ EvSynchronize :: post -> In EvExhausted pre)
  /\ (forall (pre post : trace) (v : pyfloat),
         fst (train_one_epoch c) = pre ++ EvAllReduceMean v :: post ->
         ~ In EvExhausted pre
         /\ exists i b,
             nth_error (tc_data_loader c) i = Some b
             /\ yields pre = seq 0 (S i)
             /\ v = tb_loss b)
  /\ (forall d,
         snd (train_one_epoch c) = Returns d ->
         filter is_all_reduce (fst (train_one_epoch c))
         = map (fun b => EvAllReduceMean (tb_loss b)) (tc_data_loader c)).
Proof.
  destruct (train_trace_form c) as [done [rest [ending [El [Hfin [Hnz [Hend Et]]]]]]].
  split; [| split].
  - intros pre post E. rewrite Et in E. apply run_occurrence in E.
    destruct E as [[m [E _]] | [[d [b [r [pre' [post' [Ed [Ei [Ep Eq]]]]]]]] | [m [Ep E]]]].
    + exfalso. revert E. apply (no_occurrence is_synchronize); [| reflexivity].
      apply no_synchronize_prologue.
    + exfalso. revert Ei. apply (no_occurrence is_synchronize); [| reflexivity].
      apply no_synchronize_iteration.
    + destruct Hend.
      * assert (U := unique_occurrence is_synchronize [EvExhausted]
                       [EvPrint MsgAveragedStats] m post EvSynchronize EvSynchronize
                       eq_refl eq_refl eq_refl E).
        destruct U as [-> _]. rewrite Ep. rewrite !in_app_iff. right. right. left.
        reflexivity.
      * exfalso. revert E. apply (no_occurrence is_synchronize); [| reflexivity].
        scan_segment.
      * exfalso. revert E. apply (no_occurrence is_synchronize); reflexivity.
  - intros pre post v E. rewrite Et in E. apply run_occurrence in E.
    destruct E as [[m [E _]] | [[d [b [r [pre' [post' [Ed [Ei [Ep Eq]]]]]]]] | [m [_ E]]]].
    + exfalso. revert E. apply (no_occurrence is_all_reduce); [| reflexivity].
      apply no_all_reduce_prologue.
    + assert (Hno : forallb (fun e => negb (is_exhausted e)) pre = true).
      { assert (Hit := no_exhausted_iteration (List.length d) b).
        rewrite Ei, forallb_app in Hit. apply andb_prop in Hit. destruct Hit as [Hit _].
        rewrite Ep, !forallb_app, no_exhausted_prologue, Hit.
        rewrite (forallb_train_loop c _ d no_exhausted_iteration). reflexivity. }
      apply all_reduce_in_iteration in Ei. destruct Ei as [Ev Epre'].
      split; [apply (not_In_forallb is_exhausted); [exact Hno | reflexivity] |].
      exists (List.length d), b. subst done. rewrite El.
      split; [apply nth_error_done |]. split; [| exact Ev].
      rewrite Ep, Epre', !yields_app, yields_prologue, yields_loop.
      rewrite yields_before_all_reduce, seq_S. reflexivity.
    + exfalso. revert E. apply (no_occurrence is_all_reduce); [| reflexivity].
      apply (no_all_reduce_ending _ _ Hend).
  - intros d Ed.
    destruct (train_one_epoch_cases c)
      as [[Hfin' [Hnz' [Et' Eo]]]
         | [[done' [b [rest' [_ [_ [_ [_ [_ Eo]]]]]]]]
           | [b [rest' [_ [_ [_ Eo]]]]]]]; try congruence.
    rewrite Et', !filter_app, all_reduces_loop.
    assert (H1 : filter is_all_reduce (train_prologue c) = []) by scan_segment.
    rewrite H1. cbn [filter train_epilogue is_all_reduce app]. apply app_nil_r.
Qed.

End Reductions.

Lemma no_reduction_eval_loop (batches : list eval_batch) (k : nat) :
  forallb (fun e => negb (is_reduction e)) (List.concat (eval_loop_events k batches)) = true.
Proof. apply forallb_eval_loop. reflexivity. Qed.

Lemma evaluate_reductions (e : eval_call) : reductions_after_loop (fst (evaluate e)).
Proof.
  destruct (eval_trace_form e) as [post_pass [Hpp Et]].
  intros pre post ev E Hev. rewrite Et in E.
  assert (U := unique_occurrence is_reduction
                 (EvNoGradEnter :: EvModelEval
                    :: List.concat (eval_loop_events 0 (ec_data_loader e)) ++ [EvExhausted])
                 (post_pass ++ [EvNoGradExit]) pre post EvSynchronize ev).
  destruct U as [U1 _].
  - cbn [forallb is_reduction negb andb].
    rewrite forallb_app, no_reduction_eval_loop. reflexivity.
  - rewrite forallb_app. cbn [forallb is_reduction negb andb]. rewrite andb_true_r.
    revert Hpp. apply forallb_weaken. intros a. destruct a; cbn; congruence.
  - exact Hev.
  - rewrite <- E. unfold eval_pass. same_events.
  - rewrite U1. cbn [In]. right. right. apply in_or_app. right. left. reflexivity.
Qed.

(** ** Gradient buffers across a training run *)

Lemma mod_succ (a k : Z) :
  0 < a -> 0 <= k -> (k + 1) mod a <> 0 -> (k + 1) mod a = k mod a + 1.
Proof.
  intros Ha Hk H.
  pose proof (Z.div_mod k a ltac:(lia)) as E.
  pose proof (Z.mod_pos_bound k a Ha) as B.
  destruct (Z.eq_dec (k mod a + 1) a) as [Ea | Ea].
  - exfalso. apply H. symmetry. apply (Z.mod_unique_pos _ _ (k / a + 1)); [lia |].
    rewrite Z.mul_add_distr_l. lia.
  - symmetry. apply (Z.mod_unique_pos _ _ (k / a)); lia.
Qed.

Lemma pending_le (a : Z) (k : nat) : 0 < a -> (pending k a <= k)%nat.
Proof.
  intros Ha. unfold pending.
  pose proof (Z.mod_le (Z.of_nat k) a ltac:(lia) Ha).
  pose proof (Z.mod_pos_bound (Z.of_nat k) a Ha). lia.
Qed.

(** The batches before the current group: a multiple of [accum_iter]. *)
Lemma applied_upto (a : Z) (k : nat) :
  0 < a -> Z.of_nat (k - pending k a) = a * (Z.of_nat k / a).
Proof.
  intros Ha. pose proof (pending_le a k Ha) as Hle.
  rewrite Nat2Z.inj_sub by exact Hle. unfold pending.
  pose proof (Z.mod_pos_bound (Z.of_nat k) a Ha).
  rewrite Z2Nat.id by lia.
  pose proof (Z.div_mod (Z.of_nat k) a ltac:(lia)). lia.
Qed.

Lemma applied_upto_mono (a : Z) (k1 k2 : nat) :
  0 < a -> (k1 <= k2)%nat -> (k1 - pending k1 a <= k2 - pending k2 a)%nat.
Proof.
  intros Ha Hle. apply Nat2Z.inj_le. rewrite !applied_upto by exact Ha.
  apply Z.mul_le_mono_nonneg_l; [lia |]. apply Z.div_le_mono; lia.
Qed.

Section PartialGroup.

Variable c : train_call.
Hypothesis accum_iter_pos : 0 < accum_iter (tc_args c).

Lemma run_app (t1 t2 : trace) (w : World.world) :
  World.run (t1 ++ t2) w = World.run t2 (World.run t1 w).
Proof. apply fold_left_app. Qed.

Lemma iteration_world (k : nat) (b : train_batch) (w : World.world) :
  World.w_grads (World.run (iteration_events c k b) w)
  = (if divides_step c k then [] else World.w_grads w ++ [k])
  /\ World.w_applied (World.run (iteration_events c k b) w)
     = (if divides_step c k
        then World.w_applied w ++ [World.w_grads w ++ [k]]
        else World.w_applied w).
Proof. unfold World.run. split; scan_segment. Qed.

Lemma loop_world (batches : list train_batch) :
  forall (k : nat) (w : World.world),
    World.w_grads w = seq (k - pending k (accum_iter (tc_args c)))
                        (pending k (accum_iter (tc_args c))) ->
    let k' := (k + List.length batches)%nat in
    let w' := World.run (List.concat (loop_events c k batches)) w in
    World.w_grads w' = seq (k' - pending k' (accum_iter (tc_args c)))
                         (pending k' (accum_iter (tc_args c)))
    /\ exists groups,
        World.w_applied w' = World.w_applied w ++ groups
        /\ forall g i, In g groups -> In i g ->
                       (i < k' - pending k' (accum_iter (tc_args c)))%nat.
Proof.
  set (a := accum_iter (tc_args c)) in *.
  induction batches as [| b rest IH]; intros k w Hw; cbv zeta.
  - cbn [List.length loop_events List.concat World.run fold_left].
    rewrite Nat.add_0_r. split; [exact Hw |].
    exists []. rewrite app_nil_r. split; [reflexivity |]. intros g i [].
  - cbn [loop_events List.concat List.length]. rewrite run_app.
    destruct (iteration_world k b w) as [Hg Ha].
    set (w1 := World.run (iteration_events c k b) w) in *.
    replace (k + S (List.length rest))%nat with (S k + List.length rest)%nat by lia.
    assert (Hk : (pending k a <= k)%nat) by (apply pending_le; assumption).
    assert (Hw1 : World.w_grads w1 = seq (S k - pending (S k) a) (pending (S k) a)
                  /\ (divides_step c k = true -> pending (S k) a = 0%nat)).
    { rewrite Hg. unfold divides_step, pending. fold a.
      replace (Z.of_nat (S k)) with (Z.of_nat k + 1) by lia.
      destruct (Z.eqb_spec ((Z.of_nat k + 1) mod a) 0) as [E | E].
      - rewrite E. cbn. auto.
      - split; [| discriminate].
        rewrite (mod_succ a (Z.of_nat k) accum_iter_pos ltac:(lia) E).
        pose proof (Z.mod_pos_bound (Z.of_nat k) a accum_iter_pos).
        rewrite Z2Nat.inj_add by lia. change (Z.to_nat 1) with 1%nat.
        rewrite Hw. fold (pending k a). rewrite Nat.add_1_r.
        replace (S k - S (pending k a))%nat with (k - pending k a)%nat by lia.
        rewrite seq_S.
        replace (k - pending k a + pending k a)%nat with k by lia.
        reflexivity. }
    destruct Hw1 as [Hw1 Hdiv].
    destruct (IH (S k) w1 Hw1) as [Hgrads [groups [Happ Hbound]]].
    split; [exact Hgrads |].
    rewrite Happ, Ha. destruct (divides_step c k) eqn:Hd.
    + exists ((World.w_grads w ++ [k]) :: groups). rewrite <- app_assoc.
      split; [reflexivity |].
      intros g i [Hgi | Hgi] Hi; [| eapply Hbound; eassumption].
      subst g.
      assert (Hlt : (i < S k - pending (S k) a)%nat).
      { rewrite (Hdiv eq_refl), Nat.sub_0_r. rewrite Hw in Hi.
        apply in_app_or in Hi. destruct Hi as [Hi | [Hi | []]]; [| lia].
        apply in_seq in Hi. lia. }
      pose proof (applied_upto_mono a (S k) (S k + List.length rest)
                    accum_iter_pos ltac:(lia)).
      lia.
    + exists groups. split; [reflexivity | exact Hbound].
Qed.

Lemma loop_events_app (l1 l2 : list train_batch) :
forall k,
List.concat (loop_events c k (l1 ++ l2))
= List.concat (loop_events c k l1)
    ++ List.concat (loop_events c (k + List.length l1) l2).
Proof.
induction l1 as [| b l1 IH]; intros k.
- cbn. rewrite Nat.add_0_r. reflexivity.
- cbn [app loop_events List.concat List.length]. rewrite IH, <- app_assoc.
  replace (S k + List.length l1)%nat with (k + S (List.length l1))%nat by lia.
  reflexivity.
Qed.

(** A step inside the incomplete last group does not divide. *)
Lemma no_division_in_last_group (n i : nat) :
(n - pending n (accum_iter (tc_args c)) <= i < n)%nat -> divides_step c i = false.
Proof.
set (a := accum_iter (tc_args c)) in *. intros Hi.
pose proof (applied_upto a n accum_iter_pos) as Hq.
pose proof (pending_le a n accum_iter_pos) as Hle.
pose proof (Z.mod_pos_bound (Z.of_nat n) a accum_iter_pos) as Hb.
assert (Hr : Z.of_nat (pending n a) = Z.of_nat n mod a).
{ unfold pending. rewrite Z2Nat.id by lia. reflexivity. }
unfold divides_step. fold a. apply Z.eqb_neq.
rewrite <- (Z.mod_unique_pos (Z.of_nat i + 1) a (Z.of_nat n / a)
              (Z.of_nat i + 1 - Z.of_nat (n - pending n a))); lia.
Qed.

Lemma quiet_iteration (i : nat) (b : train_batch) :
divides_step c i = false ->
forallb (fun e => negb (is_zero_grad e) && negb (is_optimizer_step e))
  (iteration_events c i b) = true.
Proof.
intros Hd. unfold iteration_events, iteration_tail, scaler_call. rewrite Hd.
scan_segment.
Qed.

Lemma quiet_loop (batches : list train_batch) :
forall k,
(forall i, (k <= i < k + List.length batches)%nat -> divides_step c i = false) ->
forallb (fun e => negb (is_zero_grad e) && negb (is_optimizer_step e))
  (List.concat (loop_events c k batches)) = true.
Proof.
induction batches as [| b rest IH]; intros k H; [reflexivity |].
cbn [loop_events List.concat]. rewrite forallb_app, quiet_iteration, IH.
- reflexivity.
- intros i Hi. apply H. cbn [List.length]. lia.
- apply H. cbn [List.length]. lia.
Qed.

End PartialGroup.

(** ** Calls that leave model and optimizer alone *)

Lemma apply_inert (w : World.world) (e : event) :
  is_inert e = true -> World.apply_event w e = w.
Proof. destruct e; cbn; intros H; try discriminate; reflexivity. Qed.

Lemma run_inert (tr : trace) (w : World.world) :
  forallb is_inert tr = true -> World.run tr w = w.
Proof.
  induction tr as [| e tr IH]; intros H; [reflexivity |].
  cbn [forallb] in H. apply andb_prop in H. destruct H as [He Htr].
  unfold World.run. cbn [fold_left]. rewrite (apply_inert w e He). apply IH, Htr.
Qed.

Lemma forward_modes_inert (tr : trace) (w : World.world) :
  forallb is_inert tr = true ->
  World.forward_modes tr w
  = map (fun _ => (World.w_training w, World.w_grad_enabled w)) (forwards tr).
Proof.
  induction tr as [| e tr IH]; intros H; [reflexivity |].
  cbn [forallb] in H. apply andb_prop in H. destruct H as [He Htr].
  cbn [World.forward_modes]. rewrite (apply_inert w e He), (IH Htr).
  unfold forwards. cbn [flat_map]. rewrite map_app.
  destruct e; reflexivity.
Qed.

Lemma forwards_app (t1 t2 : trace) : forwards (t1 ++ t2) = forwards t1 ++ forwards t2.
Proof. apply flat_map_app. Qed.

Lemma forwards_eval_loop (batches : list eval_batch) :
  forall k, forwards (List.concat (eval_loop_events k batches)) = seq k (List.length batches).
Proof.
  induction batches as [| b rest IH]; intros k; [reflexivity |].
  cbn [eval_loop_events List.concat List.length seq].
  rewrite forwards_app, IH. reflexivity.
Qed.

Lemma forwards_print_or_plot (tr : trace) :
  forallb is_print_or_plot tr = true -> forwards tr = [].
Proof.
  induction tr as [| e tr IH]; intros H; [reflexivity |].
  cbn [forallb] in H. apply andb_prop in H. destruct H as [He Htr].
  unfold forwards. cbn [flat_map]. fold (forwards tr). rewrite (IH Htr).
  destruct e; try discriminate; reflexivity.
Qed.

(** What lies between switching to evaluation mode and leaving the
    no-gradient bracket calls nothing that acts on optimizer or modes. *)
Lemma eval_inside_inert (c : eval_call) :
  exists mid,
    fst (evaluate c) = EvNoGradEnter :: EvModelEval :: mid ++ [EvNoGradExit]
    /\ forallb is_inert mid = true
    /\ forwards mid = seq 0 (List.length (ec_data_loader c)).
Proof.
  destruct (eval_trace_form c) as [post_pass [Hpp Et]].
  exists (List.concat (eval_loop_events 0 (ec_data_loader c))
            ++ [EvExhausted; EvSynchronize] ++ post_pass).
  split; [rewrite Et; unfold eval_pass; same_events |].
  split.
  - rewrite !forallb_app. rewrite (forallb_eval_loop is_inert) by reflexivity.
    cbn [forallb is_inert andb].
    revert Hpp. apply forallb_weaken. intros a. destruct a; cbn; congruence.
  - rewrite !forwards_app, forwards_eval_loop, (forwards_print_or_plot _ Hpp).
    cbn. apply app_nil_r.
Qed.

Lemma evaluate_forwards (c : eval_call) :
  forwards (fst (evaluate c)) = seq 0 (List.length (ec_data_loader c)).
Proof.
  destruct (eval_inside_inert c) as [mid [Et [Hmid Hfw]]]. rewrite Et.
  change (EvNoGradEnter :: EvModelEval :: mid ++ [EvNoGradExit])
    with ([EvNoGradEnter; EvModelEval] ++ mid ++ [EvNoGradExit]).
  rewrite !forwards_app, Hfw. cbn. apply app_nil_r.
Qed.

(** ** Meter updates along a run *)

Lemma updates_of_app (name : string) (t1 t2 : trace) :
  updates_of name (t1 ++ t2) = updates_of name t1 ++ updates_of name t2.
Proof. apply flat_map_app. Qed.

Lemma updates_of_print_or_plot (name : string) (tr : trace) :
  forallb is_print_or_plot tr = true -> updates_of name tr = [].
Proof.
  induction tr as [| e tr IH]; intros H; [reflexivity |].
  cbn [forallb] in H. apply andb_prop in H. destruct H as [He Htr].
  unfold updates_of. cbn [flat_map]. fold (updates_of name tr). rewrite (IH Htr).
  destruct e; try discriminate; reflexivity.
Qed.

Lemma yields_print_or_plot (tr : trace) :
  forallb is_print_or_plot tr = true -> yields tr = [].
Proof.
  induction tr as [| e tr IH]; intros H; [reflexivity |].
  cbn [forallb] in H. apply andb_prop in H. destruct H as [He Htr].
  unfold yields. cbn [flat_map]. fold (yields tr). rewrite (IH Htr).
  destruct e; try discriminate; reflexivity.
Qed.

Lemma updates_eval_loop (name : string) (f : eval_batch -> pyfloat * Z)
    (batches : list eval_batch) :
  (forall i b, updates_of name (eval_iteration_events i b) = [f b]) ->
  forall k, updates_of name (List.concat (eval_loop_events k batches)) = map f batches.
Proof.
  intros H. induction batches as [| b rest IH]; intros k; [reflexivity |].
  cbn [eval_loop_events List.concat map]. rewrite updates_of_app, H, IH. reflexivity.
Qed.

Lemma updates_train_loop (c : train_call) (name : string) (f : train_batch -> pyfloat * Z)
    (batches : list train_batch) :
  (forall i b, updates_of name (iteration_events c i b) = [f b]) ->
  forall k, updates_of name (List.concat (loop_events c k batches)) = map f batches.
Proof.
  intros H. induction batches as [| b rest IH]; intros k; [reflexivity |].
  cbn [loop_events List.concat map]. rewrite updates_of_app, H, IH. reflexivity.
Qed.

Lemma yields_eval_loop (batches : list eval_batch) :
  forall k, yields (List.concat (eval_loop_events k batches)) = seq k (List.length batches).
Proof.
  induction batches as [| b rest IH]; intros k; [reflexivity |].
  cbn [eval_loop_events List.concat List.length seq].
  rewrite yields_app, IH. reflexivity.
Qed.

(** The meter updates of an evaluation are those of its loop. *)
Lemma updates_evaluate (c : eval_call) (name : string) (f : eval_batch -> pyfloat * Z) :
  (forall i b, updates_of name (eval_iteration_events i b) = [f b]) ->
  updates_of name (fst (evaluate c)) = map f (ec_data_loader c).
Proof.
  intros H. destruct (eval_trace_form c) as [post_pass [Hpp Et]]. rewrite Et.
  change (EvNoGradEnter :: eval_pass c ++ post_pass ++ [EvNoGradExit])
    with ([EvNoGradEnter] ++ eval_pass c ++ post_pass ++ [EvNoGradExit]).
  unfold eval_pass.
  change (EvModelEval :: List.concat (eval_loop_events 0 (ec_data_loader c))
            ++ [EvExhausted; EvSynchronize])
    with ([EvModelEval] ++ List.concat (eval_loop_events 0 (ec_data_loader c))
            ++ [EvExhausted; EvSynchronize]).
  rewrite !updates_of_app, (updates_eval_loop name f _ H),
    (updates_of_print_or_plot name _ Hpp).
  cbn. rewrite ?app_nil_r. reflexivity.
Qed.

Lemma updates_train (c : train_call) (name : string) (f : train_batch -> pyfloat * Z) :
  (forall i b, updates_of name (iteration_events c i b) = [f b]) ->
  accum_iter (tc_args c) <> 0 ->
  all_finite (tc_data_loader c) = true ->
  updates_of name (fst (train_one_epoch c)) = map f (tc_data_loader c).
Proof.
  intros H Hnz Hfin. rewrite (train_one_epoch_completes c Hnz Hfin). cbn [fst].
  rewrite !updates_of_app, (updates_train_loop c name f _ H).
  assert (H1 : updates_of name (train_prologue c) = []) by scan_segment.
  rewrite H1. cbn. rewrite ?app_nil_r. reflexivity.
Qed.

Lemma one_pass_evaluate (c : eval_call) :
  yields (fst (evaluate c)) = seq 0 (List.length (ec_data_loader c)).
Proof.
  destruct (eval_trace_form c) as [post_pass [Hpp Et]]. rewrite Et.
  change (EvNoGradEnter :: eval_pass c ++ post_pass ++ [EvNoGradExit])
    with ([EvNoGradEnter] ++ eval_pass c ++ post_pass ++ [EvNoGradExit]).
  unfold eval_pass.
  change (EvModelEval :: List.concat (eval_loop_events 0 (ec_data_loader c))
            ++ [EvExhausted; EvSynchronize])
    with ([EvModelEval] ++ List.concat (eval_loop_events 0 (ec_data_loader c))
            ++ [EvExhausted; EvSynchronize]).
  rewrite !yields_app, yields_eval_loop, (yields_print_or_plot _ Hpp).
  cbn. rewrite ?app_nil_r. reflexivity.
Qed.

(** A training run that returns went over every batch with a finite loss. *)
Lemma train_returns_inv (c : train_call) (d : list (string * pyfloat)) :
  snd (train_one_epoch c) = Returns d ->
  accum_iter (tc_args c) <> 0
  /\ all_finite (tc_data_loader c) = true
  /\ tc_data_loader c <> []
  /\ d = train_averages c.
Proof.
  intros Hd.
  destruct (train_one_epoch_cases c)
    as [[Hfin [Hnz [Et Eo]]]
       | [[done [b [rest [_ [_ [_ [_ [_ Eo]]]]]]]]
         | [b [rest [_ [_ [_ Eo]]]]]]]; try congruence.
  assert (Hne : tc_data_loader c <> []).
  { intros E. rewrite Eo, E in Hd. discriminate. }
  destruct Hnz as [Hnz | Hnil]; [| contradiction].
  repeat split; try assumption.
  rewrite (train_one_epoch_returns c Hnz Hfin Hne) in Hd. cbn [snd] in Hd. congruence.
Qed.

(** ** Averages as means *)

Lemma fmul_one (v : pyfloat) : fmul v (of_Z 1) = v.
Proof.
  destruct v as [q | | |]; try reflexivity.
  unfold fmul, of_Z. f_equal. apply Qcmult_1_r.
Qed.

Lemma total_replay_from (us : list (pyfloat * Z)) :
  forall m,
    Misc.total (fold_left (fun m u => Misc.update m (fst u) (snd u)) us m)
    = fold_left fadd (map (fun u => fmul (fst u) (of_Z (snd u))) us) (Misc.total m).
Proof.
  induction us as [| u us IH]; intros m; [reflexivity |].
  cbn [fold_left map]. rewrite IH. reflexivity.
Qed.

Lemma avg_weighted (us : list (pyfloat * Z)) : avg (replay us) = weighted_mean us.
Proof.
  unfold avg, weighted_mean, fsum, replay.
  rewrite total_replay_from, count_replay_from. reflexivity.
Qed.

Lemma avg_unweighted {A} (f : A -> pyfloat) (l : list A) :
  avg (replay (map (fun b => (f b, 1)) l)) = mean (map f l).
Proof.
  unfold avg, mean. rewrite count_replay_unit, length_map. f_equal.
  unfold replay, fsum. rewrite total_replay_from, map_map. cbn [fst snd Misc.total Misc.new_meter].
  f_equal. apply map_ext. intros a. apply fmul_one.
Qed.

Lemma eval_averages_means (c : eval_call) :
  ec_data_loader c <> [] ->
  eval_averages c
  = [("F1", mean (map batch_f1 (ec_data_loader c)));
     ("loss", mean (map eb_loss (ec_data_loader c)));
     ("acc1", weighted_mean (map (fun b => (eb_acc1 b, batch_size b)) (ec_data_loader c)));
     ("acc3", weighted_mean (map (fun b => (eb_acc3 b, batch_size b)) (ec_data_loader c)))].
Proof.
  intros Hne. unfold eval_averages.
  assert (E : eval_meters (ec_data_loader c)
              = [("F1", replay (map (fun b => (batch_f1 b, 1)) (ec_data_loader c)));
                 ("loss", replay (map (fun b => (eb_loss b, 1)) (ec_data_loader c)));
                 ("acc1", replay (map (fun b => (eb_acc1 b, batch_size b)) (ec_data_loader c)));
                 ("acc3", replay (map (fun b => (eb_acc3 b, batch_size b)) (ec_data_loader c)))]).
  { destruct (ec_data_loader c); [contradiction | reflexivity]. }
  rewrite E. cbn [map fst snd].
  rewrite !avg_unweighted, !avg_weighted. reflexivity.
Qed.

(** ** Reading the plots off a run *)

Lemma forallb_in_range (xs : list Z) :
  (forall x, In x xs -> 0 <= x <= 6) -> forallb in_range xs = true.
Proof.
  intros H. apply forallb_forall. intros x Hx. apply in_range_spec, H, Hx.
Qed.

Ltac list_observer :=
  repeat (rewrite flat_map_app || (cbn [flat_map app])); rewrite ?app_nil_r.

(** * The specified properties *)

(** ** C1: a non-finite loss stops the training *)

(** C1.  In [train_one_epoch], whenever [loss.item()] gives a value that is
    not finite (NaN or an infinity), the run ends in [sys.exit(1)] and the
    only thing that happens after the loss was read is the [print] that
    reports it: the loss is not divided, the loss scaler is not called, the
    optimizer is neither stepped nor zeroed for that batch.  The value is the
    loss of the batch the loader handed out last.  Read from the input: if
    some batch of the loader has a loss that is not finite (and [accum_iter]
    is not zero, so that losses are computed at all), the run exits with
    code 1 and the loss scaler was called on earlier batches only.  This is
    the only way the file exits: a run of [train_one_epoch] that exits does
    so with code 1 right after such a loss, and [evaluate] never exits. *)
Theorem non_finite_loss_exits :
  forall c : train_call,
    (forall (pre post : trace) (v : pyfloat),
        fst (train_one_epoch c) = pre ++ EvLossItem v :: post ->
        isfinite v = false ->
        snd (train_one_epoch c) = Exits 1
        /\ post = [EvPrint (MsgLossStop v)]
        /\ exists i b,
            nth_error (tc_data_loader c) i = Some b
            /\ tb_loss b = v
            /\ yields pre = seq 0 (S i))
    /\ (forall (i : nat) (b : train_batch),
           accum_iter (tc_args c) <> 0 ->
           nth_error (tc_data_loader c) i = Some b ->
           isfinite (tb_loss b) = false ->
           snd (train_one_epoch c) = Exits 1
           /\ forall loss clip_grad update_grad,
               In (EvLossScaler loss clip_grad update_grad) (fst (train_one_epoch c)) ->
               (t_src loss < i)%nat)
    /\ (forall code : Z,
           snd (train_one_epoch c) = Exits code ->
           code = 1
           /\ exists pre v,
               isfinite v = false
               /\ fst (train_one_epoch c) = pre ++ [EvLossItem v; EvPrint (MsgLossStop v)])
    /\ (forall (e : eval_call) (code : Z), snd (evaluate e) <> Exits code).
Proof.
  intros c.
  destruct (train_one_epoch_cases c)
    as [[Hfin [Hnz [Et Eo]]]
       | [[done [b [rest [Hnz [El [Hfin [Hb [Et Eo]]]]]]]]
         | [b [rest [Hz [El [Et Eo]]]]]]];
    rewrite Et, Eo;
    (split; [| split; [intros i0 b0 Hnz0 Hn0 Hb0 | split; [| apply evaluate_never_exits]]]).
  - intros pre post v E Hv. exfalso. revert E.
    apply (no_occurrence is_bad_loss); [| cbn; rewrite Hv; reflexivity].
    rewrite !forallb_app, no_bad_loss_prologue, no_bad_loss_loop by assumption.
    reflexivity.
  - exfalso. rewrite (all_finite_nth _ _ _ Hfin Hn0) in Hb0. discriminate.
  - intros code E. exfalso. exact (global_avgs_not_exits _ _ E).
  - intros pre post v E Hv.
    assert (Hbad : is_bad_loss (EvLossItem v) = true) by (cbn; rewrite Hv; reflexivity).
    assert (E' : (train_prologue c ++ List.concat (loop_events c 0 done)
                    ++ EvYield (List.length done) :: iteration_head c (List.length done))
                 ++ EvLossItem (tb_loss b) :: [EvPrint (MsgLossStop (tb_loss b))]
                 = pre ++ EvLossItem v :: post).
    { rewrite <- E. unfold stopping_events. same_events. }
    apply (unique_occurrence is_bad_loss) in E'; [| | reflexivity | exact Hbad].
    + destruct E' as [Epre [Ev Epost]]. injection Ev as Ev. subst v post pre.
      split; [reflexivity | split; [reflexivity |]].
      exists (List.length done), b. rewrite El. split; [apply nth_error_middle |].
      split; [reflexivity |].
      rewrite !yields_app, yields_prologue, yields_loop. cbn [yields flat_map app].
      fold (yields (iteration_head c (List.length done))). rewrite yields_head.
      rewrite seq_S. reflexivity.
    + rewrite !forallb_app, no_bad_loss_prologue, no_bad_loss_loop by assumption.
      cbn [forallb is_bad_loss negb andb]. apply no_bad_loss_head.
  - split; [reflexivity |]. intros loss clip_grad update_grad Hin.
    assert (Hi : (List.length done <= i0)%nat).
    { destruct (Nat.le_gt_cases (List.length done) i0) as [Hle | Hgt]; [exact Hle |].
      exfalso. rewrite El, nth_error_app1 in Hn0 by exact Hgt.
      rewrite (all_finite_nth _ _ _ Hfin Hn0) in Hb0. discriminate. }
    apply in_app_or in Hin. destruct Hin as [Hin | Hin].
    { exfalso. revert Hin. apply (not_In_forallb is_loss_scaler); [| reflexivity].
      apply no_scaler_prologue. }
    apply in_app_or in Hin. destruct Hin as [Hin | Hin].
    { apply scaler_source in Hin. lia. }
    exfalso. revert Hin. apply (not_In_forallb is_loss_scaler); [| reflexivity].
    apply (no_scaler_ending c (List.length done)). constructor. exact Hb.
  - intros code E. injection E as <-. split; [reflexivity |].
    exists (train_prologue c ++ List.concat (loop_events c 0 done)
              ++ EvYield (List.length done) :: iteration_head c (List.length done)),
      (tb_loss b).
    split; [exact Hb |]. unfold stopping_events. same_events.
  - intros pre post v E Hv. exfalso. revert E.
    apply (no_occurrence is_bad_loss); [| cbn; rewrite Hv; reflexivity].
    rewrite !forallb_app, no_bad_loss_prologue. reflexivity.
  - contradiction.
  - intros code E. discriminate.
Qed.

(** A run on one batch whose loss is NaN. *)
Lemma non_finite_loss_exits_witness :
  snd (train_one_epoch Examples.nan_train) = Exits 1.
Proof.
  exact (proj1
           (proj1 (non_finite_loss_exits Examples.nan_train)
              [EvModelTrain true; EvZeroGrad; EvYield 0%nat;
               EvAdjustLR (mkProgress 0 1 0); EvToDevice; EvToDevice;
               EvForward 0%nat; EvCriterion 0%nat]
              [EvPrint (MsgLossStop NaN)] NaN eq_refl eq_refl)).
Defined.

(** ** C2: the cadence of gradient accumulation *)

(** C2.  In [train_one_epoch] the optimizer is zeroed once before the loop.
    Every call of the loss scaler belongs to one batch [i] of the loader: it
    is given the loss of that batch divided by [accum_iter], its
    [update_grad] is set exactly when [accum_iter] divides
    [data_iter_step + 1], and [optimizer.zero_grad()] is the very next call
    exactly in that case.  Every other [zero_grad] directly follows a call of
    the loss scaler with [update_grad] set.  A run that returns has called
    the loss scaler once on each batch, in order. *)
Theorem gradient_accumulation_cadence :
  forall c : train_call,
    (exists rest, fst (train_one_epoch c) = EvModelTrain true :: EvZeroGrad :: rest)
    /\ (forall (pre post : trace) (loss : tensor) (clip_grad : pyfloat) (update_grad : bool),
           fst (train_one_epoch c) = pre ++ EvLossScaler loss clip_grad update_grad :: post ->
           exists i b,
             nth_error (tc_data_loader c) i = Some b
             /\ yields pre = seq 0 (S i)
             /\ loss = mkTensor i (tensor_div (tb_loss b) (of_Z (accum_iter (tc_args c))))
             /\ (update_grad = true <-> (accum_iter (tc_args c) | Z.of_nat i + 1))
             /\ (update_grad = true <-> exists post', post = EvZeroGrad :: post'))
    /\ (forall pre post : trace,
           fst (train_one_epoch c) = pre ++ EvZeroGrad :: post ->
           pre = [EvModelTrain true]
           \/ exists pre' loss clip_grad, pre = pre' ++ [EvLossScaler loss clip_grad true])
    /\ (forall d,
           snd (train_one_epoch c) = Returns d ->
           filter is_loss_scaler (fst (train_one_epoch c))
           = map (fun ib =>
                    EvLossScaler
                      (mkTensor (fst ib)
                         (tensor_div (tb_loss (snd ib)) (of_Z (accum_iter (tc_args c)))))
                      (tc_max_norm c)
                      ((Z.of_nat (fst ib) + 1) mod accum_iter (tc_args c) =? 0))
               (combine (seq 0 (List.length (tc_data_loader c))) (tc_data_loader c))).
Proof.
  intros c.
  destruct (train_trace_form c) as [done [rest [ending [El [Hfin [Hnz [Hend Et]]]]]]].
  split; [| split; [| split]].
  - rewrite Et. unfold train_prologue. eexists. reflexivity.
  - intros pre post loss clip_grad update_grad E. rewrite Et in E.
    apply run_occurrence in E.
    destruct E as [[m [E _]] | [[d [b [r [pre' [post' [Ed [Ei [Ep Eq]]]]]]]] | [m [_ E]]]].
    + exfalso. revert E. apply (no_occurrence is_loss_scaler); [| reflexivity].
      apply no_scaler_prologue.
    + apply scaler_in_iteration in Ei; [| reflexivity].
      destruct Ei as [Epre' [Ee Epost']]. unfold scaler_call in Ee. injection Ee as El' Ec Eu.
      assert (Hnz' : accum_iter (tc_args c) <> 0).
      { apply Hnz. rewrite Ed. destruct d; discriminate. }
      exists (List.length d), b. subst done. rewrite El.
      split; [apply nth_error_done |].
      split.
      { rewrite Ep, Epre', !yields_app, yields_prologue, yields_loop.
        cbn [yields flat_map app]. rewrite flat_map_app.
        fold (yields (iteration_head c (List.length d))).
        rewrite yields_head, seq_S. reflexivity. }
      split; [exact El' |].
      split.
      { rewrite Eu. unfold divides_step. rewrite Z.eqb_eq. apply Z.mod_divide. exact Hnz'. }
      { rewrite Eu, Eq, Epost'. destruct (divides_step c (List.length d)).
        - split; [intros _ | reflexivity]. eexists. reflexivity.
        - split; [discriminate |]. intros [post'' H]. discriminate. }
    + exfalso. revert E. apply (no_occurrence is_loss_scaler); [| reflexivity].
      apply (no_scaler_ending c _ _ Hend).
  - intros pre post E. rewrite Et in E. apply run_occurrence in E.
    destruct E as [[m [E _]] | [[d [b [r [pre' [post' [Ed [Ei [Ep Eq]]]]]]]] | [m [_ E]]]].
    + left.
      refine (proj1 (unique_occurrence is_zero_grad [EvModelTrain true]
                       (if tc_log_writer c then [EvPrint MsgLogDir] else [])
                       pre m EvZeroGrad EvZeroGrad eq_refl _ eq_refl _)).
      * destruct (tc_log_writer c); reflexivity.
      * rewrite <- E. reflexivity.
    + right. apply zero_grad_in_iteration in Ei. destruct Ei as [Hd Epre'].
      exists (train_prologue c ++ List.concat (loop_events c 0 d)
                ++ EvYield (List.length d) :: iteration_head c (List.length d)
                ++ [EvLossItem (tb_loss b)]),
        (mkTensor (List.length d)
           (tensor_div (tb_loss b) (of_Z (accum_iter (tc_args c))))),
        (tc_max_norm c).
      rewrite Ep, Epre'. unfold scaler_call. rewrite Hd. same_events.
    + exfalso. revert E. apply (no_occurrence is_zero_grad); [| reflexivity].
      apply (no_zero_grad_ending c _ _ Hend).
  - intros d Ed.
    destruct (train_one_epoch_cases c)
      as [[Hfin' [Hnz' [Et' Eo]]]
         | [[done' [b [rest' [_ [_ [_ [_ [_ Eo]]]]]]]]
           | [b [rest' [_ [_ [_ Eo]]]]]]]; try congruence.
    rewrite Et', !filter_app, scalers_loop.
    assert (H1 : filter is_loss_scaler (train_prologue c) = []) by scan_segment.
    rewrite H1. cbn [filter train_epilogue is_loss_scaler app]. apply app_nil_r.
Qed.

(** Three batches accumulated in groups of two: the second call of the loss
    scaler steps the optimizer. *)
Lemma gradient_accumulation_cadence_witness :
  filter is_loss_scaler (fst (train_one_epoch Examples.three_batch_train))
  = [EvLossScaler (mkTensor 0 (tensor_div (of_Z 1) (of_Z 2))) (of_Z 0) false;
     EvLossScaler (mkTensor 1 (tensor_div (of_Z 2) (of_Z 2))) (of_Z 0) true;
     EvLossScaler (mkTensor 2 (tensor_div (of_Z 3) (of_Z 2))) (of_Z 0) false].
Proof.
  exact (proj2 (proj2 (proj2
           (gradient_accumulation_cadence Examples.three_batch_train)))
           _ eq_refl).
Defined.

(** ** C3: one pass, and the averages of the meters *)

(** C3.  [evaluate] goes over the loader once: batch after batch is handed
    out and forwarded once, and each of the meters 'F1', 'loss', 'acc1' and
    'acc3' is updated once per batch.  It returns exactly on the inputs
    singled out by [eval_completes]; when it returns, the dictionary maps
    those four names, in that order, to the global averages of the meters
    built by these updates.  [train_one_epoch] returns when the step count
    [accum_iter] is not zero, the loader is not empty and every loss is
    finite; when it returns, its meters 'lr' and 'loss' were updated once per
    batch and the dictionary maps the two names to their global averages. *)
Theorem passes_return_global_averages :
  (forall c : eval_call,
      let tr := fst (evaluate c) in
      let n := List.length (ec_data_loader c) in
      yields tr = seq 0 n
      /\ forwards tr = seq 0 n
      /\ updates_of "F1" tr = map (fun b => (batch_f1 b, 1)) (ec_data_loader c)
      /\ updates_of "loss" tr = map (fun b => (eb_loss b, 1)) (ec_data_loader c)
      /\ updates_of "acc1" tr = map (fun b => (eb_acc1 b, batch_size b)) (ec_data_loader c)
      /\ updates_of "acc3" tr = map (fun b => (eb_acc3 b, batch_size b)) (ec_data_loader c)
      /\ (eval_completes c = true <-> exists d, snd (evaluate c) = Returns d)
      /\ (forall d,
             snd (evaluate c) = Returns d ->
             d = map (fun name => (name, avg (replay (updates_of name tr))))
                   ["F1"; "loss"; "acc1"; "acc3"]
             /\ forall name,
                 In name ["F1"; "loss"; "acc1"; "acc3"] ->
                 Misc.global_avg (replay (updates_of name tr))
                 = Returns (avg (replay (updates_of name tr)))))
  /\ (forall c : train_call,
         let tr := fst (train_one_epoch c) in
         (accum_iter (tc_args c) <> 0 ->
          all_finite (tc_data_loader c) = true ->
          tc_data_loader c <> [] ->
          exists d, snd (train_one_epoch c) = Returns d)
         /\ (forall d,
                snd (train_one_epoch c) = Returns d ->
                yields tr = seq 0 (List.length (tc_data_loader c))
                /\ updates_of "lr" tr
                   = map (fun b => (scan_max_lr (tb_group_lrs b), 1)) (tc_data_loader c)
                /\ updates_of "loss" tr = map (fun b => (tb_loss b, 1)) (tc_data_loader c)
                /\ d = map (fun name => (name, avg (replay (updates_of name tr))))
                         ["lr"; "loss"]
                /\ forall name,
                    In name ["lr"; "loss"] ->
                    Misc.global_avg (replay (updates_of name tr))
                    = Returns (avg (replay (updates_of name tr))))).
Proof.
  split.
  - intros c tr n. unfold tr, n.
    assert (HF := updates_evaluate c "F1" (fun b => (batch_f1 b, 1)) ltac:(reflexivity)).
    assert (HL := updates_evaluate c "loss" (fun b => (eb_loss b, 1)) ltac:(reflexivity)).
    assert (H1 := updates_evaluate c "acc1" (fun b => (eb_acc1 b, batch_size b))
                    ltac:(reflexivity)).
    assert (H3 := updates_evaluate c "acc3" (fun b => (eb_acc3 b, batch_size b))
                    ltac:(reflexivity)).
    split; [apply one_pass_evaluate |].
    split; [apply evaluate_forwards |].
    repeat (split; [assumption |]).
    split; [apply evaluate_returns_iff |].
    intros d Hd. apply evaluate_returns_averages in Hd. destruct Hd as [-> Hs].
    cbn [map]. rewrite HF, HL, H1, H3. split.
    + unfold eval_averages.
      destruct (ec_data_loader c) as [| b l]; [contradiction Hs; reflexivity |].
      reflexivity.
    + assert (Hn : Z.of_nat (List.length (ec_data_loader c)) <> 0).
      { destruct (ec_data_loader c); [contradiction Hs; reflexivity | cbn [List.length]; lia]. }
      intros name [<- | [<- | [<- | [<- | []]]]]; rewrite ?HF, ?HL, ?H1, ?H3;
        apply global_avg_nonzero; rewrite ?count_replay_unit, ?count_replay_sized; assumption.
  - intros c tr. unfold tr. split.
    + intros Hnz Hfin Hne. rewrite (train_one_epoch_returns c Hnz Hfin Hne).
      eexists. reflexivity.
    + intros d Hd. apply train_returns_inv in Hd. destruct Hd as [Hnz [Hfin [Hne ->]]].
      assert (HR := updates_train c "lr" (fun b => (scan_max_lr (tb_group_lrs b), 1))
                      ltac:(intros; scan_segment) Hnz Hfin).
      assert (HL := updates_train c "loss" (fun b => (tb_loss b, 1))
                      ltac:(intros; scan_segment) Hnz Hfin).
      split.
      { rewrite (train_one_epoch_completes c Hnz Hfin). cbn [fst].
        rewrite !yields_app, yields_prologue, yields_loop. cbn. rewrite ?app_nil_r. reflexivity. }
      split; [exact HR |]. split; [exact HL |].
      cbn [map]. rewrite HR, HL. split.
      * unfold train_averages. destruct (tc_data_loader c); [contradiction | reflexivity].
      * assert (Hn : Z.of_nat (List.length (tc_data_loader c)) <> 0).
        { destruct (tc_data_loader c); [contradiction | cbn [List.length]; lia]. }
        intros name [<- | [<- | []]]; rewrite ?HR, ?HL;
          apply global_avg_nonzero; rewrite count_replay_unit; assumption.
Qed.

(** Two batches evaluated without plots: the call returns. *)
Lemma passes_return_global_averages_witness :
  exists d, snd (evaluate Examples.plain_eval) = Returns d.
Proof.
  exact (proj1 (proj1 (proj2 (proj2 (proj2 (proj2 (proj2 (proj2
           (proj1 passes_return_global_averages Examples.plain_eval))))))))
           eq_refl).
Defined.

(** ** C4: the confusion matrix plots *)

(** With [confusion_matrix_plot] set and [RISE_collapse_labels] left at its
    default, [evaluate] writes one image, not two. *)
Lemma one_image_without_collapse :
  ec_confusion_matrix_plot Examples.plot_eval = true
  /\ saved_files (fst (evaluate Examples.plot_eval))
     = ["/niddk-data-central/P2/mae_hr/MAE_Accelerometer/plots/test_confusion_matrix.png"]
  /\ List.length (heatmap_labels (fst (evaluate Examples.plot_eval))) <> 2%nat.
Proof.
  rewrite (evaluate_one_plot Examples.plot_eval UCIHAR_labels);
    [| discriminate | reflexivity | reflexivity | reflexivity].
  cbn [fst]. unfold saved_files, heatmap_labels.
  change (EvNoGradEnter :: ?t) with ([EvNoGradEnter] ++ t).
  list_observer.
  fold (saved_files (eval_pass Examples.plot_eval)).
  fold (heatmap_labels (eval_pass Examples.plot_eval)).
  rewrite saved_files_pass, heatmap_labels_pass.
  split; [reflexivity |]. split; [reflexivity | discriminate].
Qed.

(** The amended C4.  Without [confusion_matrix_plot], [evaluate] draws no
    heatmap and writes no file.  With it, a call that returns has drawn the
    confusion matrix of all targets and predictions with the axis labels of
    the dataset ('UCIHAR' or 'RISE') and saved it as
    [<plots>/<plot_save_name>_confusion_matrix.png]; when
    [RISE_collapse_labels] is set as well, whatever the dataset, it has
    also drawn the matrix of the collapsed labels with the axis labels
    Sedentary and Active and saved it as
    [<plots>/<plot_save_name>_bin_confusion_matrix.png]; otherwise the first
    image is the only one. *)
Theorem confusion_matrix_plots :
  forall c : eval_call,
    let tr := fst (evaluate c) in
    (ec_confusion_matrix_plot c = false ->
     saved_files tr = [] /\ heatmap_labels tr = [])
    /\ (ec_confusion_matrix_plot c = true ->
        forall d,
          snd (evaluate c) = Returns d ->
          exists labels,
            (data (ec_args c) = "UCIHAR" /\ labels = UCIHAR_labels
             \/ data (ec_args c) = "RISE" /\ labels = RISE_labels)
            /\ if ec_RISE_collapse_labels c
               then
                 saved_files tr
                 = [(plots_dir ++ py_str (ec_plot_save_name c)
                       ++ "_confusion_matrix.png")%string;
                    (plots_dir ++ py_str (ec_plot_save_name c)
                       ++ "_bin_confusion_matrix.png")%string]
                 /\ heatmap_labels tr = [labels; ["Sedentary"; "Active"]]
                 /\ heatmap_inputs tr
                    = [(targets_list c, preds_list c);
                       (map collapse_label (targets_list c),
                        map collapse_label (preds_list c))]
               else
                 saved_files tr
                 = [(plots_dir ++ py_str (ec_plot_save_name c)
                       ++ "_confusion_matrix.png")%string]
                 /\ heatmap_labels tr = [labels]
                 /\ heatmap_inputs tr = [(targets_list c, preds_list c)])
    /\ (eval_completes c = true <-> exists d, snd (evaluate c) = Returns d).
Proof.
  intros c tr. unfold tr. split; [| split; [| apply evaluate_returns_iff]].
  - intros Hp.
    destruct (Z.eq_dec (sample_count (ec_data_loader c)) 0) as [Hz | Hs].
    + rewrite (evaluate_no_sample c Hz). cbn [fst]. unfold saved_files, heatmap_labels.
      change (EvNoGradEnter :: ?t) with ([EvNoGradEnter] ++ t).
      list_observer.
      fold (saved_files (eval_pass c)). fold (heatmap_labels (eval_pass c)).
      rewrite saved_files_pass, heatmap_labels_pass. split; reflexivity.
    + rewrite (evaluate_no_plot c Hs Hp). cbn [fst]. unfold saved_files, heatmap_labels.
      change (EvNoGradEnter :: ?t) with ([EvNoGradEnter] ++ t).
      list_observer.
      fold (saved_files (eval_pass c)). fold (heatmap_labels (eval_pass c)).
      rewrite saved_files_pass, heatmap_labels_pass. split; reflexivity.
  - intros Hp d Hd.
    assert (Hc : eval_completes c = true) by (apply evaluate_returns_iff; eauto).
    unfold eval_completes in Hc. rewrite Hp in Hc. cbn [negb orb] in Hc.
    apply andb_prop in Hc. destruct Hc as [Hs Hc].
    apply negb_true_iff, Z.eqb_neq in Hs.
    destruct (axis_labels (data (ec_args c))) as [labels |] eqn:Hl; [| discriminate].
    cbn [andb] in Hc.
    exists labels. split.
    { unfold axis_labels in Hl.
      destruct (String.eqb_spec (data (ec_args c)) "RISE") as [E | E].
      - right. split; [exact E | congruence].
      - destruct (String.eqb_spec (data (ec_args c)) "UCIHAR") as [E' | E'];
          [| discriminate].
        left. split; [exact E' | congruence]. }
    destruct (ec_RISE_collapse_labels c) eqn:Hcol; cbn [negb orb] in Hc.
    + rewrite (evaluate_two_plots c labels Hs Hp Hl Hcol Hc). cbn [fst].
      unfold saved_files, heatmap_labels, heatmap_inputs.
      change (EvNoGradEnter :: ?t) with ([EvNoGradEnter] ++ t).
      list_observer.
      fold (saved_files (eval_pass c)). fold (heatmap_labels (eval_pass c)).
      fold (heatmap_inputs (eval_pass c)).
      rewrite saved_files_pass, heatmap_labels_pass, heatmap_inputs_pass.
      repeat split; reflexivity.
    + rewrite (evaluate_one_plot c labels Hs Hp Hl Hcol). cbn [fst].
      unfold saved_files, heatmap_labels, heatmap_inputs.
      change (EvNoGradEnter :: ?t) with ([EvNoGradEnter] ++ t).
      list_observer.
      fold (saved_files (eval_pass c)). fold (heatmap_labels (eval_pass c)).
      fold (heatmap_inputs (eval_pass c)).
      rewrite saved_files_pass, heatmap_labels_pass, heatmap_inputs_pass.
      repeat split; reflexivity.
Qed.

(** With both flags set on the RISE dataset two images are written. *)
Lemma confusion_matrix_plots_witness :
  exists labels,
    (data (ec_args Examples.collapse_eval) = "UCIHAR" /\ labels = UCIHAR_labels
     \/ data (ec_args Examples.collapse_eval) = "RISE" /\ labels = RISE_labels)
    /\ saved_files (fst (evaluate Examples.collapse_eval))
       = ["/niddk-data-central/P2/mae_hr/MAE_Accelerometer/plots/test_confusion_matrix.png";
          "/niddk-data-central/P2/mae_hr/MAE_Accelerometer/plots/test_bin_confusion_matrix.png"]
    /\ heatmap_labels (fst (evaluate Examples.collapse_eval))
       = [labels; ["Sedentary"; "Active"]]
    /\ heatmap_inputs (fst (evaluate Examples.collapse_eval))
       = [([0; 1], [0; 0]); ([0; 1], [0; 0])].
Proof.
  exact (proj1 (proj2 (confusion_matrix_plots Examples.collapse_eval)) eq_refl _ eq_refl).
Defined.

(** ** C5: the lookups of the binary collapsing step *)

(** C5.  The collapsing step looks every prediction and every target up in
    the fixed table 0:0, 1:1, 2:1, 3:1, 4:0, 5:0, 6:0.  On labels that all lie
    in 0..6 no lookup fails, and when the step is reached ([evaluate] called
    with both plot flags set and a known dataset name) [evaluate] returns,
    having drawn the second heatmap from the mapped labels.  A label outside
    0..6 is a missing key: the lookup raises [KeyError], and when the step is
    reached with such a label among predictions or targets the error leaves
    [evaluate] unhandled. *)
Theorem collapse_mapping_lookup :
  mapping = [(0, 0); (1, 1); (2, 1); (3, 1); (4, 0); (5, 0); (6, 0)]
  /\ (forall xs : list Z,
         (forall x, In x xs -> 0 <= x <= 6) ->
         collapse xs = Returns (map collapse_label xs)
         /\ forall x, In x xs -> dict_get mapping x = Returns (collapse_label x))
  /\ (forall x : Z, ~ 0 <= x <= 6 -> dict_get mapping x = Raises (KeyError x))
  /\ (forall c : eval_call,
         ec_confusion_matrix_plot c = true ->
         ec_RISE_collapse_labels c = true ->
         data (ec_args c) = "UCIHAR" \/ data (ec_args c) = "RISE" ->
         (sample_count (ec_data_loader c) <> 0 ->
          (forall x, In x (preds_list c ++ targets_list c) -> 0 <= x <= 6) ->
          snd (evaluate c) = Returns (eval_averages c)
          /\ heatmap_inputs (fst (evaluate c))
             = [(targets_list c, preds_list c);
                (map collapse_label (targets_list c), map collapse_label (preds_list c))])
         /\ (forall x,
                In x (preds_list c ++ targets_list c) ->
                ~ 0 <= x <= 6 ->
                exists key,
                  snd (evaluate c) = Raises (KeyError key)
                  /\ In key (preds_list c ++ targets_list c)
                  /\ ~ 0 <= key <= 6)).
Proof.
  split; [reflexivity |].
  split.
  { intros xs H. split; [apply collapse_in_range, forallb_in_range, H |].
    intros x Hx. rewrite dict_get_mapping.
    rewrite (proj2 (in_range_spec x) (H x Hx)). reflexivity. }
  split.
  { intros x Hx. rewrite dict_get_mapping. destruct (in_range x) eqn:E; [| reflexivity].
    apply in_range_spec in E. contradiction. }
  intros c Hp Hc Hdata.
  assert (Hl : exists labels, axis_labels (data (ec_args c)) = Some labels).
  { destruct Hdata as [-> | ->]; eexists; reflexivity. }
  destruct Hl as [labels Hl].
  split.
  - intros Hs Hall.
    rewrite (evaluate_two_plots c labels Hs Hp Hl Hc (forallb_in_range _ Hall)).
    split; [reflexivity |]. cbn [fst]. unfold heatmap_inputs.
    change (EvNoGradEnter :: ?t) with ([EvNoGradEnter] ++ t).
    list_observer. fold (heatmap_inputs (eval_pass c)). rewrite heatmap_inputs_pass.
    reflexivity.
  - intros x Hin Hx.
    assert (Hs := label_means_sample c x Hin).
    destruct (forallb in_range (preds_list c ++ targets_list c)) eqn:Hr.
    + exfalso. apply Hx, in_range_spec. rewrite forallb_forall in Hr. apply Hr, Hin.
    + destruct (collapse_out_of_range _ Hr) as [key [Hk [Hkin Hkr]]].
      exists key. rewrite (evaluate_key_error c labels key Hs Hp Hl Hc Hk).
      split; [reflexivity |]. split; [exact Hkin |].
      intros Hin'. apply in_range_spec in Hin'. congruence.
Qed.

(** A prediction 7 with both plots asked for: the lookup of 7 fails. *)
Lemma collapse_mapping_lookup_witness :
  exists key,
    snd (evaluate Examples.stray_label_eval) = Raises (KeyError key)
    /\ In key (preds_list Examples.stray_label_eval ++ targets_list Examples.stray_label_eval)
    /\ ~ 0 <= key <= 6.
Proof.
  refine (proj2 (proj2 (proj2 (proj2 collapse_mapping_lookup))
                   Examples.stray_label_eval eq_refl eq_refl (or_intror eq_refl))
            7 _ _).
  - left. reflexivity.
  - intros [_ H]. apply H. reflexivity.
Defined.

(** ** C6: where values are reduced across processes *)

(** On a single batch [misc.all_reduce_mean] is called while the loader is
    not yet exhausted: the reduction utilities are not called only at the
    end of the pass. *)
Lemma all_reduce_inside_training_loop :
  ~ reductions_after_loop (fst (train_one_epoch Examples.one_batch_train)).
Proof.
  intros H.
  specialize (H [EvModelTrain true; EvZeroGrad; EvYield 0%nat;
                 EvAdjustLR (mkProgress 0 1 0); EvToDevice; EvToDevice;
                 EvForward 0%nat; EvCriterion 0%nat; EvLossItem (of_Z 1);
                 EvLossScaler (mkTensor 0 (tensor_div (of_Z 1) (of_Z 1))) (of_Z 0) true;
                 EvZeroGrad; EvMeterUpdate "loss" (of_Z 1) 1;
                 EvMeterUpdate "lr" (scan_max_lr [of_Z 1]) 1]
                [EvExhausted; EvSynchronize; EvPrint MsgAveragedStats]
                (EvAllReduceMean (of_Z 1)) eq_refl eq_refl).
  cbn [In] in H.
  repeat match goal with
         | H : _ \/ _ |- _ => destruct H as [H | H]; [discriminate H |]
         end.
  exact H.
Qed.

(** The amended C6.  In [evaluate] the utilities that reduce across
    processes are called only once the loader is exhausted.  In
    [train_one_epoch] that holds for [synchronize_between_processes]; but
    [misc.all_reduce_mean] is called inside the loop, on the loss of the
    batch at hand and before the loader is exhausted, and a run that returns
    has called it once for every batch. *)
Theorem reductions_at_end_of_pass :
  (forall e : eval_call, reductions_after_loop (fst (evaluate e)))
  /\ (forall (c : train_call) (pre post : trace),
         fst (train_one_epoch c) = pre ++ EvSynchronize :: post -> In EvExhausted pre)
  /\ (forall (c : train_call) (pre post : trace) (v : pyfloat),
         fst (train_one_epoch c) = pre ++ EvAllReduceMean v :: post ->
         ~ In EvExhausted pre
         /\ exists i b,
             nth_error (tc_data_loader c) i = Some b
             /\ yields pre = seq 0 (S i)
             /\ v = tb_loss b)
  /\ (forall (c : train_call) d,
         snd (train_one_epoch c) = Returns d ->
         filter is_all_reduce (fst (train_one_epoch c))
         = map (fun b => EvAllReduceMean (tb_loss b)) (tc_data_loader c)).
Proof.
  split; [exact evaluate_reductions |].
  split; [intros c; exact (proj1 (train_reductions c)) |].
  split; [intros c; exact (proj1 (proj2 (train_reductions c))) |].
  intros c; exact (proj2 (proj2 (train_reductions c))).
Qed.

(** One batch: the loss is reduced once, inside the loop. *)
Lemma reductions_at_end_of_pass_witness :
  filter is_all_reduce (fst (train_one_epoch Examples.one_batch_train))
  = [EvAllReduceMean (of_Z 1)].
Proof.
  exact (proj2 (proj2 (proj2 reductions_at_end_of_pass))
           Examples.one_batch_train _ eq_refl).
Defined.

(** ** C7: [evaluate] leaves parameters and optimizer alone *)

(** C7.  [evaluate] runs inside the no-gradient bracket of its decorator and
    switches the model to evaluation mode before anything else; between
    that and leaving the bracket it calls nothing that acts on the optimizer
    or switches a mode.  So every forward pass, one per batch, runs in
    evaluation mode with gradients disabled, and whatever the input the
    parameters, the gradient buffers and the learning rate are after the
    call what they were before it; the gradient mode is restored and the
    model is left in evaluation mode. *)
Theorem evaluate_is_inference_only :
  forall (c : eval_call) (w : World.world),
    let tr := fst (evaluate c) in
    let w' := World.run tr w in
    (exists mid,
        tr = EvNoGradEnter :: EvModelEval :: mid ++ [EvNoGradExit]
        /\ forallb (fun e => negb (touches_optimizer e) && negb (switches_mode e)) mid = true)
    /\ forallb (fun e => negb (touches_optimizer e)) tr = true
    /\ forwards tr = seq 0 (List.length (ec_data_loader c))
    /\ World.forward_modes tr w = map (fun _ => (false, false)) (ec_data_loader c)
    /\ World.w_applied w' = World.w_applied w
    /\ World.w_grads w' = World.w_grads w
    /\ World.w_lr w' = World.w_lr w
    /\ World.w_training w' = false
    /\ World.w_grad_enabled w' = World.w_grad_enabled w
    /\ World.w_saved_modes w' = World.w_saved_modes w.
Proof.
  intros c w tr w'. unfold w', tr.
  destruct (eval_inside_inert c) as [mid [Et [Hmid Hfw]]]. rewrite Et.
  assert (Hweak : forall f : event -> bool,
             (forall a, is_inert a = true -> f a = true) -> forallb f mid = true).
  { intros f Hf. revert Hmid. apply forallb_weaken. exact Hf. }
  split; [| split; [| split; [| split]]].
  - exists mid. split; [reflexivity |]. apply Hweak. intros a. destruct a; cbn; congruence.
  - cbn [forallb touches_optimizer negb andb]. rewrite forallb_app.
    cbn [forallb touches_optimizer negb andb]. rewrite andb_true_r.
    apply Hweak. intros a. destruct a; cbn; congruence.
  - change (EvNoGradEnter :: EvModelEval :: mid ++ [EvNoGradExit])
      with ([EvNoGradEnter; EvModelEval] ++ mid ++ [EvNoGradExit]).
    rewrite !forwards_app, Hfw. cbn. apply app_nil_r.
  - cbn [World.forward_modes World.apply_event app].
    assert (Happ : forall t1 t2 v, forallb is_inert t1 = true ->
               World.forward_modes (t1 ++ t2) v
               = World.forward_modes t1 v ++ World.forward_modes t2 v).
    { induction t1 as [| e t1 IH]; intros t2 v H; [reflexivity |].
      cbn [forallb] in H. apply andb_prop in H. destruct H as [He Ht1].
      cbn [app World.forward_modes]. rewrite (apply_inert v e He), (IH t2 v Ht1).
      apply app_assoc. }
    rewrite (Happ mid _ _ Hmid), (forward_modes_inert mid _ Hmid), Hfw.
    cbn. rewrite app_nil_r. clear.
    generalize 0%nat. induction (ec_data_loader c) as [| b l IH]; intros k; [reflexivity |].
    cbn [List.length seq map]. rewrite IH. reflexivity.
  - change (EvNoGradEnter :: EvModelEval :: mid ++ [EvNoGradExit])
      with ([EvNoGradEnter; EvModelEval] ++ mid ++ [EvNoGradExit]).
    unfold World.run. rewrite !fold_left_app. fold (World.run mid).
    cbn [fold_left World.apply_event]. rewrite (run_inert mid _ Hmid).
    cbn. repeat split; reflexivity.
Qed.

(** ** C8: a dataset name without axis labels *)

(** On an empty loader the call fails before the heatmap is reached, with a
    division by zero and not with an unbound name. *)
Lemma unknown_dataset_empty_loader :
  ec_confusion_matrix_plot Examples.unknown_empty_eval = true
  /\ data (ec_args Examples.unknown_empty_eval) <> "UCIHAR"
  /\ data (ec_args Examples.unknown_empty_eval) <> "RISE"
  /\ snd (evaluate Examples.unknown_empty_eval) = Raises ZeroDivisionError
  /\ snd (evaluate Examples.unknown_empty_eval) <> Raises (UnboundLocalError "labels").
Proof.
  rewrite (evaluate_no_sample Examples.unknown_empty_eval eq_refl). cbn [snd].
  repeat split; try reflexivity; discriminate.
Qed.

(** The amended C8.  When [evaluate] is called with [confusion_matrix_plot]
    set and a dataset name that is neither 'UCIHAR' nor 'RISE', [labels] is
    never assigned.  If at least one row was evaluated, the call fails with
    an unbound-name error where the first heatmap reads [labels]: the
    confusion matrix was computed and a figure opened, but no heatmap is
    drawn, no file written and no metrics returned.  If no row was evaluated
    the call fails earlier, with a division by zero. *)
Theorem unknown_dataset_unbound_labels :
  forall c : eval_call,
    ec_confusion_matrix_plot c = true ->
    data (ec_args c) <> "UCIHAR" ->
    data (ec_args c) <> "RISE" ->
    axis_labels (data (ec_args c)) = None
    /\ (sample_count (ec_data_loader c) <> 0 ->
        snd (evaluate c) = Raises (UnboundLocalError "labels")
        /\ (exists pre,
               fst (evaluate c)
               = pre ++ [EvConfusionMatrix (targets_list c) (preds_list c); EvFigure;
                         EvNoGradExit])
        /\ heatmap_labels (fst (evaluate c)) = []
        /\ saved_files (fst (evaluate c)) = [])
    /\ (sample_count (ec_data_loader c) = 0 ->
        snd (evaluate c) = Raises ZeroDivisionError).
Proof.
  intros c Hp Hu Hr.
  assert (Hl : axis_labels (data (ec_args c)) = None) by (apply axis_labels_none; auto).
  split; [exact Hl |]. split.
  - intros Hs. rewrite (evaluate_unbound_labels c Hs Hp Hl). cbn [fst snd].
    split; [reflexivity |]. split.
    + exists (EvNoGradEnter :: eval_pass c ++ [summary_line c]).
      unfold plot_start. same_events.
    + unfold saved_files, heatmap_labels.
      change (EvNoGradEnter :: ?t) with ([EvNoGradEnter] ++ t).
      list_observer.
      fold (saved_files (eval_pass c)). fold (heatmap_labels (eval_pass c)).
      rewrite saved_files_pass, heatmap_labels_pass. split; reflexivity.
  - intros Hz. rewrite (evaluate_no_sample c Hz). reflexivity.
Qed.

(** Two rows of a dataset named 'WISDM': the call ends in the unbound name. *)
Lemma unknown_dataset_unbound_labels_witness :
  snd (evaluate Examples.unknown_eval) = Raises (UnboundLocalError "labels").
Proof.
  refine (proj1 (proj1 (proj2 (unknown_dataset_unbound_labels Examples.unknown_eval
                                 eq_refl _ _)) _)).
  - discriminate.
  - discriminate.
  - discriminate.
Defined.

(** ** C9: the gradients of an incomplete last group *)

(** C9.  When [train_one_epoch] runs over [n] batches with finite losses and
    [n] is not a multiple of [accum_iter], it returns, and the run splits in
    two: after the batches of the complete groups, the last [n % accum_iter]
    batches go through the loop without a call of the loss scaler that steps
    the optimizer and without a call of [zero_grad].  So on return the
    gradient buffers of the optimizer hold the gradients of exactly these
    batches: no optimizer step of the call applied any of them (every group
    applied during the call consists of earlier batches) and nothing cleared
    them. *)
Theorem partial_group_stays_in_buffers :
  forall (c : train_call) (w : World.world),
    0 < accum_iter (tc_args c) ->
    all_finite (tc_data_loader c) = true ->
    let n := List.length (tc_data_loader c) in
    let r := pending n (accum_iter (tc_args c)) in
    r <> 0%nat ->
    let w' := World.run (fst (train_one_epoch c)) w in
    (exists d, snd (train_one_epoch c) = Returns d)
    /\ (exists pre post,
           fst (train_one_epoch c) = pre ++ post
           /\ yields pre = seq 0 (n - r)
           /\ yields post = seq (n - r) r
           /\ forallb (fun e => negb (is_zero_grad e) && negb (is_optimizer_step e)) post
              = true)
    /\ World.w_grads w' = seq (n - r) r
    /\ exists groups,
        World.w_applied w' = World.w_applied w ++ groups
        /\ forall g i, In g groups -> In i g -> (i < n - r)%nat.
Proof.
  intros c w Ha Hfin n r Hr w'.
  assert (Hne : tc_data_loader c <> []).
  { intros E. apply Hr. unfold r, n. rewrite E. unfold pending. cbn [List.length].
    rewrite Z.mod_0_l by lia. reflexivity. }
  assert (Hrun := train_one_epoch_returns c ltac:(lia) Hfin Hne).
  unfold w'. rewrite Hrun. cbn [fst snd].
  split; [eexists; reflexivity |].
  split.
  { pose proof (pending_le (accum_iter (tc_args c)) n Ha) as Hle. fold r in Hle.
    exists (train_prologue c
              ++ List.concat (loop_events c 0 (firstn (n - r) (tc_data_loader c)))),
      (List.concat (loop_events c (n - r) (skipn (n - r) (tc_data_loader c)))
         ++ train_epilogue).
    assert (Hl1 : List.length (firstn (n - r) (tc_data_loader c)) = (n - r)%nat).
    { rewrite length_firstn. fold n. lia. }
    assert (Hl2 : List.length (skipn (n - r) (tc_data_loader c)) = r).
    { rewrite length_skipn. fold n. lia. }
    split.
    { rewrite <- (firstn_skipn (n - r) (tc_data_loader c)) at 1.
      rewrite loop_events_app, Hl1. same_events. }
    split.
    { rewrite yields_app, yields_prologue, yields_loop, Hl1. reflexivity. }
    split.
    { rewrite yields_app, yields_loop, Hl2. cbn. apply app_nil_r. }
    rewrite forallb_app, quiet_loop; [reflexivity |].
    intros i Hi. rewrite Hl2 in Hi.
    apply (no_division_in_last_group c Ha n). fold r. lia. }
  rewrite !run_app.
  set (w0 := World.run (train_prologue c) w).
  assert (H0 : World.w_grads w0 = [] /\ World.w_applied w0 = World.w_applied w).
  { unfold w0, train_prologue, World.run. destruct (tc_log_writer c); split; reflexivity. }
  destruct H0 as [Hg0 Ha0].
  destruct (loop_world c Ha (tc_data_loader c) 0 w0) as [Hgrads [groups [Happ Hbound]]].
  { rewrite Hg0. unfold pending. cbn [Z.of_nat]. rewrite Z.mod_0_l by lia. reflexivity. }
  cbn [Nat.add] in Hgrads, Hbound. fold n in Hgrads, Hbound. fold r in Hgrads, Hbound.
  split; [exact Hgrads |].
  exists groups. split; [| exact Hbound].
  unfold train_epilogue, World.run at 1. cbn [fold_left World.apply_event].
  rewrite Happ, Ha0. reflexivity.
Qed.

(** Three batches accumulated in groups of two: the gradient of the third
    batch is left in the buffers. *)
Lemma partial_group_stays_in_buffers_witness :
  World.w_grads
    (World.run (fst (train_one_epoch Examples.three_batch_train))
       (World.mkWorld [] [] None false true []))
  = [2%nat].
Proof.
  refine (proj1 (proj2 (proj2
            (partial_group_stays_in_buffers Examples.three_batch_train
               (World.mkWorld [] [] None false true []) _ _ _)))).
  - reflexivity.
  - reflexivity.
  - discriminate.
Defined.

(** ** C10: how the returned metrics are weighted *)

(** C10.  When [evaluate] returns, 'acc1' and 'acc3' are the means of the
    per-batch accuracies weighted by the batch sizes, while 'F1' and 'loss'
    are the plain means of the per-batch values, each batch counting once.
    The returned 'F1' is in general not the F1 score of all the predictions
    taken together: on two batches of one row each, the first predicted
    right and the second wrong, evaluate returns 1/2 where the score of the
    two rows together is 1/3. *)
Theorem evaluate_metric_weights :
  (forall c : eval_call,
      eval_completes c = true ->
      snd (evaluate c)
      = Returns
          [("F1", mean (map batch_f1 (ec_data_loader c)));
           ("loss", mean (map eb_loss (ec_data_loader c)));
           ("acc1",
            weighted_mean (map (fun b => (eb_acc1 b, batch_size b)) (ec_data_loader c)));
           ("acc3",
            weighted_mean (map (fun b => (eb_acc3 b, batch_size b)) (ec_data_loader c)))])
  /\ (exists (c : eval_call) (d : list (string * pyfloat)) (f : pyfloat),
         snd (evaluate c) = Returns d
         /\ dict_lookup "F1" d = Some f
         /\ f <> Sklearn.f1_score (targets_list c) (preds_list c)).
Proof.
  split.
  - intros c Hc. apply evaluate_returns_iff in Hc. destruct Hc as [d Hd].
    rewrite Hd. apply evaluate_returns_averages in Hd. destruct Hd as [-> Hs].
    rewrite eval_averages_means; [reflexivity |].
    intros E. apply Hs. rewrite E. reflexivity.
  - exists Examples.plain_eval.
    assert (Hc : eval_completes Examples.plain_eval = true) by reflexivity.
    apply evaluate_returns_iff in Hc. destruct Hc as [d Hd].
    exists d. pose proof Hd as Hd'.
    apply evaluate_returns_averages in Hd'. destruct Hd' as [-> _].
    eexists. split; [exact Hd |]. split; [reflexivity |].
    intros H. injection H as H. discriminate H.
Qed.

(** On the two single-row batches the returned F1 is the plain mean of the
    two per-batch scores. *)
Lemma evaluate_metric_weights_witness :
  snd (evaluate Examples.plain_eval)
  = Returns
      [("F1", mean (map batch_f1 Examples.two_single_rows));
       ("loss", mean (map eb_loss Examples.two_single_rows));
       ("acc1",
        weighted_mean (map (fun b => (eb_acc1 b, batch_size b)) Examples.two_single_rows));
       ("acc3",
        weighted_mean (map (fun b => (eb_acc3 b, batch_size b)) Examples.two_single_rows))].
Proof.
  exact (proj1 evaluate_metric_weights Examples.plain_eval eq_refl).
Defined.

(** * Further properties of the two functions *)

(** ** Segments of a concatenation *)

Lemma concat_occurrence {A} (segs : list (list A)) :
  forall (pre post : list A) (e : A),
    List.concat segs = pre ++ e :: post ->
    exists s1 seg s2 pre' post',
      segs = s1 ++ seg :: s2
      /\ seg = pre' ++ e :: post'
      /\ pre = List.concat s1 ++ pre'
      /\ post = post' ++ List.concat s2.
Proof.
  induction segs as [| s segs IH]; intros pre post e H.
  - destruct pre; discriminate.
  - cbn [List.concat] in H. apply app_split_occurrence in H.
    destruct H as [[m [E1 E2]] | [m [E1 E2]]].
    + exists [], s, segs, pre, m. cbn [app List.concat]. auto.
    + apply IH in E2. destruct E2 as [s1 [seg [s2 [pre' [post' [Es [Eg [Ep Eq]]]]]]]].
      exists (s :: s1), seg, s2, pre', post'. subst.
      cbn [app List.concat]. rewrite <- app_assoc. auto.
Qed.

(** ** X1: a zero [accum_iter] *)

(** X1.  With [accum_iter] equal to zero and a loader that is not empty,
    [train_one_epoch] raises [ZeroDivisionError] on the first batch: the
    test [data_iter_step % accum_iter] of the learning-rate schedule divides
    by zero as soon as the batch was handed out, before the model is called
    and before anything reaches the loss scaler. *)
Theorem zero_accum_iter_raises :
  forall c : train_call,
    accum_iter (tc_args c) = 0 ->
    tc_data_loader c <> [] ->
    snd (train_one_epoch c) = Raises ZeroDivisionError
    /\ (exists pre, fst (train_one_epoch c) = pre ++ [EvYield 0%nat])
    /\ yields (fst (train_one_epoch c)) = [0%nat]
    /\ forallb (fun e => negb (is_forward e) && negb (is_loss_scaler e)
                         && negb (is_adjust_lr e))
         (fst (train_one_epoch c)) = true.
Proof.
  intros c Hz Hne. destruct (tc_data_loader c) as [| b rest] eqn:E; [contradiction |].
  rewrite (train_one_epoch_zero_accum c b rest Hz E). cbn [fst snd].
  split; [reflexivity |]. split; [eexists; reflexivity |].
  unfold train_prologue. destruct (tc_log_writer c); split; reflexivity.
Qed.

(** Two batches with [accum_iter] zero. *)
Lemma zero_accum_iter_raises_witness :
  snd (train_one_epoch MoreExamples.zero_accum_train) = Raises ZeroDivisionError.
Proof.
  refine (proj1 (zero_accum_iter_raises MoreExamples.zero_accum_train eq_refl _)).
  discriminate.
Defined.

(** ** X2: when the learning rate is adjusted *)

Section Schedule.

Variable c : train_call.

Lemma adjust_after_yield (i : nat) (rest pre post : trace) (p : progress) :
  forallb (fun e => negb (is_adjust_lr e)) rest = true ->
  EvYield i :: iteration_head c i ++ rest = pre ++ EvAdjustLR p :: post ->
  Z.of_nat i mod accum_iter (tc_args c) = 0
  /\ p = here c i
  /\ pre = [EvYield i]
  /\ exists post', post = EvToDevice :: post'.
Proof.
  intros Hrest E. unfold iteration_head in E.
  destruct (Z.eqb_spec (Z.of_nat i mod accum_iter (tc_args c)) 0) as [Hm | Hm].
  - assert (U := unique_occurrence is_adjust_lr [EvYield i]
                   ([EvToDevice; EvToDevice]
                      ++ (if tc_mixup_fn c then [EvMixup] else [])
                      ++ [EvForward i; EvCriterion i] ++ rest)
                   pre post (EvAdjustLR (here c i)) (EvAdjustLR p)).
    destruct U as [U1 [U2 U3]].
    + reflexivity.
    + rewrite !forallb_app, Hrest. destruct (tc_mixup_fn c); reflexivity.
    + reflexivity.
    + rewrite <- E. same_events.
    + injection U2 as ->. subst post. repeat split; try assumption. eexists. reflexivity.
  - exfalso. revert E. apply (no_occurrence is_adjust_lr); [| reflexivity].
    cbn [app forallb is_adjust_lr negb andb]. rewrite !forallb_app, Hrest.
    destruct (tc_mixup_fn c); reflexivity.
Qed.

Lemma no_adjust_tail (i : nat) (b : train_batch) :
  forallb (fun e => negb (is_adjust_lr e)) (EvLossItem (tb_loss b) :: iteration_tail c i b)
  = true.
Proof. scan_segment. Qed.

Lemma no_adjust_prologue :
  forallb (fun e => negb (is_adjust_lr e)) (train_prologue c) = true.
Proof. scan_segment. Qed.

Lemma adjusts_iteration (i : nat) (b : train_batch) :
  filter is_adjust_lr (iteration_events c i b)
  = if Z.of_nat i mod accum_iter (tc_args c) =? 0 then [EvAdjustLR (here c i)] else [].
Proof. scan_segment. Qed.

Lemma adjusts_loop (batches : list train_batch) :
  forall k,
    filter is_adjust_lr (List.concat (loop_events c k batches))
    = map (fun i => EvAdjustLR (here c i))
        (filter (fun i => Z.of_nat i mod accum_iter (tc_args c) =? 0)
           (seq k (List.length batches))).
Proof.
  induction batches as [| b rest IH]; intros k; [reflexivity |].
  cbn [loop_events List.concat List.length seq filter].
  rewrite filter_app, adjusts_iteration, IH.
  destruct (Z.of_nat k mod accum_iter (tc_args c) =? 0); reflexivity.
Qed.

End Schedule.

(** X2.  [train_one_epoch] adjusts the learning rate per iteration, at the
    first batch of every accumulation group: each call of
    [lr_sched.adjust_learning_rate] comes right after a batch [i] with
    [i % accum_iter == 0] was handed out and before that batch is moved to
    the device, and it is given [i / len(data_loader) + epoch].  A run that
    returns has made this call for exactly those steps, in order. *)
Theorem lr_schedule_cadence :
  forall c : train_call,
    (forall (pre post : trace) (p : progress),
        fst (train_one_epoch c) = pre ++ EvAdjustLR p :: post ->
        exists i pre' post',
          p = mkProgress i (List.length (tc_data_loader c)) (tc_epoch c)
          /\ accum_iter (tc_args c) <> 0
          /\ (accum_iter (tc_args c) | Z.of_nat i)
          /\ pre = pre' ++ [EvYield i]
          /\ post = EvToDevice :: post')
    /\ (forall d,
           snd (train_one_epoch c) = Returns d ->
           filter is_adjust_lr (fst (train_one_epoch c))
           = map (fun i =>
                    EvAdjustLR (mkProgress i (List.length (tc_data_loader c)) (tc_epoch c)))
               (adjust_steps (accum_iter (tc_args c)) (List.length (tc_data_loader c)))).
Proof.
  intros c. split.
  - intros pre post p E.
    assert (Hin : forall (done : list train_batch) (ending : trace) d b r pre' post',
               accum_iter (tc_args c) <> 0 ->
               done = d ++ b :: r ->
               iteration_events c (List.length d) b = pre' ++ EvAdjustLR p :: post' ->
               pre = train_prologue c ++ List.concat (loop_events c 0 d) ++ pre' ->
               post = post' ++ List.concat (loop_events c (S (List.length d)) r) ++ ending ->
               exists i pre'' post'',
                 p = mkProgress i (List.length (tc_data_loader c)) (tc_epoch c)
                 /\ accum_iter (tc_args c) <> 0
                 /\ (accum_iter (tc_args c) | Z.of_nat i)
                 /\ pre = pre'' ++ [EvYield i]
                 /\ post = EvToDevice :: post'').
    { intros done ending d b r pre' post' Ha Ed Ei Ep Eq.
      apply adjust_after_yield in Ei; [| apply no_adjust_tail].
      destruct Ei as [Hm [Hp [Hpre [post'' Hpost]]]].
      exists (List.length d), (train_prologue c ++ List.concat (loop_events c 0 d)),
        (post'' ++ List.concat (loop_events c (S (List.length d)) r) ++ ending).
      rewrite Ep, Eq, Hpre, Hpost, Hp.
      repeat split; auto; [apply Z.mod_divide; assumption | same_events]. }
    destruct (train_one_epoch_cases c)
      as [[Hfin [Hnz [Et Eo]]]
         | [[done [b [rest [Hnz [El [Hfin [Hb [Et Eo]]]]]]]]
           | [b [rest [Hz [El [Et Eo]]]]]]]; rewrite Et in E.
    + apply run_occurrence in E.
      destruct E as [[m [E _]] | [[d [b [r [pre' [post' [Ed [Ei [Ep Eq]]]]]]]] | [m [Ep E]]]].
      * exfalso. revert E. apply (no_occurrence is_adjust_lr); [| reflexivity].
        apply no_adjust_prologue.
      * assert (Ha : accum_iter (tc_args c) <> 0).
        { destruct Hnz as [Ha | Hnil]; [exact Ha |].
          rewrite Hnil in Ed. destruct d; discriminate. }
        exact (Hin _ _ d b r pre' post' Ha Ed Ei Ep Eq).
      * exfalso. revert E. apply (no_occurrence is_adjust_lr); reflexivity.
    + apply run_occurrence in E.
      destruct E as [[m [E _]] | [[d [b' [r [pre' [post' [Ed [Ei [Ep Eq]]]]]]]] | [m [Ep E]]]].
      * exfalso. revert E. apply (no_occurrence is_adjust_lr); [| reflexivity].
        apply no_adjust_prologue.
      * exact (Hin _ _ d b' r pre' post' Hnz Ed Ei Ep Eq).
      * unfold stopping_events in E.
        apply adjust_after_yield in E; [| reflexivity].
        destruct E as [Hm [Hp [Hpre [post'' Hpost]]]].
        exists (List.length done), (train_prologue c ++ List.concat (loop_events c 0 done)),
          post''.
        rewrite Ep, Hpre, Hpost, Hp.
        repeat split; auto; [apply Z.mod_divide; assumption | same_events].
    + exfalso. revert E. apply (no_occurrence is_adjust_lr); [| reflexivity].
      rewrite forallb_app, no_adjust_prologue. reflexivity.
  - intros d Hd. apply train_returns_inv in Hd. destruct Hd as [Hnz [Hfin [Hne _]]].
    rewrite (train_one_epoch_completes c Hnz Hfin). cbn [fst].
    rewrite !filter_app, adjusts_loop.
    assert (H1 : filter is_adjust_lr (train_prologue c) = []) by scan_segment.
    rewrite H1. cbn [filter train_epilogue is_adjust_lr app]. rewrite app_nil_r.
    reflexivity.
Qed.

(** Four batches in groups of two: the rate is adjusted at steps 0 and 2. *)
Lemma lr_schedule_cadence_witness :
  filter is_adjust_lr (fst (train_one_epoch MoreExamples.logged_train))
  = [EvAdjustLR (mkProgress 0 4 3); EvAdjustLR (mkProgress 2 4 3)].
Proof.
  exact (proj2 (lr_schedule_cadence MoreExamples.logged_train) _ eq_refl).
Defined.

(** ** X3, X4: the log writer *)

Section Logging.

Variable c : train_call.

Lemma unlogged_prologue :
  filter (fun e => negb (is_logging e)) (train_prologue c)
  = train_prologue (without_writer c).
Proof. unfold train_prologue. cbn [without_writer tc_log_writer]. scan_segment. Qed.

Lemma unlogged_head (i : nat) :
  filter (fun e => negb (is_logging e)) (iteration_head c i)
  = iteration_head (without_writer c) i.
Proof.
  unfold iteration_head, here.
  cbn [without_writer tc_log_writer tc_args tc_data_loader tc_epoch tc_mixup_fn].
  scan_segment.
Qed.

Lemma unlogged_iteration (i : nat) (b : train_batch) :
  filter (fun e => negb (is_logging e)) (iteration_events c i b)
  = iteration_events (without_writer c) i b.
Proof.
  unfold iteration_events, iteration_tail, scaler_call, iteration_rest,
    iteration_head, divides_step, here.
  cbn [without_writer tc_log_writer tc_args tc_data_loader tc_epoch tc_mixup_fn tc_max_norm
         andb].
  scan_segment.
Qed.

Lemma unlogged_stopping (i : nat) (b : train_batch) :
  filter (fun e => negb (is_logging e)) (stopping_events c i b)
  = stopping_events (without_writer c) i b.
Proof.
  unfold stopping_events, iteration_head, here.
  cbn [without_writer tc_log_writer tc_args tc_data_loader tc_epoch tc_mixup_fn].
  scan_segment.
Qed.

Lemma unlogged_loop (batches : list train_batch) :
  forall k,
    filter (fun e => negb (is_logging e)) (List.concat (loop_events c k batches))
    = List.concat (loop_events (without_writer c) k batches).
Proof.
  induction batches as [| b rest IH]; intros k; [reflexivity |].
  cbn [loop_events List.concat]. rewrite filter_app, unlogged_iteration, IH. reflexivity.
Qed.

Lemma no_loss_scalar_before (i : nat) (b : train_batch) :
  forallb (fun e => negb (is_add_scalar "loss" e))
    (EvYield i :: iteration_head c i
       ++ EvLossItem (tb_loss b) :: scaler_call c i b
       :: (if divides_step c i then [EvZeroGrad] else [])
       ++ [EvMeterUpdate "loss" (tb_loss b) 1;
           EvMeterUpdate "lr" (scan_max_lr (tb_group_lrs b)) 1;
           EvAllReduceMean (tb_loss b)]) = true.
Proof. scan_segment. Qed.

(** The reduced loss is logged once in an iteration, when there is a writer
    and the step divides. *)
Lemma loss_scalar_in_iteration (i : nat) (b : train_batch) (pre post : trace)
    (v : pyfloat) (p : progress) :
  iteration_events c i b = pre ++ EvAddScalar "loss" v p :: post ->
  tc_log_writer c = true
  /\ divides_step c i = true
  /\ v = tb_reduced b
  /\ p = here c i
  /\ (exists pre', pre = pre' ++ [EvAllReduceMean (tb_loss b)])
  /\ post = [EvAddScalar "lr" (scan_max_lr (tb_group_lrs b)) (here c i)].
Proof.
  intros E.
  destruct (tc_log_writer c && divides_step c i) eqn:Hc.
  - apply andb_prop in Hc. destruct Hc as [Hw Hd].
    assert (U := unique_occurrence (is_add_scalar "loss")
                   (EvYield i :: iteration_head c i
                      ++ EvLossItem (tb_loss b) :: scaler_call c i b
                      :: (if divides_step c i then [EvZeroGrad] else [])
                      ++ [EvMeterUpdate "loss" (tb_loss b) 1;
                          EvMeterUpdate "lr" (scan_max_lr (tb_group_lrs b)) 1;
                          EvAllReduceMean (tb_loss b)])
                   [EvAddScalar "lr" (scan_max_lr (tb_group_lrs b)) (here c i)]
                   pre post (EvAddScalar "loss" (tb_reduced b) (here c i))
                   (EvAddScalar "loss" v p)
                   (no_loss_scalar_before i b) eq_refl eq_refl).
    destruct U as [U1 [U2 U3]].
    + rewrite <- E. unfold iteration_events, iteration_tail, iteration_rest.
      rewrite Hw, Hd. same_events.
    + injection U2 as -> ->. repeat split; try assumption.
      exists (EvYield i :: iteration_head c i
                ++ EvLossItem (tb_loss b) :: scaler_call c i b
                :: (if divides_step c i then [EvZeroGrad] else [])
                ++ [EvMeterUpdate "loss" (tb_loss b) 1;
                    EvMeterUpdate "lr" (scan_max_lr (tb_group_lrs b)) 1]).
      rewrite U1. same_events.
  - exfalso. revert E. apply (no_occurrence (is_add_scalar "loss")); [| reflexivity].
    unfold iteration_events, iteration_tail, iteration_rest. rewrite Hc, app_nil_r.
    apply (eq_trans (y := forallb (fun e => negb (is_add_scalar "loss" e))
                            (EvYield i :: iteration_head c i
                               ++ EvLossItem (tb_loss b) :: scaler_call c i b
                               :: (if divides_step c i then [EvZeroGrad] else [])
                               ++ [EvMeterUpdate "loss" (tb_loss b) 1;
                                   EvMeterUpdate "lr" (scan_max_lr (tb_group_lrs b)) 1;
                                   EvAllReduceMean (tb_loss b)])));
      [| apply no_loss_scalar_before].
    f_equal.
Qed.

End Logging.

(** X3.  What [train_one_epoch] gives the log writer as 'loss' is the loss
    reduced over the processes (the answer of [misc.all_reduce_mean]), not
    the loss of the process itself.  It is logged only with a log writer, only
    in an iteration whose step divides ([accum_iter] divides
    [data_iter_step + 1], the iterations that step the optimizer), right after
    the reduction, and the learning rate [max_lr] is logged right after it
    at the same abscissa. *)
Theorem logged_loss_is_reduced :
  forall (c : train_call) (pre post : trace) (v : pyfloat) (p : progress),
    fst (train_one_epoch c) = pre ++ EvAddScalar "loss" v p :: post ->
    tc_log_writer c = true
    /\ exists i b pre' post',
        nth_error (tc_data_loader c) i = Some b
        /\ v = tb_reduced b
        /\ p = mkProgress i (List.length (tc_data_loader c)) (tc_epoch c)
        /\ (accum_iter (tc_args c) | Z.of_nat i + 1)
        /\ pre = pre' ++ [EvAllReduceMean (tb_loss b)]
        /\ yields pre = seq 0 (S i)
        /\ post = EvAddScalar "lr" (scan_max_lr (tb_group_lrs b)) p :: post'.
Proof.
  intros c pre post v p E.
  destruct (train_trace_form c) as [done [rest [ending [El [Hfin [Hnz [Hend Et]]]]]]].
  rewrite Et in E. apply run_occurrence in E.
  destruct E as [[m [E _]] | [[d [b [r [pre' [post' [Ed [Ei [Ep Eq]]]]]]]] | [m [_ E]]]].
  - exfalso. revert E. apply (no_occurrence (is_add_scalar "loss")); [| reflexivity].
    scan_segment.
  - pose proof Ei as Ei'. apply loss_scalar_in_iteration in Ei'.
    destruct Ei' as [Hw [Hd [Hv [Hp [[pre'' Hpre] Hpost]]]]].
    assert (Ha : accum_iter (tc_args c) <> 0).
    { apply Hnz. rewrite Ed. destruct d; discriminate. }
    split; [exact Hw |].
    exists (List.length d), b,
      (train_prologue c ++ List.concat (loop_events c 0 d) ++ pre''),
      (List.concat (loop_events c (S (List.length d)) r) ++ ending).
    subst done.
    split; [rewrite El; apply nth_error_done |]. split; [exact Hv |]. split; [exact Hp |].
    split.
    { unfold divides_step in Hd. apply Z.eqb_eq in Hd. apply Z.mod_divide; assumption. }
    split; [rewrite Ep, Hpre; same_events |].
    split.
    { assert (Hy : yields (iteration_events c (List.length d) b) = [List.length d])
        by apply yields_iteration.
      rewrite Ei, yields_app in Hy. cbn [yields flat_map app] in Hy.
      fold (yields post') in Hy.
      assert (Hy' : yields pre' = [List.length d]).
      { rewrite Hpost in Hy. cbn in Hy. rewrite app_nil_r in Hy. exact Hy. }
      rewrite Ep, !yields_app, yields_prologue, yields_loop, Hy', seq_S. reflexivity. }
    rewrite Eq, Hpost, Hp. reflexivity.
  - exfalso. revert E. apply (no_occurrence (is_add_scalar "loss")); [| reflexivity].
    destruct Hend; scan_segment.
Qed.

(** Four batches in groups of two with a writer: the reduced loss of the
    second batch is logged. *)
Lemma logged_loss_is_reduced_witness :
  tc_log_writer MoreExamples.logged_train = true
  /\ exists i b pre' post',
      nth_error (tc_data_loader MoreExamples.logged_train) i = Some b
      /\ of_Z 6 = tb_reduced b
      /\ mkProgress 1 4 3
         = mkProgress i (List.length (tc_data_loader MoreExamples.logged_train))
             (tc_epoch MoreExamples.logged_train)
      /\ (accum_iter (tc_args MoreExamples.logged_train) | Z.of_nat i + 1)
      /\ firstn 27 (fst (train_one_epoch MoreExamples.logged_train))
         = pre' ++ [EvAllReduceMean (tb_loss b)]
      /\ yields (firstn 27 (fst (train_one_epoch MoreExamples.logged_train))) = seq 0 (S i)
      /\ skipn 28 (fst (train_one_epoch MoreExamples.logged_train))
         = EvAddScalar "lr" (scan_max_lr (tb_group_lrs b)) (mkProgress 1 4 3) :: post'.
Proof.
  exact (logged_loss_is_reduced MoreExamples.logged_train
           (firstn 27 (fst (train_one_epoch MoreExamples.logged_train)))
           (skipn 28 (fst (train_one_epoch MoreExamples.logged_train)))
           (of_Z 6) (mkProgress 1 4 3) eq_refl).
Defined.

(** X4.  The log writer only observes: a call of [train_one_epoch] with a
    log writer ends as the same call with [log_writer=None] does (same
    return value, same exit, same exception), and leaving out the calls made
    for the writer (the line that prints its directory and the
    [add_scalar] calls) gives exactly the calls of the run without a
    writer.  Without a writer none of these calls is made. *)
Theorem log_writer_only_observes :
  forall c : train_call,
    snd (train_one_epoch c) = snd (train_one_epoch (without_writer c))
    /\ filter (fun e => negb (is_logging e)) (fst (train_one_epoch c))
       = fst (train_one_epoch (without_writer c))
    /\ forallb (fun e => negb (is_logging e)) (fst (train_one_epoch (without_writer c)))
       = true.
Proof.
  intros c.
  assert (Hmain :
            snd (train_one_epoch c) = snd (train_one_epoch (without_writer c))
            /\ filter (fun e => negb (is_logging e)) (fst (train_one_epoch c))
               = fst (train_one_epoch (without_writer c))).
  { destruct (Z.eq_dec (accum_iter (tc_args c)) 0) as [Hz | Hnz].
    - destruct (tc_data_loader c) as [| b rest] eqn:El.
      + rewrite (train_one_epoch_no_batch c El),
          (train_one_epoch_no_batch (without_writer c) El).
        cbn [fst snd]. split; [reflexivity |].
        rewrite filter_app, unlogged_prologue. reflexivity.
      + rewrite (train_one_epoch_zero_accum c b rest Hz El),
          (train_one_epoch_zero_accum (without_writer c) b rest Hz El).
        cbn [fst snd]. split; [reflexivity |].
        rewrite filter_app, unlogged_prologue. reflexivity.
    - destruct (first_not_finite (tc_data_loader c))
        as [Hfin | [done [b [rest [El [Hd Hb]]]]]].
      + rewrite (train_one_epoch_completes c Hnz Hfin),
          (train_one_epoch_completes (without_writer c) Hnz Hfin).
        cbn [fst snd]. split; [reflexivity |].
        rewrite !filter_app, unlogged_prologue, unlogged_loop. reflexivity.
      + rewrite (train_one_epoch_stops c done rest b Hnz El Hd Hb),
          (train_one_epoch_stops (without_writer c) done rest b Hnz El Hd Hb).
        cbn [fst snd]. split; [reflexivity |].
        rewrite !filter_app, unlogged_prologue, unlogged_loop, unlogged_stopping.
        reflexivity. }
  destruct Hmain as [Ho Ht]. split; [exact Ho |]. split; [exact Ht |].
  rewrite <- Ht. apply forallb_forall. intros e He. apply filter_In in He. apply He.
Qed.

(** ** X5: the number of optimizer steps of an epoch *)

Lemma div_succ (a k : Z) :
  0 < a -> 0 <= k ->
  (k + 1) / a = k / a + (if (k + 1) mod a =? 0 then 1 else 0).
Proof.
  intros Ha Hk.
  pose proof (Z.div_mod k a ltac:(lia)) as E.
  pose proof (Z.mod_pos_bound k a Ha) as B.
  destruct (Z.eq_dec (k mod a + 1) a) as [Ea | Ea].
  - assert (Hm : (k + 1) mod a = 0).
    { symmetry. apply (Z.mod_unique_pos _ _ (k / a + 1)); [lia |].
      rewrite Z.mul_add_distr_l. lia. }
    rewrite Hm. cbn [Z.eqb]. symmetry.
    apply (Z.div_unique_pos _ _ _ 0); [lia |]. rewrite Z.mul_add_distr_l. lia.
  - assert (Hm : (k + 1) mod a = k mod a + 1).
    { symmetry. apply (Z.mod_unique_pos _ _ (k / a)); lia. }
    rewrite Hm. destruct (Z.eqb_spec (k mod a + 1) 0) as [H0 | H0]; [lia |].
    rewrite Z.add_0_r. symmetry. apply (Z.div_unique_pos _ _ _ (k mod a + 1)); lia.
Qed.

Lemma count_dividing_steps (a : Z) (n : nat) :
  0 < a ->
  List.length (filter (fun i => (Z.of_nat i + 1) mod a =? 0) (seq 0 n))
  = Z.to_nat (Z.of_nat n / a).
Proof.
  intros Ha. induction n as [| n IH]; [reflexivity |].
  rewrite seq_S, filter_app, length_app, IH. cbn [Nat.add filter].
  replace (Z.of_nat (S n)) with (Z.of_nat n + 1) by lia.
  rewrite (div_succ a (Z.of_nat n) Ha ltac:(lia)).
  pose proof (Z.div_pos (Z.of_nat n) a ltac:(lia) Ha).
  destruct ((Z.of_nat n + 1) mod a =? 0); cbn [List.length]; lia.
Qed.

Section Steps.

Variable c : train_call.

Lemma steps_iteration (i : nat) (b : train_batch) :
  filter is_optimizer_step (iteration_events c i b)
  = if divides_step c i then [scaler_call c i b] else [].
Proof.
  unfold iteration_events, iteration_tail, scaler_call.
  destruct (divides_step c i) eqn:Hd; scan_segment.
Qed.

Lemma zero_grads_iteration (i : nat) (b : train_batch) :
  filter is_zero_grad (iteration_events c i b)
  = if divides_step c i then [EvZeroGrad] else [].
Proof. scan_segment. Qed.

Lemma steps_loop (batches : list train_batch) :
  forall k,
    List.length (filter is_optimizer_step (List.concat (loop_events c k batches)))
    = List.length (filter (fun i => (Z.of_nat i + 1) mod accum_iter (tc_args c) =? 0)
                     (seq k (List.length batches)))
    /\ List.length (filter is_zero_grad (List.concat (loop_events c k batches)))
       = List.length (filter (fun i => (Z.of_nat i + 1) mod accum_iter (tc_args c) =? 0)
                        (seq k (List.length batches))).
Proof.
  induction batches as [| b rest IH]; intros k; [split; reflexivity |].
  cbn [loop_events List.concat List.length seq filter].
  rewrite !filter_app, !length_app, steps_iteration, zero_grads_iteration.
  destruct (IH (S k)) as [-> ->]. unfold divides_step.
  destruct ((Z.of_nat k + 1) mod accum_iter (tc_args c) =? 0); split; reflexivity.
Qed.

End Steps.

(** X5.  An epoch of [train_one_epoch] over [n] batches that returns, with a
    positive [accum_iter], calls the loss scaler with [update_grad=True]
    (the calls that step the optimizer) [n // accum_iter] times, the integer
    quotient: an incomplete last group gives no step.  It calls
    [optimizer.zero_grad()] once more than that. *)
Theorem optimizer_steps_per_epoch :
  forall (c : train_call) (d : list (string * pyfloat)),
    0 < accum_iter (tc_args c) ->
    snd (train_one_epoch c) = Returns d ->
    let n := List.length (tc_data_loader c) in
    List.length (filter is_optimizer_step (fst (train_one_epoch c)))
    = Z.to_nat (Z.of_nat n / accum_iter (tc_args c))
    /\ List.length (filter is_zero_grad (fst (train_one_epoch c)))
       = S (Z.to_nat (Z.of_nat n / accum_iter (tc_args c))).
Proof.
  intros c d Ha Hd n. apply train_returns_inv in Hd. destruct Hd as [Hnz [Hfin [Hne _]]].
  rewrite (train_one_epoch_completes c Hnz Hfin). cbn [fst].
  rewrite !filter_app, !length_app.
  destruct (steps_loop c (tc_data_loader c) 0) as [-> ->].
  rewrite (count_dividing_steps _ _ Ha). fold n.
  assert (H1 : filter is_optimizer_step (train_prologue c) = []) by scan_segment.
  assert (H2 : filter is_zero_grad (train_prologue c) = [EvZeroGrad]) by scan_segment.
  rewrite H1, H2. cbn. split; lia.
Qed.

(** Three batches in groups of two: one optimizer step, two [zero_grad]. *)
Lemma optimizer_steps_per_epoch_witness :
  List.length (filter is_optimizer_step (fst (train_one_epoch Examples.three_batch_train)))
  = 1%nat
  /\ List.length (filter is_zero_grad (fst (train_one_epoch Examples.three_batch_train)))
     = 2%nat.
Proof.
  exact (optimizer_steps_per_epoch Examples.three_batch_train _ eq_refl eq_refl).
Defined.

(** ** X6: the mode of the model during training *)

Lemma run_keeps_modes (tr : trace) :
  forall w : World.world,
    forallb (fun e => negb (switches_mode e)) tr = true ->
    World.w_training (World.run tr w) = World.w_training w
    /\ World.w_grad_enabled (World.run tr w) = World.w_grad_enabled w
    /\ World.w_saved_modes (World.run tr w) = World.w_saved_modes w.
Proof.
  induction tr as [| e tr IH]; intros w H; [repeat split |].
  cbn [forallb] in H. apply andb_prop in H. destruct H as [He Htr].
  unfold World.run. cbn [fold_left]. fold (World.run tr (World.apply_event w e)).
  destruct (IH (World.apply_event w e) Htr) as [-> [-> ->]].
  destruct e; try discriminate He; repeat split.
Qed.

(** X6.  [train_one_epoch] switches the model to training mode as its first
    call and after that neither switches the mode of the model or the
    gradient mode nor enters an autocast region (the autocast of the
    original is commented out): whatever the input and however the call
    ends, the model is left in training mode and the gradient mode is the
    caller's. *)
Theorem training_mode_throughout :
  forall (c : train_call) (w : World.world),
    (exists rest,
        fst (train_one_epoch c) = EvModelTrain true :: rest
        /\ forallb (fun e => negb (switches_mode e) && negb (is_autocast e)) rest = true)
    /\ World.w_training (World.run (fst (train_one_epoch c)) w) = true
    /\ World.w_grad_enabled (World.run (fst (train_one_epoch c)) w)
       = World.w_grad_enabled w.
Proof.
  intros c w.
  destruct (train_trace_form c) as [done [rest [ending [El [Hfin [Hnz [Hend Et]]]]]]].
  assert (Hrest : forallb (fun e => negb (switches_mode e) && negb (is_autocast e))
                    (EvZeroGrad :: (if tc_log_writer c then [EvPrint MsgLogDir] else [])
                       ++ List.concat (loop_events c 0 done) ++ ending) = true).
  { cbn [forallb switches_mode is_autocast negb andb]. rewrite !forallb_app.
    rewrite (forallb_train_loop c _ done) by (intros; scan_segment).
    assert (H1 : forallb (fun e => negb (switches_mode e) && negb (is_autocast e)) ending
                 = true) by (destruct Hend; scan_segment).
    rewrite H1. destruct (tc_log_writer c); reflexivity. }
  assert (Et' : fst (train_one_epoch c)
                = EvModelTrain true
                    :: (EvZeroGrad :: (if tc_log_writer c then [EvPrint MsgLogDir] else [])
                          ++ List.concat (loop_events c 0 done) ++ ending)).
  { rewrite Et. unfold train_prologue. same_events. }
  split; [eexists; split; [exact Et' | exact Hrest] |].
  rewrite Et'.
  match goal with
  | |- context [World.run (?e :: ?t) w] =>
      change (World.run (e :: t) w) with (World.run t (World.apply_event w e));
      destruct (run_keeps_modes t (World.apply_event w e)) as [H1 [H2 _]]
  end.
  { revert Hrest. apply forallb_weaken. intros a Ha. apply andb_prop in Ha. apply Ha. }
  rewrite H1, H2. split; reflexivity.
Qed.

(** ** X7: the learning rate that is logged *)

Lemma flt_trans (a b c : pyfloat) :
  flt a b = true -> flt b c = true -> flt a c = true.
Proof.
  destruct a as [p | | |], b as [q | | |], c as [r | | |]; unfold flt;
    try discriminate; try reflexivity.
  destruct (p ?= q)%Qc eqn:E1; try discriminate.
  destruct (q ?= r)%Qc eqn:E2; try discriminate.
  intros _ _.
  rewrite (proj1 (Qclt_alt p r)
             (Qclt_trans _ _ _ (proj2 (Qclt_alt p q) E1) (proj2 (Qclt_alt q r) E2))).
  reflexivity.
Qed.

Lemma flt_asym (a b : pyfloat) : flt a b = true -> flt b a = false.
Proof.
  destruct a as [p | | |], b as [q | | |]; unfold flt; try discriminate; try reflexivity.
  destruct (p ?= q)%Qc eqn:E1; try discriminate. intros _.
  destruct (q ?= p)%Qc eqn:E2; try reflexivity.
  exfalso. apply (Qclt_not_le p q (proj2 (Qclt_alt p q) E1)).
  apply Qclt_le_weak. exact (proj2 (Qclt_alt q p) E2).
Qed.

Lemma flt_cases (a b : pyfloat) :
  a <> NaN -> b <> NaN -> flt a b = false -> flt b a = true \/ a = b.
Proof.
  destruct a as [p | | |], b as [q | | |]; unfold flt; intros Ha Hb H;
    try discriminate; try congruence; auto.
  destruct (p ?= q)%Qc eqn:E1; try discriminate.
  - right. f_equal. exact (proj2 (Qceq_alt p q) E1).
  - left. rewrite (proj1 (Qclt_alt q p) (proj2 (Qcgt_alt p q) E1)). reflexivity.
Qed.

Lemma flt_nan_r (a : pyfloat) : flt a NaN = false.
Proof. destruct a; reflexivity. Qed.

Lemma pyfloat_eq_nan (x : pyfloat) : x = NaN \/ x <> NaN.
Proof. destruct x; [right | right | right | left]; congruence. Qed.

(** [not (m < a)] and [not (a < x)] give [not (m < x)] away from NaN. *)
Lemma flt_not_trans (m a x : pyfloat) :
  m <> NaN -> a <> NaN -> flt m a = false -> flt a x = false -> flt m x = false.
Proof.
  intros Hm Ha H1 H2.
  destruct (pyfloat_eq_nan x) as [-> | Hx]; [apply flt_nan_r |].
  destruct (flt_cases m a Hm Ha H1) as [L1 | ->]; [| exact H2].
  destruct (flt_cases a x Ha Hx H2) as [L2 | <-]; [| exact H1].
  apply flt_asym. exact (flt_trans _ _ _ L2 L1).
Qed.

Lemma fold_py_max (lrs : list pyfloat) :
  forall acc : pyfloat,
    acc <> NaN ->
    fold_left py_max lrs acc <> NaN
    /\ flt (fold_left py_max lrs acc) acc = false
    /\ (forall x, In x lrs -> flt (fold_left py_max lrs acc) x = false)
    /\ (fold_left py_max lrs acc = acc \/ In (fold_left py_max lrs acc) lrs).
Proof.
  induction lrs as [| x rest IH]; intros acc Hacc.
  - cbn [fold_left]. split; [exact Hacc |]. split; [| split; [intros x [] | left; reflexivity]].
    destruct acc as [p | | |]; unfold flt; try reflexivity.
    destruct (p ?= p)%Qc eqn:E; try reflexivity.
    exfalso. exact (Qclt_not_le p p (proj2 (Qclt_alt p p) E) (Qcle_refl p)).
  - cbn [fold_left]. change (py_max acc x) with (if flt acc x then x else acc).
    destruct (flt acc x) eqn:Hlt.
    + assert (Hx : x <> NaN) by (intros ->; rewrite flt_nan_r in Hlt; discriminate).
      destruct (IH x Hx) as [N [B [A I]]]. split; [exact N |]. split; [| split].
      * destruct (flt (fold_left py_max rest x) acc) eqn:E; [| reflexivity].
        rewrite (flt_trans _ _ _ E Hlt) in B. discriminate.
      * intros y [<- | Hy]; [exact B | exact (A y Hy)].
      * right. destruct I as [-> | I]; [left; reflexivity | right; exact I].
    + destruct (IH acc Hacc) as [N [B [A I]]]. split; [exact N |]. split; [exact B |].
      split.
      * intros y [<- | Hy]; [| exact (A y Hy)].
        exact (flt_not_trans _ _ _ N Hacc B Hlt).
      * destruct I as [I | I]; [left; exact I | right; right; exact I].
Qed.

(** X7.  The value [max_lr] that [train_one_epoch] gives to the "lr" meter
    and to the log writer is the largest of 0 and the learning rates of the
    parameter groups: it is never NaN (a NaN rate is passed over by [max]),
    it is not below 0, not below the rate of any group, and it is 0 or the
    rate of one of the groups.  In particular it is 0 when no group has a
    positive rate. *)
Theorem max_lr_is_largest :
  forall lrs : list pyfloat,
    scan_max_lr lrs <> NaN
    /\ flt (scan_max_lr lrs) (of_Z 0) = false
    /\ (forall x, In x lrs -> flt (scan_max_lr lrs) x = false)
    /\ (scan_max_lr lrs = of_Z 0 \/ In (scan_max_lr lrs) lrs)
    /\ (forallb (fun x => negb (flt (of_Z 0) x)) lrs = true -> scan_max_lr lrs = of_Z 0).
Proof.
  intros lrs. unfold scan_max_lr.
  assert (H0 : of_Z 0 <> NaN) by (unfold of_Z; discriminate).
  destruct (fold_py_max lrs (of_Z 0) H0) as [N [B [A I]]].
  repeat split; auto.
  intros Hall. destruct I as [I | I]; [exact I |].
  rewrite forallb_forall in Hall. specialize (Hall _ I).
  apply negb_true_iff in Hall.
  destruct (flt_cases _ _ N H0 B) as [L | E]; [| exact E].
  rewrite L in Hall. discriminate.
Qed.

(** Rates NaN, 2, 1: the logged rate is not below 2; rates -1, NaN: it is 0. *)
Lemma max_lr_is_largest_witness :
  flt (scan_max_lr [NaN; of_Z 2; of_Z 1]) (of_Z 2) = false
  /\ scan_max_lr [of_Z (-1); NaN] = of_Z 0.
Proof.
  split.
  - exact (proj1 (proj2 (proj2 (max_lr_is_largest [NaN; of_Z 2; of_Z 1])))
             (of_Z 2) (or_intror (or_introl eq_refl))).
  - exact (proj2 (proj2 (proj2 (proj2 (max_lr_is_largest [of_Z (-1); NaN])))) eq_refl).
Defined.

(** ** X8: the missing key of the collapsing step *)

Lemma collapse_first_stray (xs : list Z) :
  forall k,
    collapse xs = Raises (KeyError k) ->
    exists before after,
      xs = before ++ k :: after /\ forallb in_range before = true /\ in_range k = false.
Proof.
  induction xs as [| x xs IH]; intros k H; [discriminate |].
  cbn [collapse] in H. rewrite dict_get_mapping in H. destruct (in_range x) eqn:Hx.
  - destruct (collapse xs) as [vs | code | e] eqn:E; try discriminate.
    injection H as ->. destruct (IH k eq_refl) as [before [after [E1 [E2 E3]]]].
    exists (x :: before), after. subst xs. cbn [app forallb]. rewrite Hx, E2. auto.
  - injection H as <-. exists [], xs. auto.
Qed.

(** X8.  When [evaluate] ends in a [KeyError], the key is the first label
    outside 0..6 met when going through all predictions and then all
    targets, both plot flags were set, and the error comes late: the
    unmapped confusion matrix has been drawn and saved under
    [<plots>/<plot_save_name>_confusion_matrix.png] as the last call before
    the error, and the binary image has not been written. *)
Theorem key_error_after_first_image :
  forall (c : eval_call) (key : Z),
    snd (evaluate c) = Raises (KeyError key) ->
    ec_confusion_matrix_plot c = true
    /\ ec_RISE_collapse_labels c = true
    /\ (exists before after,
           preds_list c ++ targets_list c = before ++ key :: after
           /\ forallb in_range before = true
           /\ in_range key = false)
    /\ saved_files (fst (evaluate c)) = [confusion_path c]
    /\ exists pre,
         fst (evaluate c) = pre ++ [EvShow; EvSavefig (confusion_path c); EvNoGradExit].
Proof.
  intros c key H. rewrite evaluate_outcome_correct in H. unfold evaluate_outcome in H.
  destruct (Z.eqb_spec (sample_count (ec_data_loader c)) 0) as [Hz | Hs]; [discriminate |].
  destruct (ec_confusion_matrix_plot c) eqn:Hp; cbn [negb] in H; [| discriminate].
  destruct (axis_labels (data (ec_args c))) as [labels |] eqn:Hl; [| discriminate].
  destruct (ec_RISE_collapse_labels c) eqn:Hc; cbn [negb] in H; [| discriminate].
  destruct (collapse (preds_list c ++ targets_list c)) as [vs | code | e] eqn:Hk;
    try discriminate.
  injection H as ->.
  split; [reflexivity |]. split; [reflexivity |].
  split; [exact (collapse_first_stray _ _ Hk) |].
  rewrite (evaluate_key_error c labels key Hs Hp Hl Hc Hk). cbn [fst]. split.
  - unfold saved_files. change (EvNoGradEnter :: ?t) with ([EvNoGradEnter] ++ t).
    list_observer. fold (saved_files (eval_pass c)). rewrite saved_files_pass.
    reflexivity.
  - eexists (EvNoGradEnter :: eval_pass c ++ [summary_line c] ++ plot_start c ++ _).
    unfold plot_first. cbn [app]. f_equal.
    repeat (rewrite <- ?app_assoc; f_equal).
    instantiate (1 := [EvHeatmap (targets_list c) (preds_list c) labels; EvAxisLabels;
                       EvTitle (ec_plot_title c) false
                         (fdiv_nz (of_Z (accordance (preds_list c) (targets_list c)))
                            (of_Z (Z.of_nat (List.length (preds_list c)))))]).
    reflexivity.
Qed.

(** A prediction 8 and a target 9: the error names 8, the first stray label
    in the order predictions, targets. *)
Lemma key_error_after_first_image_witness :
  saved_files (fst (evaluate MoreExamples.two_stray_labels_eval))
  = ["/niddk-data-central/P2/mae_hr/MAE_Accelerometer/plots/test_confusion_matrix.png"].
Proof.
  exact (proj1 (proj2 (proj2 (proj2
           (key_error_after_first_image MoreExamples.two_stray_labels_eval 8 eq_refl))))).
Defined.

(** ** X9: the two accuracies in the plot titles *)

Lemma of_Z_div_mono (k1 k2 n : Z) :
  k1 <= k2 -> 0 < n ->
  flt (fdiv_nz (of_Z k2) (of_Z n)) (fdiv_nz (of_Z k1) (of_Z n)) = false.
Proof.
  intros Hk Hn. unfold of_Z, fdiv_nz, flt.
  destruct (_ ?= _)%Qc eqn:E; try reflexivity. exfalso.
  apply (proj2 (Qclt_alt _ _)) in E.
  unfold Qclt, Qcdiv, Qcmult, Qcinv, Q2Qc in E. cbn [this] in E.
  rewrite !Qred_correct in E.
  assert (Hi : (0 < / inject_Z n)%Q).
  { apply Qinv_lt_0_compat. change 0%Q with (inject_Z 0). rewrite <- Zlt_Qlt. exact Hn. }
  apply (proj1 (Qmult_lt_r _ _ _ Hi)) in E. rewrite <- Zlt_Qlt in E. lia.
Qed.

Lemma of_Z_div_self (n : Z) : 0 < n -> fdiv_nz (of_Z n) (of_Z n) = of_Z 1.
Proof.
  intros Hn. unfold of_Z, fdiv_nz. f_equal. unfold Qcdiv. apply Qcmult_inv_r.
  intros H. apply Q2Qc_eq_iff in H. unfold Qeq in H. cbn in H. lia.
Qed.

Lemma accordance_map (f : Z -> Z) (a : list Z) :
  forall b, accordance a b <= accordance (map f a) (map f b).
Proof.
  unfold accordance. induction a as [| x a IH]; intros [| y b]; cbn [map combine filter];
    try lia.
  specialize (IH b). cbn [fst snd]. destruct (Z.eqb_spec x y) as [-> | Hxy].
  - rewrite Z.eqb_refl. cbn [List.length]. lia.
  - destruct (f x =? f y); cbn [List.length]; lia.
Qed.

Lemma accordance_le_length (a b : list Z) : accordance a b <= Z.of_nat (List.length a).
Proof.
  unfold accordance.
  pose proof (filter_length_le (fun xy : Z * Z => fst xy =? snd xy) (combine a b)) as H1.
  pose proof (length_combine a b) as H2. lia.
Qed.

Lemma title_accuracies_pass (c : eval_call) : title_accuracies (eval_pass c) = [].
Proof.
  apply (flat_map_none _ (fun e => negb (is_print_or_plot e))); [| apply eval_pass_no_plot].
  intros e. destruct e; cbn; congruence.
Qed.

(** X9.  When [evaluate] is called with both plot flags and returns, the
    two titles carry the accuracy over all rows and the accuracy after
    collapsing, in this order, both as a count of agreeing rows divided by
    [len(preds_list)]; the binary accuracy is never below the accuracy over
    the seven labels, and neither exceeds 1. *)
Theorem binary_accuracy_not_below :
  forall (c : eval_call) (d : list (string * pyfloat)),
    ec_confusion_matrix_plot c = true ->
    ec_RISE_collapse_labels c = true ->
    snd (evaluate c) = Returns d ->
    exists acc bin_acc : pyfloat,
      title_accuracies (fst (evaluate c)) = [(false, acc); (true, bin_acc)]
      /\ acc = fdiv_nz (of_Z (accordance (preds_list c) (targets_list c)))
                 (of_Z (Z.of_nat (List.length (preds_list c))))
      /\ bin_acc
         = fdiv_nz (of_Z (accordance (map collapse_label (preds_list c))
                            (map collapse_label (targets_list c))))
             (of_Z (Z.of_nat (List.length (preds_list c))))
      /\ flt bin_acc acc = false
      /\ flt (of_Z 1) bin_acc = false.
Proof.
  intros c d Hp Hc H. rewrite evaluate_outcome_correct in H. unfold evaluate_outcome in H.
  destruct (Z.eqb_spec (sample_count (ec_data_loader c)) 0) as [Hz | Hs]; [discriminate |].
  rewrite Hp, Hc in H. cbn [negb] in H.
  destruct (axis_labels (data (ec_args c))) as [labels |] eqn:Hl; [| discriminate].
  destruct (forallb in_range (preds_list c ++ targets_list c)) eqn:Hr.
  2:{ destruct (collapse_out_of_range _ Hr) as [k [Hk _]]. rewrite Hk in H. discriminate. }
  rewrite (evaluate_two_plots c labels Hs Hp Hl Hc Hr). cbn [fst].
  assert (Hn : 0 < Z.of_nat (List.length (preds_list c))).
  { pose proof (sample_count_length (ec_data_loader c)) as E. fold (preds_list c) in E.
    lia. }
  do 2 eexists. split; [| split; [reflexivity | split; [reflexivity | split]]].
  - unfold title_accuracies. change (EvNoGradEnter :: ?t) with ([EvNoGradEnter] ++ t).
    list_observer. fold (title_accuracies (eval_pass c)). rewrite title_accuracies_pass.
    reflexivity.
  - apply of_Z_div_mono; [apply accordance_map | exact Hn].
  - rewrite <- (of_Z_div_self _ Hn). apply of_Z_div_mono; [| exact Hn].
    rewrite <- (length_map collapse_label). apply accordance_le_length.
Qed.

(** Targets 0 and 1, both predicted as 0: one of the two rows agrees, before
    and after collapsing. *)
Lemma binary_accuracy_not_below_witness :
  exists acc bin_acc : pyfloat,
    title_accuracies (fst (evaluate Examples.collapse_eval)) = [(false, acc); (true, bin_acc)]
    /\ flt bin_acc acc = false.
Proof.
  destruct (binary_accuracy_not_below Examples.collapse_eval _ eq_refl eq_refl eq_refl)
    as [acc [bin_acc [H1 [_ [_ [H2 _]]]]]].
  exists acc, bin_acc. split; assumption.
Defined.

(** ** X10: what the collapsing step gives *)

Lemma collapse_label_binary (x : Z) : collapse_label x = 0 \/ collapse_label x = 1.
Proof. unfold collapse_label. destruct ((1 <=? x) && (x <=? 3)); auto. Qed.

Lemma collapse_label_fixed (x : Z) :
  in_range (collapse_label x) = true /\ collapse_label (collapse_label x) = collapse_label x.
Proof. destruct (collapse_label_binary x) as [-> | ->]; split; reflexivity. Qed.

(** X10.  The list comprehension [[mapping[x] for x in xs]] succeeds only on
    labels that all lie in 0..6, and then gives a list of the same length
    whose entries are 0 or 1 and which the same comprehension maps to
    itself: collapsing labels that are already binary changes nothing. *)
Theorem collapse_gives_binary_labels :
  forall xs vs : list Z,
    collapse xs = Returns vs ->
    forallb in_range xs = true
    /\ List.length vs = List.length xs
    /\ Forall (fun v => v = 0 \/ v = 1) vs
    /\ collapse vs = Returns vs.
Proof.
  intros xs vs H. destruct (forallb in_range xs) eqn:Hr.
  2:{ destruct (collapse_out_of_range _ Hr) as [k [Hk _]]. rewrite Hk in H. discriminate. }
  rewrite (collapse_in_range _ Hr) in H. injection H as <-.
  split; [reflexivity |]. split; [apply length_map |]. split.
  - apply Forall_forall. intros v Hv. apply in_map_iff in Hv. destruct Hv as [x [<- _]].
    apply collapse_label_binary.
  - rewrite collapse_in_range.
    + f_equal. rewrite map_map. apply map_ext. intros x. apply collapse_label_fixed.
    + apply forallb_forall. intros v Hv. apply in_map_iff in Hv. destruct Hv as [x [<- _]].
      apply collapse_label_fixed.
Qed.

(** The seven labels collapse to 0, 1, 1, 1, 0, 0, 0, which collapses to
    itself. *)
Lemma collapse_gives_binary_labels_witness :
  collapse [0; 1; 1; 1; 0; 0; 0] = Returns [0; 1; 1; 1; 0; 0; 0].
Proof.
  exact (proj2 (proj2 (proj2
           (collapse_gives_binary_labels [0; 1; 2; 3; 4; 5; 6] _ eq_refl)))).
Defined.

(** ** X11: what the plot arguments can change *)

Lemma eval_pass_loader (c1 c2 : eval_call) :
  ec_data_loader c1 = ec_data_loader c2 ->
  eval_pass c1 = eval_pass c2
  /\ summary_line c1 = summary_line c2
  /\ eval_averages c1 = eval_averages c2.
Proof. unfold eval_pass, summary_line, eval_averages. intros ->. auto. Qed.

(** X11.  The metrics [evaluate] returns are those of the loader alone: two
    calls on the same loader that both return give the same dictionary,
    whatever their plot arguments and [args].  And with
    [confusion_matrix_plot] false none of [args.data],
    [RISE_collapse_labels], [plot_save_name] and [plot_title] is read: the
    two calls make the same calls in the same order and end the same way. *)
Theorem plot_arguments_leave_metrics :
  forall c1 c2 : eval_call,
    ec_data_loader c1 = ec_data_loader c2 ->
    (forall d1 d2,
        snd (evaluate c1) = Returns d1 -> snd (evaluate c2) = Returns d2 -> d1 = d2)
    /\ (ec_confusion_matrix_plot c1 = false ->
        ec_confusion_matrix_plot c2 = false ->
        evaluate c1 = evaluate c2).
Proof.
  intros c1 c2 Hl. destruct (eval_pass_loader c1 c2 Hl) as [Ep [Es Ea]]. split.
  - intros d1 d2 H1 H2. apply evaluate_returns_averages in H1, H2.
    destruct H1 as [-> _], H2 as [-> _]. exact Ea.
  - intros H1 H2. destruct (Z.eq_dec (sample_count (ec_data_loader c1)) 0) as [Hz | Hs].
    + rewrite (evaluate_no_sample c1 Hz). rewrite Hl in Hz.
      rewrite (evaluate_no_sample c2 Hz), Ep. reflexivity.
    + rewrite (evaluate_no_plot c1 Hs H1). rewrite Hl in Hs.
      rewrite (evaluate_no_plot c2 Hs H2), Ep, Es, Ea. reflexivity.
Qed.

(** Without the plot, another dataset name, the collapsing flag and a file
    name change nothing. *)
Lemma plot_arguments_leave_metrics_witness :
  evaluate Examples.plain_eval = evaluate MoreExamples.unread_arguments_eval.
Proof.
  exact (proj2 (plot_arguments_leave_metrics Examples.plain_eval
                  MoreExamples.unread_arguments_eval eq_refl) eq_refl eq_refl).
Defined.

(** ** X12: the forward passes of [evaluate] and autocast *)

Lemma eval_loop_occurrence (batches : list eval_batch) :
  forall (k : nat) (pre post : trace) (e : event),
    List.concat (eval_loop_events k batches) = pre ++ e :: post ->
    exists done b rest pre' post',
      batches = done ++ b :: rest
      /\ eval_iteration_events (k + List.length done) b = pre' ++ e :: post'
      /\ pre = List.concat (eval_loop_events k done) ++ pre'
      /\ post = post' ++ List.concat (eval_loop_events (S (k + List.length done)) rest).
Proof.
  induction batches as [| b rest IH]; intros k pre post e H.
  - destruct pre; discriminate.
  - cbn [eval_loop_events List.concat] in H. apply app_split_occurrence in H.
    destruct H as [[m [E1 E2]] | [m [E1 E2]]].
    + exists [], b, rest, pre, m. cbn [app List.length eval_loop_events List.concat].
      rewrite Nat.add_0_r. auto.
    + apply IH in E2.
      destruct E2 as [done [b' [rest' [pre' [post' [Eb [Ei [Ep Eq]]]]]]]].
      exists (b :: done), b', rest', pre', post'.
      cbn [app List.length eval_loop_events List.concat].
      rewrite Nat.add_succ_r. subst. rewrite <- app_assoc. auto.
Qed.

Lemma autocast_eval_loop (batches : list eval_batch) :
  forall k,
    filter is_autocast (List.concat (eval_loop_events k batches))
    = List.concat (map (fun _ => [EvAutocastEnter; EvAutocastExit]) batches).
Proof.
  induction batches as [| b rest IH]; intros k; [reflexivity |].
  cbn [eval_loop_events List.concat map]. rewrite filter_app, IH. reflexivity.
Qed.

Lemma filter_print_or_plot (p : event -> bool) (tr : trace) :
  (forall e, is_print_or_plot e = true -> p e = false) ->
  forallb is_print_or_plot tr = true -> filter p tr = [].
Proof.
  intros Hp H. induction tr as [| e tr IH]; [reflexivity |].
  cbn [forallb] in H. apply andb_prop in H. destruct H as [He Htr].
  cbn [filter]. rewrite (Hp e He). exact (IH Htr).
Qed.

(** X12.  Every forward pass of [evaluate] runs inside an autocast region of
    its own: the call of the model on batch [i] comes right after the batch
    was handed out, moved to the device and the region entered, and the
    region is left right after the criterion was applied to the output;
    one region is opened and closed per batch, never nested, and nothing
    else enters or leaves one. *)
Theorem forward_inside_autocast :
  forall c : eval_call,
    (forall (pre post : trace) (i : nat),
        fst (evaluate c) = pre ++ EvForward i :: post ->
        exists (b : eval_batch) (pre' post' : trace),
          nth_error (ec_data_loader c) i = Some b
          /\ pre = pre' ++ [EvYield i; EvToDevice; EvToDevice; EvAutocastEnter]
          /\ post = EvCriterion i :: EvAutocastExit :: post')
    /\ filter is_autocast (fst (evaluate c))
       = List.concat (map (fun _ => [EvAutocastEnter; EvAutocastExit]) (ec_data_loader c)).
Proof.
  intros c. destruct (eval_trace_form c) as [post_pass [Hpp Et]]. split.
  - intros pre post i H. rewrite Et in H. unfold eval_pass in H.
    change (EvNoGradEnter :: (EvModelEval :: ?l ++ ?t1) ++ ?t2)
      with ([EvNoGradEnter; EvModelEval] ++ (l ++ t1) ++ t2) in H.
    rewrite <- app_assoc in H.
    apply app_split_occurrence in H. destruct H as [[m [E1 _]] | [m [E1 E2]]].
    { exfalso. revert E1. apply (no_occurrence is_forward); reflexivity. }
    apply app_split_occurrence in E2. destruct E2 as [[m' [E2 E3]] | [m' [_ E3]]].
    2:{ exfalso. revert E3. apply (no_occurrence is_forward); [| reflexivity].
        cbn [app forallb is_forward negb andb]. rewrite forallb_app.
        cbn [forallb is_forward negb andb]. rewrite andb_true_r.
        revert Hpp. apply forallb_weaken. intros e He. destruct e; try discriminate He;
          reflexivity. }
    apply eval_loop_occurrence in E2.
    destruct E2 as [done [b [rest [pre' [post' [Eb [Ei [Ep Eq]]]]]]]].
    cbn [Nat.add] in Ei. unfold eval_iteration_events in Ei.
    apply (unique_occurrence is_forward
             [EvYield (List.length done); EvToDevice; EvToDevice; EvAutocastEnter])
      in Ei; [| reflexivity | reflexivity | reflexivity].
    destruct Ei as [Epre [Ee Epost]]. injection Ee as ->.
    exists b. eexists. eexists. split; [rewrite Eb; apply nth_error_middle |].
    split.
    + rewrite E1, Ep, Epre. rewrite app_assoc. reflexivity.
    + rewrite E3, Eq, Epost. cbn [app]. reflexivity.
  - rewrite Et. unfold eval_pass.
    change (EvNoGradEnter :: (EvModelEval :: ?l ++ ?t1) ++ ?t2)
      with ([EvNoGradEnter; EvModelEval] ++ (l ++ t1) ++ t2).
    rewrite !filter_app, autocast_eval_loop.
    rewrite (filter_print_or_plot is_autocast post_pass) by
      (trivial; intros e He; destruct e; try discriminate He; reflexivity).
    cbn [filter is_autocast app]. rewrite !app_nil_r. reflexivity.
Qed.

(** The forward pass of the second of two batches. *)
Lemma forward_inside_autocast_witness :
  exists (b : eval_batch) (pre' post' : trace),
    nth_error (ec_data_loader Examples.plain_eval) 1 = Some b
    /\ firstn 20 (fst (evaluate Examples.plain_eval))
       = pre' ++ [EvYield 1; EvToDevice; EvToDevice; EvAutocastEnter]
    /\ skipn 21 (fst (evaluate Examples.plain_eval))
       = EvCriterion 1 :: EvAutocastExit :: post'.
Proof.
  exact (proj1 (forward_inside_autocast Examples.plain_eval)
           (firstn 20 (fst (evaluate Examples.plain_eval)))
           (skipn 21 (fst (evaluate Examples.plain_eval))) 1%nat eq_refl).
Defined.
